(** * NHS data integration pipeline: validation, transform and load

    A shallow embedding of [scripts/etl_pipeline.py]: the Modulus 11
    identifier check, the construction of the star schema (three dimensions,
    three fact tables) and the replacement of the warehouse tables, followed
    by the properties of these definitions.

    Part I holds the definitions, Part II the theorems. *)

From Stdlib Require Import ZArith NArith List Lia String Ascii.
From Stdlib Require Import Decimal DecimalString.
From Stdlib Require DecimalFacts DecimalPos DecimalN.
From stdpp Require Import base decidable option list sorting gmap strings.

Local Open Scope Z_scope.

(* ===================================================================== *)
(** * Part I: the embedding                                               *)
(* ===================================================================== *)

(** ** Python values, strings and exceptions *)

(** A Python [str] is a sequence of Unicode code points. *)
Definition pystr := list N.

(** The code points of an ASCII literal. *)
Definition codepoints (s : string) : pystr :=
  map N_of_ascii (list_ascii_of_string s).

Inductive exn :=
  | ValueError
  | IndexError
  | TypeError
  | CatalogException
  | UserError.

(** The outcome of evaluating a Python expression or block: it returns a
    value or an exception propagates. *)
Inductive outcome (A : Type) :=
  | Returns (a : A)
  | Raises (e : exn).
Arguments Returns {A} a.
Arguments Raises {A} e.

#[global] Instance outcome_ret : MRet outcome := @Returns.
#[global] Instance outcome_bind : MBind outcome := λ A B f m,
  match m with
  | Returns a => f a
  | Raises e => Raises e
  end.

#[global] Instance outcome_fmap : FMap outcome := λ A B f m,
  match m with
  | Returns a => Returns (f a)
  | Raises e => Raises e
  end.

(** [try: body / except: handler] with a bare [except], which catches every
    exception. *)
Definition try_except {A} (body handler : outcome A) : outcome A :=
  match body with
  | Returns a => Returns a
  | Raises _ => handler
  end.

(** [for x in xs: s = body x s], stopping at the first exception. *)
Fixpoint for_each {A S} (xs : list A) (body : A → S → outcome S) (s : S)
  : outcome S :=
  match xs with
  | [] => Returns s
  | x :: xs => s' ← body x s; for_each xs body s'
  end.

(** [range(n)] *)
Definition range (n : nat) : list nat := seq 0 n.

(** The values [validate_nhs_number] may be handed.  [PyObject] stands for
    any other object (a float other than NaN, a list, an instance of a user
    class), described by what calling [str] on it does. *)
Inductive pyval :=
  | PyNone
  | PyBool (b : bool)
  | PyInt (n : Z)
  | PyNaN
  | PyStr (s : pystr)
  | PyObject (str_method : outcome pystr).

(** What the interpreter contributes: the decimal value of a code point of
    Unicode category Nd ([None] for every other code point), and the limit
    on the number of digits of an integer converted to text
    ([sys.get_int_max_str_digits()], [0] when the limit is off). *)
Record Python := {
  unicode_decimal : N → option Z;
  int_max_str_digits : nat
}.

(** An interpreter that knows the ASCII digits only, without digit limit. *)
Definition ascii_decimal (c : N) : option Z :=
  if decide (48 ≤ c ∧ c ≤ 57)%N then Some (Z.of_N c - 48) else None.

Definition ascii_python : Python :=
  {| unicode_decimal := ascii_decimal; int_max_str_digits := 0 |}.

(** The decimal digits of the absolute value of [n]. *)
Definition decimal_digits (n : Z) : pystr :=
  codepoints (NilZero.string_of_uint (N.to_uint (Z.abs_N n))).

(** The text of [str(n)] for an integer [n]. *)
Definition decimal_repr (n : Z) : pystr :=
  (if decide (n < 0) then codepoints "-" else []) ++ decimal_digits n.

Section Interpreter.
Variable py : Python.

(** [str(v)] *)
Definition py_str (v : pyval) : outcome pystr :=
  match v with
  | PyNone => Returns (codepoints "None")
  | PyBool true => Returns (codepoints "True")
  | PyBool false => Returns (codepoints "False")
  | PyInt n =>
      if decide (int_max_str_digits py ≠ 0%nat
                 ∧ (int_max_str_digits py < length (decimal_digits n))%nat)
      then Raises ValueError
      else Returns (decimal_repr n)
  | PyNaN => Returns (codepoints "nan")
  | PyStr s => Returns s
  | PyObject str_method => str_method
  end.

(** [s[i]] for an index [i ≥ 0]; the result is the one-character string
    made of the code point at [i]. *)
Definition py_getitem (s : pystr) (i : nat) : outcome N :=
  match s !! i with
  | Some c => Returns c
  | None => Raises IndexError
  end.

(** [int(c)] for a one-character string [c]: the character has to be a
    decimal digit (a lone sign, underscore or blank is refused). *)
Definition py_int (c : N) : outcome Z :=
  match unicode_decimal py c with
  | Some d => Returns d
  | None => Raises ValueError
  end.

(** ** The identifier validator *)

(** [validate_nhs_number], lines 47 to 66. *)
Definition validate_nhs_number (nhs_no : pyval) : outcome bool :=
  try_except
    (nhs_no ← py_str nhs_no;
     if decide (length nhs_no ≠ 10%nat) then Returns false
     else
       total ← for_each (range 9)
                 (λ i total,
                    c ← py_getitem nhs_no i;
                    d ← py_int c;
                    Returns (total + d * (10 - Z.of_nat i)))
                 0;
       let check_digit := 11 - total `mod` 11 in
       match (if decide (check_digit = 11) then inl 0
              else if decide (check_digit = 10) then inr false
              else inl check_digit) with
       | inr early => Returns early
       | inl check_digit =>
           c ← py_getitem nhs_no 9;
           d ← py_int c;
           Returns (bool_decide (d = check_digit))
       end)
    (Returns false).

(** The digits of a string all of whose characters are decimal digits. *)
Definition digits_of (s : pystr) : option (list Z) :=
  mapM (unicode_decimal py) s.
End Interpreter.

(** ** The checksum as the specification words it *)

(** Weighted sum of the first nine digits: the digit at position [i]
    (counted from 0) times [10 - i]. *)
Definition spec_weighted_sum (ds : list Z) : Z :=
  foldr Z.add 0 (imap (λ i d, d * (10 - Z.of_nat i)) (take 9 ds)).

(** [check = 11 - (sum mod 11)] *)
Definition spec_check (ds : list Z) : Z := 11 - spec_weighted_sum ds `mod` 11.

(** A check of 11 is treated as 0; a check of 10 makes the identifier
    invalid; otherwise the tenth digit has to equal the check. *)
Definition spec_valid (ds : list Z) : Prop :=
  let check := spec_check ds in
  let check := if decide (check = 11) then 0 else check in
  check ≠ 10 ∧ ds !! 9%nat = Some check.

(** ** Timestamps and the date key *)

(** A pandas [Timestamp], split into its calendar date and the time of day
    (nanoseconds since midnight).  [pd.to_datetime] is pandas' parser: the
    embedding starts from what it returns for a source cell, a [Timestamp]
    or [NaT] (here [None]). *)
Record Timestamp := {
  ts_year : Z;
  ts_month : Z;
  ts_day : Z;
  ts_time : Z
}.

#[global] Instance Timestamp_eq_dec : EqDecision Timestamp.
Proof. solve_decision. Defined.

(** The calendar date of a timestamp: the timestamp at midnight. *)
Definition normalize (t : Timestamp) : Timestamp :=
  {| ts_year := ts_year t; ts_month := ts_month t; ts_day := ts_day t;
     ts_time := 0 |}.

(** Chronological order of timestamps. *)
Definition ts_compare (a b : Timestamp) : comparison :=
  match ts_year a ?= ts_year b with
  | Eq =>
      match ts_month a ?= ts_month b with
      | Eq =>
          match ts_day a ?= ts_day b with
          | Eq => ts_time a ?= ts_time b
          | c => c
          end
      | c => c
      end
  | c => c
  end.

Definition ts_le (a b : Timestamp) : Prop := ts_compare a b ≠ Gt.

#[global] Instance ts_le_dec : RelDecision ts_le.
Proof. intros a b. unfold ts_le. apply _. Defined.

(** [n] in decimal, padded with zeros on the left to [width] characters. *)
Definition zero_pad (width : nat) (n : Z) : pystr :=
  let ds := decimal_digits n in
  replicate (width - length ds) 48%N ++ ds.

(** [strftime('%Y%m%d')] *)
Definition strftime_Ymd (t : Timestamp) : pystr :=
  zero_pad 4 (ts_year t) ++ zero_pad 2 (ts_month t) ++ zero_pad 2 (ts_day t).

(** [int(s)] for a string of ASCII digits. *)
Definition int_of_digits (s : pystr) : outcome Z :=
  if decide (s = []) then Raises ValueError
  else
    for_each s
      (λ c n, match ascii_decimal c with
              | Some d => Returns (10 * n + d)
              | None => Raises ValueError
              end)
      0.

(** [.astype(int)] on one cell of the column [.dt.strftime] produced: the
    cell of a [NaT] is NaN, which cannot be cast. *)
Definition astype_int (s : option pystr) : outcome Z :=
  match s with
  | Some s => int_of_digits s
  | None => Raises ValueError
  end.

(** [col.dt.strftime('%Y%m%d').astype(int)] on one cell. *)
Definition to_date_key (d : option Timestamp) : outcome Z :=
  astype_int (strftime_Ymd <$> d).

(** Days from 1970-01-01 to a date of the proleptic Gregorian calendar. *)
Definition days_from_civil (y m d : Z) : Z :=
  let y := if decide (m ≤ 2) then y - 1 else y in
  let era := y `div` 400 in
  let yoe := y - era * 400 in
  let doy := (153 * (if decide (m > 2) then m - 3 else m + 9) + 2) `div` 5
             + d - 1 in
  let doe := yoe * 365 + yoe `div` 4 - yoe `div` 100 + doy in
  era * 146097 + doe - 719468.

(** [.dt.dayofweek]: Monday is 0. *)
Definition dayofweek (t : Timestamp) : Z :=
  (days_from_civil (ts_year t) (ts_month t) (ts_day t) + 3) `mod` 7.

(** [.dt.quarter] *)
Definition quarter (t : Timestamp) : Z := (ts_month t - 1) `div` 3 + 1.

(** ** Source frames

    A data frame is the list of its rows.  [K] is the type of the values of
    the [nhs_number] columns, with [None] for a missing value (the merge
    matches missing with missing, as pandas does); [cell] is the type of the
    values the pipeline only copies. *)

(** A row of [patients.csv] (PAS). *)
Record PasRow {K cell : Type} := {
  pas_patient_id : cell;
  pas_nhs_number : option K;
  pas_title : cell;
  pas_first_name : cell;
  pas_last_name : cell;
  pas_date_of_birth : cell;
  pas_age : cell;
  pas_gender : cell;
  pas_ethnicity : cell;
  pas_postcode : cell;
  pas_city : cell;
  (** [address_line1], [phone], [email], ..., which the transform drops *)
  pas_other_columns : list cell
}.
Arguments PasRow : clear implicits.

(** The value under [primary_diagnosis] of an encounter document: null, a
    dictionary (given by what [.get] returns for the two keys read, [None]
    for an absent key or a null), or some other scalar. *)
Inductive diagnosis_value {cell : Type} :=
  | DiagnosisNull
  | DiagnosisDict (icd10_code description : option cell)
  | DiagnosisScalar (v : cell).
Arguments diagnosis_value : clear implicits.

(** A document of [encounters.json] (EHR). *)
Record EhrRow {K cell : Type} := {
  ehr_encounter_id : cell;
  ehr_nhs_number : option K;
  ehr_encounter_date : option Timestamp;
  ehr_encounter_type : cell;
  ehr_department : cell;
  ehr_primary_diagnosis : diagnosis_value cell
}.
Arguments EhrRow : clear implicits.

(** A row of [lab_results.csv] (LIMS). *)
Record LimsRow {K cell : Type} := {
  lims_test_id : cell;
  lims_nhs_number : option K;
  lims_test_type : cell;
  lims_test_component : cell;
  lims_order_date : option Timestamp;
  lims_result_value : cell;
  lims_is_abnormal : cell
}.
Arguments LimsRow : clear implicits.

(** A row of [appointments.csv]. *)
Record AppointmentRow {K cell : Type} := {
  apt_appointment_id : cell;
  apt_nhs_number : option K;
  apt_appointment_date : option Timestamp;
  apt_appointment_type : cell;
  apt_specialty : cell;
  apt_attendance_status : cell
}.
Arguments AppointmentRow : clear implicits.

(** ** Warehouse frames *)

Record DimPatient {K cell : Type} := {
  patient_id : cell;
  nhs_number : option K;
  title : cell;
  first_name : cell;
  last_name : cell;
  date_of_birth : cell;
  age : cell;
  gender : cell;
  ethnicity : cell;
  postcode : cell;
  city : cell;
  patient_key : Z
}.
Arguments DimPatient : clear implicits.

Record DimDate := {
  date : Timestamp;
  date_key : Z;
  year : Z;
  quarter_of_year : Z;
  month : Z;
  day : Z;
  day_of_week : Z
}.

Record DimDiagnosis {cell : Type} := {
  icd10_code : option cell;
  description : option cell;
  diagnosis_key : Z
}.
Arguments DimDiagnosis : clear implicits.

(** In the fact tables [patient_key] is [None] where the merge found no
    patient (pandas writes NaN). *)
Record FactEncounter {K cell : Type} := {
  fe_encounter_id : cell;
  fe_nhs_number : option K;
  fe_encounter_date : option Timestamp;
  fe_encounter_type : cell;
  fe_department : cell;
  fe_patient_key : option Z;
  fe_date_key : Z
}.
Arguments FactEncounter : clear implicits.

Record FactLabTest {K cell : Type} := {
  fl_test_id : cell;
  fl_nhs_number : option K;
  fl_test_type : cell;
  fl_test_component : cell;
  fl_order_date : option Timestamp;
  fl_result_value : cell;
  fl_is_abnormal : cell;
  fl_patient_key : option Z;
  fl_date_key : Z
}.
Arguments FactLabTest : clear implicits.

Record FactAppointment {K cell : Type} := {
  fa_appointment_id : cell;
  fa_nhs_number : option K;
  fa_appointment_date : option Timestamp;
  fa_appointment_type : cell;
  fa_specialty : cell;
  fa_attendance_status : cell;
  fa_patient_key : option Z;
  fa_date_key : Z
}.
Arguments FactAppointment : clear implicits.

(** ** pandas operations *)

(** [Series.unique()] and [DataFrame.drop_duplicates()]: the first
    occurrence of every value, in order of appearance. *)
Fixpoint unique `{EqDecision A} (l : list A) : list A :=
  match l with
  | [] => []
  | x :: l => x :: filter (λ y, y ≠ x) (unique l)
  end.

(** [left.merge(right, on=key, how='left')]: every left row, in order, with
    each right row of the same key, or with nothing when no right row has
    that key. *)
Definition merge_left `{EqDecision K} {L R}
    (left_on : L → option K) (right_on : R → option K)
    (left : list L) (right : list R) : list (L * option R) :=
  l ← left;
  match filter (λ r, right_on r = left_on l) right with
  | [] => [(l, None)]
  | matches => (λ r, (l, Some r)) <$> matches
  end.

(** [df.sort_values('date')] on the date dimension. *)
Definition sort_values_date (rows : list DimDate) : list DimDate :=
  merge_sort (λ a b, ts_le (date a) (date b)) rows.

(** ** The transform phase *)

Section Transform.
Context {K cell : Type} `{!EqDecision K, !EqDecision cell}.

(** [dim_patient], lines 95 to 99: the projection on eleven columns, then
    the column [patient_key = range(1, len(dim_patient) + 1)]. *)
Definition dim_patient (df_pas : list (PasRow K cell))
  : list (DimPatient K cell) :=
  zip_with
    (λ (p : PasRow K cell) (k : nat),
       {| patient_id := pas_patient_id p;
          nhs_number := pas_nhs_number p;
          title := pas_title p;
          first_name := pas_first_name p;
          last_name := pas_last_name p;
          date_of_birth := pas_date_of_birth p;
          age := pas_age p;
          gender := pas_gender p;
          ethnicity := pas_ethnicity p;
          postcode := pas_postcode p;
          city := pas_city p;
          patient_key := Z.of_nat k |})
    df_pas (seq 1 (length df_pas)).

(** One row of the date dimension, lines 110 to 115.  The cast of line 110
    fails on [NaT]. *)
Definition dim_date_row (d : option Timestamp) : outcome DimDate :=
  k ← to_date_key d;
  match d with
  | Some t =>
      Returns {| date := t; date_key := k; year := ts_year t;
                 quarter_of_year := quarter t; month := ts_month t;
                 day := ts_day t; day_of_week := dayofweek t |}
  | None => Raises ValueError
  end.

(** [dim_date], lines 103 to 116. *)
Definition dim_date (df_ehr : list (EhrRow K cell))
    (df_lims : list (LimsRow K cell))
    (df_appointments : list (AppointmentRow K cell))
  : outcome (list DimDate) :=
  let all_dates :=
    (ehr_encounter_date <$> df_ehr) ++ (lims_order_date <$> df_lims)
    ++ (apt_appointment_date <$> df_appointments) in
  unique_dates ← mapM dim_date_row (unique all_dates);
  Returns (sort_values_date unique_dates).

(** The loop of lines 120 to 128: the (code, description) pairs of the
    encounters whose primary diagnosis is a dictionary. *)
Definition diagnosis_data (df_ehr : list (EhrRow K cell))
  : list (option cell * option cell) :=
  row ← df_ehr;
  match ehr_primary_diagnosis row with
  | DiagnosisDict code descr => [(code, descr)]
  | DiagnosisNull | DiagnosisScalar _ => []
  end.

(** [dim_diagnosis], lines 129 and 130. *)
Definition dim_diagnosis (df_ehr : list (EhrRow K cell))
  : list (DimDiagnosis cell) :=
  let deduplicated := unique (diagnosis_data df_ehr) in
  zip_with
    (λ (d : option cell * option cell) (k : nat),
       {| icd10_code := d.1; description := d.2;
          diagnosis_key := Z.of_nat k |})
    deduplicated (seq 1 (length deduplicated)).

(** [dim_patient[['nhs_number', 'patient_key']]] *)
Definition patient_keys (dim_patient : list (DimPatient K cell))
  : list (option K * Z) :=
  (λ p, (nhs_number p, patient_key p)) <$> dim_patient.

(** [fact_encounters], lines 134 to 142. *)
Definition fact_encounters (df_ehr : list (EhrRow K cell))
    (dim_patient : list (DimPatient K cell))
  : outcome (list (FactEncounter K cell)) :=
  mapM
    (λ (row : EhrRow K cell * option (option K * Z)),
       k ← to_date_key (ehr_encounter_date row.1);
       Returns {| fe_encounter_id := ehr_encounter_id row.1;
                  fe_nhs_number := ehr_nhs_number row.1;
                  fe_encounter_date := ehr_encounter_date row.1;
                  fe_encounter_type := ehr_encounter_type row.1;
                  fe_department := ehr_department row.1;
                  fe_patient_key := snd <$> row.2;
                  fe_date_key := k |})
    (merge_left ehr_nhs_number fst df_ehr (patient_keys dim_patient)).

(** [fact_lab_tests], lines 146 to 154. *)
Definition fact_lab_tests (df_lims : list (LimsRow K cell))
    (dim_patient : list (DimPatient K cell))
  : outcome (list (FactLabTest K cell)) :=
  mapM
    (λ (row : LimsRow K cell * option (option K * Z)),
       k ← to_date_key (lims_order_date row.1);
       Returns {| fl_test_id := lims_test_id row.1;
                  fl_nhs_number := lims_nhs_number row.1;
                  fl_test_type := lims_test_type row.1;
                  fl_test_component := lims_test_component row.1;
                  fl_order_date := lims_order_date row.1;
                  fl_result_value := lims_result_value row.1;
                  fl_is_abnormal := lims_is_abnormal row.1;
                  fl_patient_key := snd <$> row.2;
                  fl_date_key := k |})
    (merge_left lims_nhs_number fst df_lims (patient_keys dim_patient)).

(** [fact_appointments], lines 158 to 166. *)
Definition fact_appointments (df_appointments : list (AppointmentRow K cell))
    (dim_patient : list (DimPatient K cell))
  : outcome (list (FactAppointment K cell)) :=
  mapM
    (λ (row : AppointmentRow K cell * option (option K * Z)),
       k ← to_date_key (apt_appointment_date row.1);
       Returns {| fa_appointment_id := apt_appointment_id row.1;
                  fa_nhs_number := apt_nhs_number row.1;
                  fa_appointment_date := apt_appointment_date row.1;
                  fa_appointment_type := apt_appointment_type row.1;
                  fa_specialty := apt_specialty row.1;
                  fa_attendance_status := apt_attendance_status row.1;
                  fa_patient_key := snd <$> row.2;
                  fa_date_key := k |})
    (merge_left apt_nhs_number fst df_appointments (patient_keys dim_patient)).
End Transform.

(** The four extracted sources and the six tables built from them. *)
Record Sources {K cell : Type} := {
  df_pas : list (PasRow K cell);
  df_ehr : list (EhrRow K cell);
  df_lims : list (LimsRow K cell);
  df_appointments : list (AppointmentRow K cell)
}.
Arguments Sources : clear implicits.

Record Tables {K cell : Type} := {
  t_dim_patient : list (DimPatient K cell);
  t_dim_date : list DimDate;
  t_dim_diagnosis : list (DimDiagnosis cell);
  t_fact_encounters : list (FactEncounter K cell);
  t_fact_lab_tests : list (FactLabTest K cell);
  t_fact_appointments : list (FactAppointment K cell)
}.
Arguments Tables : clear implicits.

(** Phase 3 as a whole, lines 94 to 167, in the order of the script. *)
Definition transform {K cell : Type} `{!EqDecision K, !EqDecision cell}
    (src : Sources K cell) : outcome (Tables K cell) :=
  let dp := dim_patient (df_pas src) in
  dd ← dim_date (df_ehr src) (df_lims src) (df_appointments src);
  let dg := dim_diagnosis (df_ehr src) in
  fe ← fact_encounters (df_ehr src) dp;
  fl ← fact_lab_tests (df_lims src) dp;
  fa ← fact_appointments (df_appointments src) dp;
  Returns {| t_dim_patient := dp; t_dim_date := dd; t_dim_diagnosis := dg;
             t_fact_encounters := fe; t_fact_lab_tests := fl;
             t_fact_appointments := fa |}.

(** ** The load phase *)

(** The contents of a warehouse table. *)
Inductive frame {K cell : Type} :=
  | PatientFrame (rows : list (DimPatient K cell))
  | DateFrame (rows : list DimDate)
  | DiagnosisFrame (rows : list (DimDiagnosis cell))
  | EncounterFrame (rows : list (FactEncounter K cell))
  | LabTestFrame (rows : list (FactLabTest K cell))
  | AppointmentFrame (rows : list (FactAppointment K cell)).
Arguments frame : clear implicits.

(** The number of rows of a table. *)
Definition row_count {K cell} (f : frame K cell) : nat :=
  match f with
  | PatientFrame rows => length rows
  | DateFrame rows => length rows
  | DiagnosisFrame rows => length rows
  | EncounterFrame rows => length rows
  | LabTestFrame rows => length rows
  | AppointmentFrame rows => length rows
  end.

Section Load.
Context {K cell : Type}.

(** The catalog of the DuckDB file: its tables by name. *)
Local Abbreviation warehouse := (gmap string (frame K cell)).

(** [DROP TABLE IF EXISTS name] *)
Definition drop_table_if_exists (name : string) (conn : warehouse)
  : outcome warehouse :=
  Returns (delete name conn).

(** [CREATE TABLE name AS SELECT * FROM name], where the [FROM] resolves
    to the data frame of that name once the catalog has no such table.  The
    statement fails when the catalog still has a table of the name. *)
Definition create_table_as (name : string) (df : frame K cell)
    (conn : warehouse) : outcome warehouse :=
  match conn !! name with
  | Some _ => Raises CatalogException
  | None => Returns (<[name := df]> conn)
  end.

(** Phase 4, lines 180 to 226. *)
Definition load (t : Tables K cell) (conn : warehouse) : outcome warehouse :=
  conn ← drop_table_if_exists "dim_patient" conn;
  conn ← create_table_as "dim_patient" (PatientFrame (t_dim_patient t)) conn;
  conn ← drop_table_if_exists "dim_date" conn;
  conn ← create_table_as "dim_date" (DateFrame (t_dim_date t)) conn;
  conn ← drop_table_if_exists "dim_diagnosis" conn;
  conn ← create_table_as "dim_diagnosis"
           (DiagnosisFrame (t_dim_diagnosis t)) conn;
  conn ← drop_table_if_exists "fact_encounters" conn;
  conn ← create_table_as "fact_encounters"
           (EncounterFrame (t_fact_encounters t)) conn;
  conn ← drop_table_if_exists "fact_lab_tests" conn;
  conn ← create_table_as "fact_lab_tests"
           (LabTestFrame (t_fact_lab_tests t)) conn;
  conn ← drop_table_if_exists "fact_appointments" conn;
  create_table_as "fact_appointments"
    (AppointmentFrame (t_fact_appointments t)) conn.

(** The names of the six tables, in load order. *)
Definition table_names : list string :=
  ["dim_patient"; "dim_date"; "dim_diagnosis"; "fact_encounters";
   "fact_lab_tests"; "fact_appointments"]%string.

(** The in-memory table loaded under each name. *)
Definition in_memory (t : Tables K cell) (name : string)
  : option (frame K cell) :=
  if decide (name = "dim_patient"%string)
  then Some (PatientFrame (t_dim_patient t))
  else if decide (name = "dim_date"%string)
  then Some (DateFrame (t_dim_date t))
  else if decide (name = "dim_diagnosis"%string)
  then Some (DiagnosisFrame (t_dim_diagnosis t))
  else if decide (name = "fact_encounters"%string)
  then Some (EncounterFrame (t_fact_encounters t))
  else if decide (name = "fact_lab_tests"%string)
  then Some (LabTestFrame (t_fact_lab_tests t))
  else if decide (name = "fact_appointments"%string)
  then Some (AppointmentFrame (t_fact_appointments t))
  else None.
End Load.

(** ** Dates as pandas holds them *)

(** A timestamp pandas can hold and print with four year digits. *)
Definition valid_timestamp (t : Timestamp) : Prop :=
  1000 ≤ ts_year t ≤ 9999 ∧ 1 ≤ ts_month t ≤ 12 ∧ 1 ≤ ts_day t ≤ 31
  ∧ 0 ≤ ts_time t < 86400000000000.

(** A date cell that holds a timestamp (not [NaT]). *)
Definition valid_date (d : option Timestamp) : Prop :=
  ∃ t, d = Some t ∧ valid_timestamp t.

(** A timestamp without time of day. *)
Definition date_only (d : option Timestamp) : Prop :=
  ∀ t, d = Some t → ts_time t = 0.

Definition is_digit (c : N) : bool := ((48 <=? c) && (c <=? 57))%N.

(** The number a string of ASCII digits denotes. *)
Definition digits_value (s : pystr) : Z :=
  foldl (λ n c, 10 * n + (Z.of_N c - 48)) 0 s.

(** [zero_pad width n] is made of [width] digits that denote [n]. *)
Definition pad_ok (width : nat) (n : Z) : bool :=
  let s := zero_pad width n in
  forallb is_digit s && (length s =? width)%nat && (digits_value s =? n).

(** ** Sample data *)

Definition at_time (y m d hour minute second : Z) : Timestamp :=
  {| ts_year := y; ts_month := m; ts_day := d;
     ts_time := ((hour * 60 + minute) * 60 + second) * 1000000000 |}.

Definition patient (id : string) (nhs : Z) (first last : string)
  : PasRow Z string :=
  {| pas_patient_id := id; pas_nhs_number := Some nhs; pas_title := "Dr";
     pas_first_name := first; pas_last_name := last;
     pas_date_of_birth := "1980-02-29"; pas_age := "45";
     pas_gender := "Female"; pas_ethnicity := "White British";
     pas_postcode := "LS1 4AP"; pas_city := "Leeds";
     pas_other_columns := ["1 High Street"; "0113 496 0000"] |}%string.

Definition encounter (id : string) (nhs : Z) (t : Timestamp)
    (diagnosis : diagnosis_value string) : EhrRow Z string :=
  {| ehr_encounter_id := id; ehr_nhs_number := Some nhs;
     ehr_encounter_date := Some t; ehr_encounter_type := "Outpatient";
     ehr_department := "Cardiology"; ehr_primary_diagnosis := diagnosis |}%string.

Definition lab_test (id : string) (nhs : Z) (t : Timestamp)
  : LimsRow Z string :=
  {| lims_test_id := id; lims_nhs_number := Some nhs;
     lims_test_type := "Full Blood Count"; lims_test_component := "Haemoglobin";
     lims_order_date := Some t; lims_result_value := "13.5";
     lims_is_abnormal := "False" |}%string.

Definition appointment (id : string) (nhs : Z) (t : Timestamp)
  : AppointmentRow Z string :=
  {| apt_appointment_id := id; apt_nhs_number := Some nhs;
     apt_appointment_date := Some t; apt_appointment_type := "Follow-up";
     apt_specialty := "Cardiology"; apt_attendance_status := "Attended" |}%string.

Definition hypertension : diagnosis_value string :=
  DiagnosisDict (Some "I10") (Some "Essential hypertension")%string.

(** Three patients; five encounters, two of them of an identifier no
    patient has; the first two encounters fall on the same day. *)
Definition sample_sources : Sources Z string :=
  {| df_pas :=
       [patient "PAS000001" 9434765919 "Ada" "Moore";
        patient "PAS000002" 4010232137 "Bea" "Shah";
        patient "PAS000003" 9000000009 "Cy" "Okoro"]%string;
     df_ehr :=
       [encounter "ENC00000001" 9434765919 (at_time 2024 1 5 9 30 0)
          hypertension;
        encounter "ENC00000002" 4010232137 (at_time 2024 1 5 14 45 0)
          DiagnosisNull;
        encounter "ENC00000003" 1234567881 (at_time 2024 2 10 8 0 0)
          hypertension;
        encounter "ENC00000004" 9000000009 (at_time 2024 3 1 11 15 0)
          (DiagnosisDict (Some "E11") (Some "Type 2 diabetes mellitus"));
        encounter "ENC00000005" 1234567881 (at_time 2024 3 2 16 0 0)
          DiagnosisNull]%string;
     df_lims :=
       [lab_test "LAB00000001_Haemoglobin" 9434765919
          (at_time 2024 1 6 7 5 0)]%string;
     df_appointments :=
       [appointment "APT00000001" 4010232137 (at_time 2024 3 1 0 0 0)]%string |}.

(** Two encounters on 5 January 2024, at 09:30 and at 14:45. *)
Definition same_day_encounters : list (EhrRow Z string) :=
  [encounter "ENC00000001" 9434765919 (at_time 2024 1 5 9 30 0) hypertension;
   encounter "ENC00000002" 4010232137 (at_time 2024 1 5 14 45 0) hypertension]%string.

Definition same_day_sources : Sources Z string :=
  {| df_pas := [patient "PAS000001" 9434765919 "Ada" "Moore";
                patient "PAS000002" 4010232137 "Bea" "Shah"]%string;
     df_ehr := same_day_encounters; df_lims := []; df_appointments := [] |}.

(** The value returned, or [default] after an exception. *)
Definition returned {A} (default : A) (o : outcome A) : A :=
  match o with
  | Returns a => a
  | Raises _ => default
  end.

Definition no_tables : Tables Z string :=
  {| t_dim_patient := []; t_dim_date := []; t_dim_diagnosis := [];
     t_fact_encounters := []; t_fact_lab_tests := [];
     t_fact_appointments := [] |}.

Definition sample_tables : Tables Z string :=
  returned no_tables (transform sample_sources).

Definition same_day_tables : Tables Z string :=
  returned no_tables (transform same_day_sources).

(** ** The identifier generator of [scripts/generate_pas_data.py] *)

(** The interpreter reads the ASCII digits as digits. *)
Definition ascii_digits_known (py : Python) : Prop :=
  ∀ c d, ascii_decimal c = Some d → unicode_decimal py c = Some d.

(** The decimal value of a character is a digit. *)
Definition decimal_range (py : Python) : Prop :=
  ∀ c d, unicode_decimal py c = Some d → 0 ≤ d ≤ 9.

(** The limit on the digits of a printed integer is off or admits ten
    digits (CPython refuses to set it below 640). *)
Definition prints_ten_digits (py : Python) : Prop :=
  int_max_str_digits py = 0%nat ∨ (10 ≤ int_max_str_digits py)%nat.

Section Generator.
Variable py : Python.

(** [calculate_nhs_check_digit], lines 18 to 30 of [generate_pas_data.py].
    There is no [try]: what [first_nine[i]] or [int] raise propagates.
    [None] is the Python [None] returned for a check of 10. *)
Definition calculate_nhs_check_digit (first_nine : pystr)
  : outcome (option pystr) :=
  total ← for_each (range 9)
            (λ i total,
               c ← py_getitem first_nine i;
               d ← py_int py c;
               Returns (total + d * (10 - Z.of_nat i)))
            0;
  let check_digit := 11 - total `mod` 11 in
  match (if decide (check_digit = 11) then inl 0
         else if decide (check_digit = 10) then inr None
         else inl check_digit) with
  | inr early => Returns early
  | inl check_digit =>
      s ← py_str py (PyInt check_digit);
      Returns (Some s)
  end.

(** [generate_nhs_number], lines 32 to 38.  The random source is given by
    what it returns: [rounds] lists, for each turn of the [while] loop, the
    integers [random.randint(0, 9)] returns in that turn.  The result is
    [None] when these turns are used up before a number is returned (the loop
    would draw again). *)
Fixpoint generate_nhs_number (rounds : list (list Z)) : outcome (option pystr) :=
  match rounds with
  | [] => Returns None
  | draws :: rounds =>
      digits ← mapM (λ d, py_str py (PyInt d)) draws;
      let first_nine := concat digits in
      check_digit ← calculate_nhs_check_digit first_nine;
      match check_digit with
      | Some check_digit => Returns (Some (first_nine ++ check_digit))
      | None => generate_nhs_number rounds
      end
  end.

(** The draws of one turn as the comprehension and [randint(0, 9)] make
    them: nine integers from 0 to 9. *)
Definition nine_draws (draws : list Z) : Prop :=
  length draws = 9%nat ∧ Forall (λ d, 0 ≤ d ≤ 9) draws.
End Generator.

(** The weighted sum over all ten digits: the check digit has weight 1. *)
Definition full_weighted_sum (ds : list Z) : Z :=
  foldr Z.add 0 (imap (λ i d, d * (10 - Z.of_nat i)) (take 10 ds)).

(** An interpreter with the default digit limit of CPython. *)
Definition cpython : Python :=
  {| unicode_decimal := ascii_decimal; int_max_str_digits := 4300 |}.

(** ** Fact rows and the events they copy *)

(** A row of [fact_encounters] that carries the columns of the encounter
    [e] and the date key of its date. *)
Definition copies_encounter {K cell} (f : FactEncounter K cell)
    (e : EhrRow K cell) : Prop :=
  fe_encounter_id f = ehr_encounter_id e
  ∧ fe_nhs_number f = ehr_nhs_number e
  ∧ fe_encounter_date f = ehr_encounter_date e
  ∧ fe_encounter_type f = ehr_encounter_type e
  ∧ fe_department f = ehr_department e
  ∧ to_date_key (ehr_encounter_date e) = Returns (fe_date_key f).

Definition copies_lab_test {K cell} (f : FactLabTest K cell)
    (e : LimsRow K cell) : Prop :=
  fl_test_id f = lims_test_id e
  ∧ fl_nhs_number f = lims_nhs_number e
  ∧ fl_test_type f = lims_test_type e
  ∧ fl_test_component f = lims_test_component e
  ∧ fl_order_date f = lims_order_date e
  ∧ fl_result_value f = lims_result_value e
  ∧ fl_is_abnormal f = lims_is_abnormal e
  ∧ to_date_key (lims_order_date e) = Returns (fl_date_key f).

Definition copies_appointment {K cell} (f : FactAppointment K cell)
    (e : AppointmentRow K cell) : Prop :=
  fa_appointment_id f = apt_appointment_id e
  ∧ fa_nhs_number f = apt_nhs_number e
  ∧ fa_appointment_date f = apt_appointment_date e
  ∧ fa_appointment_type f = apt_appointment_type e
  ∧ fa_specialty f = apt_specialty e
  ∧ fa_attendance_status f = apt_attendance_status e
  ∧ to_date_key (apt_appointment_date e) = Returns (fa_date_key f).

(** The [patient_key] of a fact row resolves in the patient dimension: it
    is the key of a patient with the [nhs_number] of the row, or it is null
    and no patient has that [nhs_number]. *)
Definition resolves {K cell} (dim_patient : list (DimPatient K cell))
    (nhs : option K) (key : option Z) : Prop :=
  match key with
  | Some k => ∃ p, p ∈ dim_patient ∧ patient_key p = k ∧ nhs_number p = nhs
  | None => nhs ∉ nhs_number <$> dim_patient
  end.

(** ** The quality figures of the validate phase *)

(** [pd.notna] on a [primary_diagnosis] cell. *)
Definition notna_diagnosis {cell} (d : diagnosis_value cell) : bool :=
  match d with
  | DiagnosisNull => false
  | DiagnosisDict _ _ | DiagnosisScalar _ => true
  end.

(** [ehr_with_diagnosis], line 77:
    [df_ehr['primary_diagnosis'].notna().sum()]. *)
Definition ehr_with_diagnosis {K cell} (df_ehr : list (EhrRow K cell)) : nat :=
  length (filter (λ e, notna_diagnosis (ehr_primary_diagnosis e) = true) df_ehr).

(** A cell of a text column: a string, or [None] for a missing value
    (NaN). *)
Definition text_cell := option pystr.

(** [column == text] on one cell: a missing value equals no string. *)
Definition cell_eq (c : text_cell) (text : string) : bool :=
  match c with
  | Some s => bool_decide (s = codepoints text)
  | None => false
  end.

(** [column != text] on one cell: a missing value differs from every
    string. *)
Definition cell_ne (c : text_cell) (text : string) : bool :=
  negb (cell_eq c text).

(** [apt_attended], line 85. *)
Definition apt_attended {K} (df_appointments : list (AppointmentRow K text_cell))
  : nat :=
  length (filter (λ a, cell_eq (apt_attendance_status a) "Attended" = true)
            df_appointments).

(** [apt_past], line 86. *)
Definition apt_past {K} (df_appointments : list (AppointmentRow K text_cell))
  : nat :=
  length (filter (λ a, cell_ne (apt_attendance_status a) "Scheduled" = true)
            df_appointments).

(** ** More sample data *)

(** An encounter whose date is missing. *)
Definition undated_sources : Sources Z string :=
  {| df_pas := [patient "PAS000001" 9434765919 "Ada" "Moore"]%string;
     df_ehr :=
       [{| ehr_encounter_id := "ENC00000001"; ehr_nhs_number := Some 9434765919;
           ehr_encounter_date := None; ehr_encounter_type := "Outpatient";
           ehr_department := "Cardiology";
           ehr_primary_diagnosis := DiagnosisNull |}]%string;
     df_lims := []; df_appointments := [] |}.

(** Sources whose dates carry no time of day: two encounters on the same
    day, one lab test and one appointment on other days. *)
Definition date_only_sources : Sources Z string :=
  {| df_pas := [patient "PAS000001" 9434765919 "Ada" "Moore"]%string;
     df_ehr :=
       [encounter "ENC00000001" 9434765919 (at_time 2024 1 5 0 0 0)
          hypertension;
        encounter "ENC00000002" 9434765919 (at_time 2024 1 5 0 0 0)
          DiagnosisNull]%string;
     df_lims :=
       [lab_test "LAB00000001_Haemoglobin" 9434765919
          (at_time 2024 1 6 0 0 0)]%string;
     df_appointments :=
       [appointment "APT00000001" 9434765919 (at_time 2024 3 1 0 0 0)]%string |}.

Definition date_only_tables : Tables Z string :=
  returned no_tables (transform date_only_sources).

(** The event dates of the three sources. *)
Definition event_dates {K cell} (src : Sources K cell)
  : list (option Timestamp) :=
  (ehr_encounter_date <$> df_ehr src) ++ (lims_order_date <$> df_lims src)
  ++ (apt_appointment_date <$> df_appointments src).

(** ** The verify phase *)

(** [SHOW TABLES], line 234: the names of the tables in the catalog. *)
Definition show_tables {K cell} (conn : gmap string (frame K cell))
  : gset string :=
  dom conn.

(** [SELECT COUNT( * ) FROM name], line 236; a name the catalog lacks is an
    error. *)
Definition count_star {K cell} (conn : gmap string (frame K cell))
    (name : string) : outcome nat :=
  match conn !! name with
  | Some df => Returns (row_count df)
  | None => Raises CatalogException
  end.

(* ===================================================================== *)
(** * Part II: properties                                                 *)
(* ===================================================================== *)

(** ** Sample evaluations *)

Example validate_9434765919 :
  validate_nhs_number ascii_python (PyStr (codepoints "9434765919")) = Returns true.
Proof. vm_compute. reflexivity. Qed.

Example validate_int :
  validate_nhs_number ascii_python (PyInt 9434765919) = Returns true.
Proof. vm_compute. reflexivity. Qed.

Example to_date_key_example :
  to_date_key (Some {| ts_year := 2024; ts_month := 3; ts_day := 7;
                       ts_time := 36000 |}) = Returns 20240307.
Proof. vm_compute. reflexivity. Qed.

Example dayofweek_examples :
  dayofweek {| ts_year := 2024; ts_month := 1; ts_day := 1; ts_time := 0 |} = 0
  ∧ dayofweek {| ts_year := 1970; ts_month := 1; ts_day := 1; ts_time := 0 |} = 3
  ∧ dayofweek {| ts_year := 2000; ts_month := 2; ts_day := 29; ts_time := 0 |} = 1.
Proof. vm_compute. auto. Qed.

(** ** The identifier validator *)

Section ValidatorFacts.
Variable py : Python.

(** The bare [except] turns every exception into [False]: the function
    returns on every argument. *)
Lemma validate_returns (v : pyval) :
  ∃ b, validate_nhs_number py v = Returns b.
Proof.
  unfold validate_nhs_number, try_except.
  match goal with |- ∃ b, match ?body with _ => _ end = _ =>
    destruct body as [b|e] end; eauto.
Qed.

(** A string of another length than 10 is refused. *)
Lemma validate_wrong_length (s : pystr) :
  length s ≠ 10%nat → validate_nhs_number py (PyStr s) = Returns false.
Proof.
  intros Hlen. unfold validate_nhs_number. cbn.
  destruct (decide (length s ≠ 10%nat)); [reflexivity | contradiction].
Qed.

(** Splitting a string of ten characters into its characters. *)
Lemma length_10_inv {A} (s : list A) :
  length s = 10%nat →
  ∃ c0 c1 c2 c3 c4 c5 c6 c7 c8 c9, s = [c0; c1; c2; c3; c4; c5; c6; c7; c8; c9].
Proof.
  intros Hlen.
  do 10 (destruct s as [|? s]; [discriminate Hlen|]).
  destruct s; [|discriminate Hlen].
  repeat eexists.
Qed.

(** Only strings of ten decimal digits are accepted. *)
Lemma validate_true_inv (s : pystr) :
  validate_nhs_number py (PyStr s) = Returns true →
  length s = 10%nat ∧ ∃ ds, digits_of py s = Some ds.
Proof.
  intros Hv.
  destruct (decide (length s = 10%nat)) as [Hlen|Hlen];
    [|rewrite validate_wrong_length in Hv by done; discriminate].
  split; [done|].
  destruct (length_10_inv s Hlen)
    as (c0 & c1 & c2 & c3 & c4 & c5 & c6 & c7 & c8 & c9 & ->).
  unfold digits_of. cbn.
  unfold validate_nhs_number in Hv. cbn in Hv. unfold py_int in Hv.
  destruct (unicode_decimal py c0); [|discriminate]; cbn in Hv |- *.
  destruct (unicode_decimal py c1); [|discriminate]; cbn in Hv |- *.
  destruct (unicode_decimal py c2); [|discriminate]; cbn in Hv |- *.
  destruct (unicode_decimal py c3); [|discriminate]; cbn in Hv |- *.
  destruct (unicode_decimal py c4); [|discriminate]; cbn in Hv |- *.
  destruct (unicode_decimal py c5); [|discriminate]; cbn in Hv |- *.
  destruct (unicode_decimal py c6); [|discriminate]; cbn in Hv |- *.
  destruct (unicode_decimal py c7); [|discriminate]; cbn in Hv |- *.
  destruct (unicode_decimal py c8); [|discriminate]; cbn in Hv |- *.
  destruct (unicode_decimal py c9); [eauto|].
  repeat case_decide; discriminate.
Qed.
End ValidatorFacts.

Section ValidatorClaims.
Variable py : Python.

(** The digits of a ten-character string, one by one. *)
Lemma digits_of_10_inv c0 c1 c2 c3 c4 c5 c6 c7 c8 c9 ds :
  digits_of py [c0; c1; c2; c3; c4; c5; c6; c7; c8; c9] = Some ds →
  ∃ d0 d1 d2 d3 d4 d5 d6 d7 d8 d9,
    ds = [d0; d1; d2; d3; d4; d5; d6; d7; d8; d9]
    ∧ unicode_decimal py c0 = Some d0 ∧ unicode_decimal py c1 = Some d1
    ∧ unicode_decimal py c2 = Some d2 ∧ unicode_decimal py c3 = Some d3
    ∧ unicode_decimal py c4 = Some d4 ∧ unicode_decimal py c5 = Some d5
    ∧ unicode_decimal py c6 = Some d6 ∧ unicode_decimal py c7 = Some d7
    ∧ unicode_decimal py c8 = Some d8 ∧ unicode_decimal py c9 = Some d9.
Proof.
  unfold digits_of. intros Hd. apply mapM_Some in Hd.
  repeat match goal with
         | H : Forall2 _ (_ :: _) _ |- _ =>
             apply Forall2_cons_inv_l in H as (? & ? & ? & H & ->)
         end.
  apply Forall2_nil_inv_l in Hd as ->.
  repeat eexists; eassumption.
Qed.

(** C2: on a string of exactly ten decimal digits [validate_nhs_number]
    returns, and it returns [True] exactly when the checksum of the
    specification holds: with the weighted sum of the first nine digits
    (weights 10 down to 2) and [check = 11 - sum mod 11], a check of 11
    counts as 0, a check of 10 is refused whatever the tenth digit, and
    otherwise the tenth digit equals the check. *)
Theorem validate_checksum (s : pystr) (ds : list Z) :
  length s = 10%nat →
  digits_of py s = Some ds →
  (∃ b, validate_nhs_number py (PyStr s) = Returns b)
  ∧ (validate_nhs_number py (PyStr s) = Returns true ↔ spec_valid ds).
Proof.
  intros Hlen Hd. split; [apply validate_returns|].
  destruct (length_10_inv s Hlen)
    as (c0 & c1 & c2 & c3 & c4 & c5 & c6 & c7 & c8 & c9 & ->).
  destruct (digits_of_10_inv _ _ _ _ _ _ _ _ _ _ _ Hd)
    as (d0 & d1 & d2 & d3 & d4 & d5 & d6 & d7 & d8 & d9 & -> &
        H0 & H1 & H2 & H3 & H4 & H5 & H6 & H7 & H8 & H9).
  unfold spec_valid, spec_check.
  remember (spec_weighted_sum [d0; d1; d2; d3; d4; d5; d6; d7; d8; d9])
    as total eqn:Htotal.
  unfold validate_nhs_number. cbn. unfold py_int.
  rewrite H0; cbn. rewrite H1; cbn. rewrite H2; cbn. rewrite H3; cbn.
  rewrite H4; cbn. rewrite H5; cbn. rewrite H6; cbn. rewrite H7; cbn.
  rewrite H8, H9; cbn.
  match goal with
  | |- context [@inl Z bool (11 - ?t `mod` 11)] =>
      replace t with total
        by (subst total; unfold spec_weighted_sum; cbn; lia)
  end.
  clear Htotal.
  destruct (decide (10%nat ≠ 10%nat)) as [?|_]; [done|].
  destruct (decide (11 - total `mod` 11 = 11)) as [E11|N11]; cbn.
  - split.
    + intros [= Hb]. apply bool_decide_eq_true in Hb as ->. done.
    + intros [_ [= ->]]. by rewrite bool_decide_eq_true_2.
  - destruct (decide (11 - total `mod` 11 = 10)) as [E10|N10]; cbn.
    + split; [discriminate|]. intros [? _]. done.
    + split.
      * intros [= Hb]. apply bool_decide_eq_true in Hb as ->. done.
      * intros [_ [= ->]]. by rewrite bool_decide_eq_true_2.
Qed.
(** C3: a string that is not exactly ten characters long (the empty string
    included), or that holds a character that is not a decimal digit, makes
    [validate_nhs_number] return [False]; no exception escapes. *)
Theorem validate_malformed (s : pystr) :
  length s ≠ 10%nat ∨ (∃ c, c ∈ s ∧ unicode_decimal py c = None) →
  validate_nhs_number py (PyStr s) = Returns false.
Proof.
  intros Hbad.
  destruct (validate_returns py (PyStr s)) as [[|] Hb]; [exfalso|done].
  apply validate_true_inv in Hb as (Hlen & ds & Hds).
  destruct Hbad as [Hbad|(c & Hc & Hnone)]; [done|].
  assert (Hall : is_Some (digits_of py s)) by (rewrite Hds; eauto).
  unfold digits_of in Hall. rewrite mapM_is_Some, Forall_forall in Hall.
  specialize (Hall c Hc). cbn in Hall. rewrite Hnone in Hall.
  by destruct Hall.
Qed.

(** The text of an integer is at least as long as its digits. *)
Lemma length_decimal_repr (n : Z) :
  (length (decimal_digits n) ≤ length (decimal_repr n))%nat.
Proof. unfold decimal_repr. rewrite length_app. lia. Qed.

(** C10: [validate_nhs_number] returns a boolean on every value, whatever
    [str] does on it (None, NaN, an object whose [__str__] raises), and on
    an integer [n] it returns what it returns on the text of [n]; when the
    interpreter refuses to print [n] for its number of digits, both are
    [False]. *)
Theorem validate_total_on_values (v : pyval) (n : Z) :
  int_max_str_digits py = 0%nat ∨ (10 ≤ int_max_str_digits py)%nat →
  (∃ b, validate_nhs_number py v = Returns b)
  ∧ validate_nhs_number py (PyInt n)
    = validate_nhs_number py (PyStr (decimal_repr n)).
Proof.
  intros Hlimit. split; [apply validate_returns|].
  destruct (decide (int_max_str_digits py ≠ 0%nat
                    ∧ (int_max_str_digits py < length (decimal_digits n))%nat))
    as [[Hon Hlong]|Hshort] eqn:Hdec.
  - rewrite (validate_wrong_length py (decimal_repr n)).
    + unfold validate_nhs_number. cbn. rewrite Hdec. reflexivity.
    + pose proof (length_decimal_repr n). lia.
  - unfold validate_nhs_number. cbn. rewrite Hdec. reflexivity.
Qed.
End ValidatorClaims.

Lemma validate_checksum_witness :
  (∃ b, validate_nhs_number ascii_python (PyStr (codepoints "9434765919"))
        = Returns b)
  ∧ (validate_nhs_number ascii_python (PyStr (codepoints "9434765919"))
     = Returns true
     ↔ spec_valid [9; 4; 3; 4; 7; 6; 5; 9; 1; 9]).
Proof.
  apply (validate_checksum ascii_python (codepoints "9434765919")
           [9; 4; 3; 4; 7; 6; 5; 9; 1; 9]); reflexivity.
Defined.

Lemma validate_malformed_witness :
  validate_nhs_number ascii_python (PyStr (codepoints "943476591X"))
  = Returns false.
Proof.
  apply (validate_malformed ascii_python (codepoints "943476591X")).
  right. exists 88%N. split; [|reflexivity].
  apply list_elem_of_In. vm_compute. tauto.
Defined.

Lemma validate_total_on_values_witness :
  (∃ b, validate_nhs_number ascii_python PyNaN = Returns b)
  ∧ validate_nhs_number ascii_python (PyInt 9434765919)
    = validate_nhs_number ascii_python (PyStr (decimal_repr 9434765919)).
Proof.
  apply (validate_total_on_values ascii_python PyNaN 9434765919).
  left. reflexivity.
Defined.

(** Read from a CSV file as an integer, an identifier that starts with 0
    loses that digit and is refused, although its ten-digit text is valid. *)
Example validate_leading_zero :
  validate_nhs_number ascii_python (PyStr (codepoints "0123456789"))
  = Returns true
  ∧ validate_nhs_number ascii_python (PyInt 0123456789) = Returns false.
Proof. vm_compute. auto. Qed.

(** Values that are not strings go through [str] first. *)
Example validate_other_values :
  validate_nhs_number ascii_python PyNone = Returns false
  ∧ validate_nhs_number ascii_python PyNaN = Returns false
  ∧ validate_nhs_number ascii_python (PyBool true) = Returns false
  ∧ validate_nhs_number ascii_python (PyObject (Raises UserError))
    = Returns false
  ∧ validate_nhs_number ascii_python (PyStr []) = Returns false.
Proof. vm_compute. auto 10. Qed.

(** ** pandas operations *)

Section UniqueFacts.
Context `{EqDecision A}.
Implicit Types l : list A.

Lemma elem_of_unique l x : x ∈ unique l ↔ x ∈ l.
Proof.
  induction l as [|y l IH]; cbn; [done|].
  rewrite !elem_of_cons, list_elem_of_filter, IH.
  destruct (decide (x = y)); tauto.
Qed.

Lemma NoDup_unique l : NoDup (unique l).
Proof.
  induction l as [|y l IH]; cbn; [constructor|].
  apply NoDup_cons. split; [|by apply NoDup_filter].
  rewrite list_elem_of_filter. tauto.
Qed.

(** A frame without duplicates is left as it is. *)
Lemma unique_id l : NoDup l → unique l = l.
Proof.
  induction 1 as [|x l Hx _ IH]; cbn; [done|]. rewrite IH. f_equal.
  clear IH. induction l as [|y l IH]; [done|].
  apply not_elem_of_cons in Hx as [Hxy Hx].
  rewrite filter_cons_True by done. by rewrite IH.
Qed.
End UniqueFacts.

Section MapMFacts.
Context {A B : Type} (f : A → outcome B).

Lemma mapM_Returns (l : list A) (k : list B) :
  mapM f l = Returns k ↔ Forall2 (λ x y, f x = Returns y) l k.
Proof.
  revert k. induction l as [|x l IH]; intros k; cbn.
  - split; [intros [= <-]; constructor|]. by intros ->%Forall2_nil_inv_l.
  - split.
    + destruct (f x) as [y|e] eqn:Hx; cbn; [|discriminate].
      destruct (mapM f l) as [k'|e] eqn:Hl; cbn; [|discriminate].
      intros [= <-]. constructor; [done|]. by apply IH.
    + intros (y & k' & Hy & Hk & ->)%Forall2_cons_inv_l.
      apply IH in Hk. rewrite Hy, Hk. reflexivity.
Qed.

Lemma mapM_Returns_length (l : list A) (k : list B) :
  mapM f l = Returns k → length k = length l.
Proof. intros H%mapM_Returns. symmetry. by eapply Forall2_length. Qed.

Lemma mapM_Returns_lookup (l : list A) (k : list B) i x :
  mapM f l = Returns k → l !! i = Some x →
  ∃ y, k !! i = Some y ∧ f x = Returns y.
Proof. intros H%mapM_Returns Hi. by eapply Forall2_lookup_l in H. Qed.

Lemma mapM_Returns_elem_of_r (l : list A) (k : list B) y :
  mapM f l = Returns k → y ∈ k → ∃ x, x ∈ l ∧ f x = Returns y.
Proof.
  intros H%mapM_Returns (i & Hi)%list_elem_of_lookup.
  eapply Forall2_lookup_r in H as (x & Hx & Hf); [|done].
  exists x. split; [|done]. apply list_elem_of_lookup. eauto.
Qed.

Lemma mapM_Returns_elem_of_l (l : list A) (k : list B) x :
  mapM f l = Returns k → x ∈ l → ∃ y, y ∈ k ∧ f x = Returns y.
Proof.
  intros H (i & Hi)%list_elem_of_lookup.
  destruct (mapM_Returns_lookup _ _ _ _ H Hi) as (y & Hy & Hf).
  exists y. split; [|done]. apply list_elem_of_lookup. eauto.
Qed.

(** The cast of every cell succeeds exactly when the column is built. *)
Lemma mapM_returns_iff (l : list A) :
  (∃ k, mapM f l = Returns k) ↔ Forall (λ x, ∃ y, f x = Returns y) l.
Proof.
  induction l as [|x l IH]; cbn.
  - split; [constructor|eauto].
  - rewrite Forall_cons, <-IH. destruct (f x) as [y|e]; cbn.
    + destruct (mapM f l) as [k|e]; cbn.
      * split; eauto.
      * split; [intros [? [=]]|intros [_ [? [=]]]].
    + split; [intros [? [=]]|intros [[? [=]] _]].
Qed.
End MapMFacts.

Section MergeFacts.
Context `{EqDecision K} {L R : Type}.
Context (left_on : L → option K) (right_on : R → option K).

(** No right row carries a key absent from the key column. *)
Lemma filter_no_match (right : list R) (k : option K) :
  k ∉ right_on <$> right → filter (λ r, right_on r = k) right = [].
Proof.
  induction right as [|r right IH]; [done|].
  rewrite fmap_cons. intros [Hne Hnot]%not_elem_of_cons.
  rewrite filter_cons_False by congruence. by apply IH.
Qed.

(** With a key column free of duplicates a key selects at most one row. *)
Lemma filter_unique_key (right : list R) (k : option K) :
  NoDup (right_on <$> right) →
  (length (filter (λ r, right_on r = k) right) ≤ 1)%nat.
Proof.
  induction right as [|r right IH]; [cbn; lia|].
  rewrite fmap_cons. intros [Hr Hnd]%NoDup_cons.
  destruct (decide (right_on r = k)) as [Heq|Hne].
  - rewrite filter_cons_True by done. subst k.
    rewrite filter_no_match by done. cbn. lia.
  - rewrite filter_cons_False by done. by apply IH.
Qed.

(** Then the left merge is a map over the left frame: one row out for each
    row in, with the matching right row if there is one. *)
Lemma merge_left_unique_keys (left : list L) (right : list R) :
  NoDup (right_on <$> right) →
  merge_left left_on right_on left right
  = (λ l, (l, head (filter (λ r, right_on r = left_on l) right))) <$> left.
Proof.
  intros Hnd. unfold merge_left.
  induction left as [|l left IH]; [done|].
  rewrite bind_cons, fmap_cons, IH.
  pose proof (filter_unique_key right (left_on l) Hnd) as Hlen.
  destruct (filter (λ r, right_on r = left_on l) right) as [|r [|r' rs]];
    cbn in *; [done|done|lia].
Qed.

(** A duplicated key fans the matching left rows out. *)
Lemma merge_left_length_ge (left : list L) (right : list R) :
  (length left ≤ length (merge_left left_on right_on left right))%nat.
Proof.
  unfold merge_left. induction left as [|l left IH]; [cbn; lia|].
  rewrite bind_cons, length_app.
  destruct (filter (λ r, right_on r = left_on l) right);
    cbn [length] in *; rewrite ?length_fmap; cbn [length]; lia.
Qed.

(** The rows computed from a merge on a duplicate-free key column. *)
Lemma mapM_merge_left {O} (g : L * option R → outcome O)
    (left : list L) (right : list R) (out : list O) :
  NoDup (right_on <$> right) →
  mapM g (merge_left left_on right_on left right) = Returns out →
  length out = length left
  ∧ ∀ i l, left !! i = Some l →
      ∃ o, out !! i = Some o
           ∧ g (l, head (filter (λ r, right_on r = left_on l) right))
             = Returns o.
Proof.
  intros Hnd Hout. rewrite merge_left_unique_keys in Hout by done.
  split.
  - apply mapM_Returns_length in Hout. by rewrite length_fmap in Hout.
  - intros i l Hi.
    eapply mapM_Returns_lookup in Hout as (o & Ho & Hg);
      [|by rewrite list_lookup_fmap, Hi].
    eauto.
Qed.
End MergeFacts.

(** ** The patient dimension *)

Section PatientFacts.
Context {K cell : Type}.
Implicit Types df_pas : list (PasRow K cell).

Lemma length_dim_patient df_pas : length (dim_patient df_pas) = length df_pas.
Proof.
  unfold dim_patient. rewrite length_zip_with_l_eq; [done|].
  by rewrite length_seq.
Qed.

(** Row [i] of the dimension is row [i] of the source with key [i + 1]. *)
Lemma dim_patient_lookup df_pas (i : nat) :
  dim_patient df_pas !! i
  = (λ p, {| patient_id := pas_patient_id p;
             nhs_number := pas_nhs_number p;
             title := pas_title p;
             first_name := pas_first_name p;
             last_name := pas_last_name p;
             date_of_birth := pas_date_of_birth p;
             age := pas_age p;
             gender := pas_gender p;
             ethnicity := pas_ethnicity p;
             postcode := pas_postcode p;
             city := pas_city p;
             patient_key := Z.of_nat (S i) |}) <$> df_pas !! i.
Proof.
  unfold dim_patient. rewrite lookup_zip_with.
  destruct (df_pas !! i) as [p|] eqn:Hi; cbn; [|done].
  rewrite lookup_seq_lt by (by eapply lookup_lt_Some). done.
Qed.

Lemma dim_patient_keys df_pas :
  patient_key <$> dim_patient df_pas = Z.of_nat <$> seq 1 (length df_pas).
Proof.
  apply list_eq. intros i.
  rewrite !list_lookup_fmap, dim_patient_lookup.
  destruct (df_pas !! i) as [p|] eqn:Hi; cbn.
  - rewrite lookup_seq_lt by (by eapply lookup_lt_Some). done.
  - rewrite lookup_seq_ge; [done|]. by apply lookup_ge_None.
Qed.

Lemma dim_patient_nhs_numbers df_pas :
  fst <$> patient_keys (dim_patient df_pas) = pas_nhs_number <$> df_pas.
Proof.
  apply list_eq. intros i. unfold patient_keys.
  rewrite !list_lookup_fmap, dim_patient_lookup.
  by destruct (df_pas !! i).
Qed.

(** C7: the patient dimension has one row per source row; row [i] keeps the
    eleven demographic fields of source row [i] and carries the surrogate
    key [i + 1], so the keys are 1..N in source order and no key is used
    twice. *)
Theorem dim_patient_surrogate_keys df_pas :
  length (dim_patient df_pas) = length df_pas
  ∧ patient_key <$> dim_patient df_pas = Z.of_nat <$> seq 1 (length df_pas)
  ∧ NoDup (patient_key <$> dim_patient df_pas)
  ∧ (∀ (i : nat) r, dim_patient df_pas !! i = Some r →
       patient_key r = Z.of_nat i + 1
       ∧ ∃ p, df_pas !! i = Some p
              ∧ patient_id r = pas_patient_id p
              ∧ nhs_number r = pas_nhs_number p
              ∧ title r = pas_title p
              ∧ first_name r = pas_first_name p
              ∧ last_name r = pas_last_name p
              ∧ date_of_birth r = pas_date_of_birth p
              ∧ age r = pas_age p
              ∧ gender r = pas_gender p
              ∧ ethnicity r = pas_ethnicity p
              ∧ postcode r = pas_postcode p
              ∧ city r = pas_city p).
Proof.
  split; [apply length_dim_patient|].
  split; [apply dim_patient_keys|].
  split.
  - rewrite dim_patient_keys. apply NoDup_fmap_2; [|apply NoDup_seq].
    intros a b. lia.
  - intros i r Hr. rewrite dim_patient_lookup in Hr.
    destruct (df_pas !! i) as [p|]; [|discriminate].
    injection Hr as <-. cbn. split; [lia|]. exists p. tauto.
Qed.
End PatientFacts.

(** ** The diagnosis dimension *)

Section DiagnosisFacts.
Context {K cell : Type} `{!EqDecision cell}.
Implicit Types df_ehr : list (EhrRow K cell).

Lemma diagnosis_data_app df_ehr1 df_ehr2 :
  diagnosis_data (df_ehr1 ++ df_ehr2)
  = diagnosis_data df_ehr1 ++ diagnosis_data df_ehr2.
Proof. unfold diagnosis_data. apply bind_app. Qed.

(** The pairs collected by the loop come from dictionaries. *)
Lemma elem_of_diagnosis_data df_ehr (code descr : option cell) :
  (code, descr) ∈ diagnosis_data df_ehr
  ↔ ∃ e, e ∈ df_ehr ∧ ehr_primary_diagnosis e = DiagnosisDict code descr.
Proof.
  unfold diagnosis_data. rewrite list_elem_of_bind. split.
  - intros (e & Hin & He). exists e. split; [done|].
    destruct (ehr_primary_diagnosis e); try by apply elem_of_nil in Hin.
    apply list_elem_of_singleton in Hin. congruence.
  - intros (e & He & Hd). exists e. split; [|done].
    rewrite Hd. by apply list_elem_of_singleton.
Qed.

Lemma dim_diagnosis_lookup df_ehr (i : nat) :
  dim_diagnosis df_ehr !! i
  = (λ d, {| icd10_code := d.1; description := d.2;
             diagnosis_key := Z.of_nat (S i) |})
    <$> unique (diagnosis_data df_ehr) !! i.
Proof.
  unfold dim_diagnosis. rewrite lookup_zip_with.
  destruct (unique (diagnosis_data df_ehr) !! i) as [d|] eqn:Hi; cbn; [|done].
  rewrite lookup_seq_lt by (by eapply lookup_lt_Some). done.
Qed.

Lemma length_dim_diagnosis df_ehr :
  length (dim_diagnosis df_ehr) = length (unique (diagnosis_data df_ehr)).
Proof.
  unfold dim_diagnosis. rewrite length_zip_with_l_eq; [done|].
  by rewrite length_seq.
Qed.

(** The two data columns of the dimension are the deduplicated pairs. *)
Lemma dim_diagnosis_pairs df_ehr :
  (λ r, (icd10_code r, description r)) <$> dim_diagnosis df_ehr
  = unique (diagnosis_data df_ehr).
Proof.
  apply list_eq. intros i. rewrite list_lookup_fmap, dim_diagnosis_lookup.
  by destruct (unique (diagnosis_data df_ehr) !! i) as [[??]|].
Qed.

(** C8: no two rows of the diagnosis dimension have the same
    (icd10_code, description) pair; an encounter without primary diagnosis
    adds nothing (the dimension is the one built without that encounter) and
    every row stems from the diagnosis dictionary of some encounter, so there
    is no sentinel row; the surrogate keys are 1..M over the deduplicated
    rows. *)
Theorem dim_diagnosis_deduplicated df_ehr :
  NoDup ((λ r, (icd10_code r, description r)) <$> dim_diagnosis df_ehr)
  ∧ (∀ before e after,
       df_ehr = before ++ e :: after →
       ehr_primary_diagnosis e = DiagnosisNull →
       dim_diagnosis df_ehr = dim_diagnosis (before ++ after))
  ∧ (∀ r, r ∈ dim_diagnosis df_ehr →
       ∃ e, e ∈ df_ehr
            ∧ ehr_primary_diagnosis e
              = DiagnosisDict (icd10_code r) (description r))
  ∧ diagnosis_key <$> dim_diagnosis df_ehr
    = Z.of_nat <$> seq 1 (length (dim_diagnosis df_ehr)).
Proof.
  repeat split.
  - rewrite dim_diagnosis_pairs. apply NoDup_unique.
  - intros before e after -> He. unfold dim_diagnosis.
    rewrite !diagnosis_data_app.
    replace (diagnosis_data (e :: after)) with (diagnosis_data after); [done|].
    unfold diagnosis_data at 2. rewrite bind_cons, He. done.
  - intros r Hr. apply elem_of_diagnosis_data.
    apply (elem_of_unique (diagnosis_data df_ehr)).
    rewrite <-dim_diagnosis_pairs.
    apply (list_elem_of_fmap_2 (λ r, (icd10_code r, description r))). done.
  - apply list_eq. intros i.
    rewrite !list_lookup_fmap, dim_diagnosis_lookup, length_dim_diagnosis.
    destruct (unique (diagnosis_data df_ehr) !! i) as [d|] eqn:Hi; cbn.
    + rewrite lookup_seq_lt by (by eapply lookup_lt_Some). done.
    + rewrite lookup_seq_ge; [done|]. by apply lookup_ge_None.
Qed.
End DiagnosisFacts.

(** ** The fact tables *)

Section FactFacts.
Context {K cell : Type} `{!EqDecision K, !EqDecision cell}.
Implicit Types df_pas : list (PasRow K cell).

(** What the phase returns, table by table. *)
Lemma transform_Returns (src : Sources K cell) (t : Tables K cell) :
  transform src = Returns t →
  t_dim_patient t = dim_patient (df_pas src)
  ∧ dim_date (df_ehr src) (df_lims src) (df_appointments src)
    = Returns (t_dim_date t)
  ∧ t_dim_diagnosis t = dim_diagnosis (df_ehr src)
  ∧ fact_encounters (df_ehr src) (dim_patient (df_pas src))
    = Returns (t_fact_encounters t)
  ∧ fact_lab_tests (df_lims src) (dim_patient (df_pas src))
    = Returns (t_fact_lab_tests t)
  ∧ fact_appointments (df_appointments src) (dim_patient (df_pas src))
    = Returns (t_fact_appointments t).
Proof.
  unfold transform.
  destruct (dim_date _ _ _) as [dd|]; cbn; [|discriminate].
  destruct (fact_encounters _ _) as [fe|]; cbn; [|discriminate].
  destruct (fact_lab_tests _ _) as [fl|]; cbn; [|discriminate].
  destruct (fact_appointments _ _) as [fa|]; cbn; [|discriminate].
  intros [= <-]. cbn. tauto.
Qed.

(** The key column of the patient dimension has the duplicates of the
    source column, no more. *)
Lemma NoDup_patient_keys df_pas :
  NoDup (pas_nhs_number <$> df_pas) →
  NoDup (fst <$> patient_keys (dim_patient df_pas)).
Proof. by rewrite dim_patient_nhs_numbers. Qed.

Lemma no_patient_match df_pas (k : option K) :
  k ∉ pas_nhs_number <$> df_pas →
  head (filter (λ r : option K * Z, r.1 = k) (patient_keys (dim_patient df_pas)))
  = None.
Proof.
  intros Hk. rewrite (filter_no_match fst); [done|].
  by rewrite dim_patient_nhs_numbers.
Qed.

Lemma fact_encounters_rows (df_ehr : list (EhrRow K cell)) df_pas fact :
  NoDup (pas_nhs_number <$> df_pas) →
  fact_encounters df_ehr (dim_patient df_pas) = Returns fact →
  length fact = length df_ehr
  ∧ ∀ (i : nat) e, df_ehr !! i = Some e →
      ∃ f, fact !! i = Some f
           ∧ fe_encounter_id f = ehr_encounter_id e
           ∧ fe_nhs_number f = ehr_nhs_number e
           ∧ to_date_key (ehr_encounter_date e) = Returns (fe_date_key f)
           ∧ (ehr_nhs_number e ∉ pas_nhs_number <$> df_pas →
              fe_patient_key f = None).
Proof.
  intros Hnd Hfact. unfold fact_encounters in Hfact.
  apply mapM_merge_left in Hfact as [Hlen Hrows];
    [|by apply NoDup_patient_keys].
  split; [done|]. intros i e Hi.
  destruct (Hrows i e Hi) as (f & Hf & Hg). exists f. split; [done|].
  cbn in Hg. destruct (to_date_key (ehr_encounter_date e)) as [k|];
    [|discriminate].
  injection Hg as <-. cbn. repeat split.
  intros Hk. by rewrite no_patient_match.
Qed.

Lemma fact_lab_tests_rows (df_lims : list (LimsRow K cell)) df_pas fact :
  NoDup (pas_nhs_number <$> df_pas) →
  fact_lab_tests df_lims (dim_patient df_pas) = Returns fact →
  length fact = length df_lims
  ∧ ∀ (i : nat) e, df_lims !! i = Some e →
      ∃ f, fact !! i = Some f
           ∧ fl_test_id f = lims_test_id e
           ∧ fl_nhs_number f = lims_nhs_number e
           ∧ to_date_key (lims_order_date e) = Returns (fl_date_key f)
           ∧ (lims_nhs_number e ∉ pas_nhs_number <$> df_pas →
              fl_patient_key f = None).
Proof.
  intros Hnd Hfact. unfold fact_lab_tests in Hfact.
  apply mapM_merge_left in Hfact as [Hlen Hrows];
    [|by apply NoDup_patient_keys].
  split; [done|]. intros i e Hi.
  destruct (Hrows i e Hi) as (f & Hf & Hg). exists f. split; [done|].
  cbn in Hg. destruct (to_date_key (lims_order_date e)) as [k|];
    [|discriminate].
  injection Hg as <-. cbn. repeat split.
  intros Hk. by rewrite no_patient_match.
Qed.

Lemma fact_appointments_rows (df_appointments : list (AppointmentRow K cell))
    df_pas fact :
  NoDup (pas_nhs_number <$> df_pas) →
  fact_appointments df_appointments (dim_patient df_pas) = Returns fact →
  length fact = length df_appointments
  ∧ ∀ (i : nat) e, df_appointments !! i = Some e →
      ∃ f, fact !! i = Some f
           ∧ fa_appointment_id f = apt_appointment_id e
           ∧ fa_nhs_number f = apt_nhs_number e
           ∧ to_date_key (apt_appointment_date e) = Returns (fa_date_key f)
           ∧ (apt_nhs_number e ∉ pas_nhs_number <$> df_pas →
              fa_patient_key f = None).
Proof.
  intros Hnd Hfact. unfold fact_appointments in Hfact.
  apply mapM_merge_left in Hfact as [Hlen Hrows];
    [|by apply NoDup_patient_keys].
  split; [done|]. intros i e Hi.
  destruct (Hrows i e Hi) as (f & Hf & Hg). exists f. split; [done|].
  cbn in Hg. destruct (to_date_key (apt_appointment_date e)) as [k|];
    [|discriminate].
  injection Hg as <-. cbn. repeat split.
  intros Hk. by rewrite no_patient_match.
Qed.

(** C1: when no [nhs_number] occurs twice in the patient source, each fact
    table has as many rows as its source (the left merge neither drops nor
    repeats an event), row [i] of a fact table is event [i] of its source,
    and an event whose [nhs_number] matches no patient is kept with a null
    [patient_key]. *)
Theorem fact_tables_row_counts (src : Sources K cell) (t : Tables K cell) :
  NoDup (pas_nhs_number <$> df_pas src) →
  transform src = Returns t →
  length (t_fact_encounters t) = length (df_ehr src)
  ∧ length (t_fact_lab_tests t) = length (df_lims src)
  ∧ length (t_fact_appointments t) = length (df_appointments src)
  ∧ (∀ (i : nat) e,
       df_ehr src !! i = Some e →
       ehr_nhs_number e ∉ pas_nhs_number <$> df_pas src →
       ∃ f, t_fact_encounters t !! i = Some f
            ∧ fe_encounter_id f = ehr_encounter_id e
            ∧ fe_nhs_number f = ehr_nhs_number e
            ∧ fe_patient_key f = None)
  ∧ (∀ (i : nat) e,
       df_lims src !! i = Some e →
       lims_nhs_number e ∉ pas_nhs_number <$> df_pas src →
       ∃ f, t_fact_lab_tests t !! i = Some f
            ∧ fl_test_id f = lims_test_id e
            ∧ fl_nhs_number f = lims_nhs_number e
            ∧ fl_patient_key f = None)
  ∧ (∀ (i : nat) e,
       df_appointments src !! i = Some e →
       apt_nhs_number e ∉ pas_nhs_number <$> df_pas src →
       ∃ f, t_fact_appointments t !! i = Some f
            ∧ fa_appointment_id f = apt_appointment_id e
            ∧ fa_nhs_number f = apt_nhs_number e
            ∧ fa_patient_key f = None).
Proof.
  intros Hnd (_ & _ & _ & Hfe & Hfl & Hfa)%transform_Returns.
  apply fact_encounters_rows in Hfe as [Hfe_len Hfe]; [|done].
  apply fact_lab_tests_rows in Hfl as [Hfl_len Hfl]; [|done].
  apply fact_appointments_rows in Hfa as [Hfa_len Hfa]; [|done].
  repeat split; try done.
  - intros i e Hi Hk. destruct (Hfe i e Hi) as (f & ? & ? & ? & ? & Hnone).
    exists f. auto.
  - intros i e Hi Hk. destruct (Hfl i e Hi) as (f & ? & ? & ? & ? & Hnone).
    exists f. auto.
  - intros i e Hi Hk. destruct (Hfa i e Hi) as (f & ? & ? & ? & ? & Hnone).
    exists f. auto.
Qed.
End FactFacts.

(** ** The date dimension *)

Section DateFacts.
Context {K cell : Type}.
Implicit Types (df_ehr : list (EhrRow K cell)) (df_lims : list (LimsRow K cell))
  (df_appointments : list (AppointmentRow K cell)).

(** A row of the dimension records the timestamp it was built from and the
    key of that timestamp. *)
Lemma dim_date_row_Returns (d : option Timestamp) (r : DimDate) :
  dim_date_row d = Returns r →
  d = Some (date r) ∧ to_date_key d = Returns (date_key r).
Proof.
  unfold dim_date_row. destruct (to_date_key d) as [k|]; cbn; [|discriminate].
  destruct d as [t|]; [|discriminate]. by intros [= <-].
Qed.


Lemma sort_values_date_Permutation (rows : list DimDate) :
  sort_values_date rows ≡ₚ rows.
Proof. apply merge_sort_Permutation. Qed.

(** The rows before sorting. *)
Lemma dim_date_Returns df_ehr df_lims df_appointments (dd : list DimDate) :
  dim_date df_ehr df_lims df_appointments = Returns dd →
  ∃ rows,
    mapM dim_date_row
      (unique ((ehr_encounter_date <$> df_ehr) ++ (lims_order_date <$> df_lims)
               ++ (apt_appointment_date <$> df_appointments)))
    = Returns rows
    ∧ dd ≡ₚ rows.
Proof.
  unfold dim_date. destruct (mapM _ _) as [rows|]; cbn; [|discriminate].
  intros [= <-]. exists rows. split; [done|].
  apply sort_values_date_Permutation.
Qed.

(** The keys of the dimension are the keys of the source dates. *)
Lemma elem_of_dim_date_keys df_ehr df_lims df_appointments dd (k : Z) :
  dim_date df_ehr df_lims df_appointments = Returns dd →
  k ∈ date_key <$> dd
  ↔ ∃ d, d ∈ (ehr_encounter_date <$> df_ehr) ++ (lims_order_date <$> df_lims)
               ++ (apt_appointment_date <$> df_appointments)
         ∧ to_date_key d = Returns k.
Proof.
  intros (rows & Hrows & Hperm)%dim_date_Returns. rewrite Hperm. split.
  - intros (r & -> & Hr)%list_elem_of_fmap.
    eapply mapM_Returns_elem_of_r in Hr as (d & Hd & Hrow); [|done].
    rewrite elem_of_unique in Hd.
    apply dim_date_row_Returns in Hrow as [_ Hk]. eauto.
  - intros (d & Hd & Hk). rewrite <-elem_of_unique in Hd.
    eapply mapM_Returns_elem_of_l in Hd as (r & Hr & Hrow); [|done].
    apply dim_date_row_Returns in Hrow as [_ Hk'].
    rewrite Hk in Hk'. injection Hk' as ->.
    by apply list_elem_of_fmap_2.
Qed.

(** The [date] column holds the timestamps the rows were built from. *)
Lemma mapM_dim_date_row_dates (ds : list (option Timestamp)) (rows : list DimDate) :
  mapM dim_date_row ds = Returns rows → Some ∘ date <$> rows = ds.
Proof.
  intros Hrows%mapM_Returns.
  induction Hrows as [|d r ds rs Hrow _ IH]; [done|].
  rewrite fmap_cons, IH. f_equal.
  by apply dim_date_row_Returns in Hrow as [-> _].
Qed.

(** The dimension has one row per distinct timestamp of the sources. *)
Lemma NoDup_dim_date_dates df_ehr df_lims df_appointments dd :
  dim_date df_ehr df_lims df_appointments = Returns dd →
  NoDup (date <$> dd).
Proof.
  intros (rows & Hrows & Hperm)%dim_date_Returns. rewrite Hperm.
  apply (NoDup_fmap_1 Some). rewrite <-list_fmap_compose.
  rewrite (mapM_dim_date_row_dates _ _ Hrows). apply NoDup_unique.
Qed.

(** C5: when the date dimension is built, its set of [date_key] values is
    the set of YYYYMMDD integers obtained from the [encounter_date],
    [order_date] and [appointment_date] columns: each key of the dimension
    is the key of a source date and each source date has its key in the
    dimension. *)
Theorem dim_date_keys_exact df_ehr df_lims df_appointments (dd : list DimDate) :
  dim_date df_ehr df_lims df_appointments = Returns dd →
  ∀ k : Z,
    k ∈ date_key <$> dd
    ↔ (∃ e, e ∈ df_ehr ∧ to_date_key (ehr_encounter_date e) = Returns k)
      ∨ (∃ l, l ∈ df_lims ∧ to_date_key (lims_order_date l) = Returns k)
      ∨ (∃ a, a ∈ df_appointments
              ∧ to_date_key (apt_appointment_date a) = Returns k).
Proof.
  intros Hdd k. rewrite (elem_of_dim_date_keys _ _ _ _ _ Hdd). split.
  - intros (d & Hd & Hk). rewrite !elem_of_app in Hd.
    destruct Hd as [Hd|[Hd|Hd]];
      apply list_elem_of_fmap in Hd as (x & -> & Hx); eauto 6.
  - intros [(e & He & Hk)|[(l & Hl & Hk)|(a & Ha & Hk)]];
      eexists; (split; [|exact Hk]); rewrite !elem_of_app.
    + left. by apply list_elem_of_fmap_2.
    + right. left. by apply list_elem_of_fmap_2.
    + right. right. by apply list_elem_of_fmap_2.
Qed.
End DateFacts.

(** ** The date key *)

Lemma for_each_digits (s : pystr) (n : Z) :
  forallb is_digit s = true →
  for_each s
    (λ c n, match ascii_decimal c with
            | Some d => Returns (10 * n + d)
            | None => Raises ValueError
            end) n
  = Returns (foldl (λ n c, 10 * n + (Z.of_N c - 48)) n s).
Proof.
  revert n. induction s as [|c s IH]; intros n Hs; [done|].
  cbn in Hs. apply andb_prop in Hs as [Hc Hs]. cbn.
  unfold ascii_decimal. unfold is_digit in Hc.
  apply andb_prop in Hc as [Hlo Hhi].
  apply N.leb_le in Hlo, Hhi.
  destruct (decide (48 ≤ c ∧ c ≤ 57)%N) as [_|Hno]; [|lia].
  cbn. by apply IH.
Qed.

Lemma int_of_digits_value (s : pystr) :
  s ≠ [] → forallb is_digit s = true →
  int_of_digits s = Returns (digits_value s).
Proof.
  intros Hne Hs. unfold int_of_digits.
  destruct (decide (s = [])); [done|]. by apply for_each_digits.
Qed.

(** Digits read after [n] shift [n] to the left. *)
Lemma foldl_digits_shift (s : pystr) (n : Z) :
  foldl (λ n c, 10 * n + (Z.of_N c - 48)) n s
  = n * 10 ^ Z.of_nat (length s) + digits_value s.
Proof.
  unfold digits_value. revert n. induction s as [|c s IH]; intros n.
  - cbn. lia.
  - cbn [foldl length]. rewrite IH, (IH (10 * 0 + _)).
    rewrite Nat2Z.inj_succ, Z.pow_succ_r by lia. lia.
Qed.

Lemma digits_value_app (a b : pystr) :
  digits_value (a ++ b)
  = digits_value a * 10 ^ Z.of_nat (length b) + digits_value b.
Proof.
  unfold digits_value at 1. rewrite foldl_app. apply foldl_digits_shift.
Qed.

Lemma pad_ok_4 (n : Z) : 0 ≤ n < 10000 → pad_ok 4 n = true.
Proof.
  intros Hn.
  assert (Hall : forallb (pad_ok 4) (seqZ 0 10000) = true)
    by (vm_compute; reflexivity).
  rewrite forallb_forall in Hall.
  apply Hall, list_elem_of_In, elem_of_seqZ. lia.
Qed.

Lemma pad_ok_2 (n : Z) : 0 ≤ n < 100 → pad_ok 2 n = true.
Proof.
  intros Hn.
  assert (Hall : forallb (pad_ok 2) (seqZ 0 100) = true)
    by (vm_compute; reflexivity).
  rewrite forallb_forall in Hall.
  apply Hall, list_elem_of_In, elem_of_seqZ. lia.
Qed.

Lemma pad_ok_spec (width : nat) (n : Z) :
  pad_ok width n = true →
  forallb is_digit (zero_pad width n) = true
  ∧ length (zero_pad width n) = width
  ∧ digits_value (zero_pad width n) = n.
Proof.
  unfold pad_ok. cbv zeta.
  intros [[Hd Hl]%andb_prop Hv]%andb_prop.
  apply Nat.eqb_eq in Hl. apply Z.eqb_eq in Hv. done.
Qed.

(** The key of a valid timestamp is the number YYYYMMDD. *)
Lemma to_date_key_valid (t : Timestamp) :
  valid_timestamp t →
  to_date_key (Some t)
  = Returns (ts_year t * 10000 + ts_month t * 100 + ts_day t).
Proof.
  intros ([Hy1 Hy2] & [Hm1 Hm2] & [Hd1 Hd2] & _).
  destruct (pad_ok_spec 4 (ts_year t)) as (Yd & Yl & Yv);
    [apply pad_ok_4; lia|].
  destruct (pad_ok_spec 2 (ts_month t)) as (Md & Ml & Mv);
    [apply pad_ok_2; lia|].
  destruct (pad_ok_spec 2 (ts_day t)) as (Dd & Dl & Dv);
    [apply pad_ok_2; lia|].
  unfold to_date_key, strftime_Ymd. cbn [fmap option_fmap option_map astype_int].
  rewrite int_of_digits_value.
  - rewrite !digits_value_app, !length_app, Yv, Mv, Dv, Ml, Dl.
    f_equal. lia.
  - intros Hnil. apply (f_equal length) in Hnil.
    rewrite !length_app, Yl in Hnil. discriminate.
  - rewrite !forallb_app, Yd, Md, Dd. done.
Qed.

(** Valid timestamps with the same key fall on the same calendar date. *)
Lemma to_date_key_same_date (t1 t2 : Timestamp) :
  valid_timestamp t1 → valid_timestamp t2 →
  to_date_key (Some t1) = to_date_key (Some t2) →
  normalize t1 = normalize t2.
Proof.
  intros H1 H2. rewrite !to_date_key_valid by done. intros [= Hk].
  destruct H1 as (? & ? & ? & _), H2 as (? & ? & ? & _).
  unfold normalize. f_equal; lia.
Qed.

(** Timestamps of the same calendar date have the same key, whatever the
    time of day. *)
Lemma to_date_key_normalize (t : Timestamp) :
  to_date_key (Some (normalize t)) = to_date_key (Some t).
Proof. reflexivity. Qed.


Lemma to_date_key_NaT : to_date_key None = Raises ValueError.
Proof. reflexivity. Qed.

Section RunFacts.
Context {K cell : Type} `{!EqDecision K, !EqDecision cell}.
Implicit Types (df_ehr : list (EhrRow K cell)) (df_lims : list (LimsRow K cell))
  (df_appointments : list (AppointmentRow K cell)).

(** Every row of the dimension is the row of a source date. *)
Lemma dim_date_rows df_ehr df_lims df_appointments dd (r : DimDate) :
  dim_date df_ehr df_lims df_appointments = Returns dd →
  r ∈ dd →
  Some (date r) ∈ (ehr_encounter_date <$> df_ehr) ++ (lims_order_date <$> df_lims)
                  ++ (apt_appointment_date <$> df_appointments)
  ∧ dim_date_row (Some (date r)) = Returns r.
Proof.
  intros (rows & Hrows & Hperm)%dim_date_Returns Hr. rewrite Hperm in Hr.
  eapply mapM_Returns_elem_of_r in Hr as (d & Hd & Hrow); [|done].
  rewrite elem_of_unique in Hd.
  pose proof (dim_date_row_Returns _ _ Hrow) as [-> _]. done.
Qed.



(** The left rows of a merge are rows of the left frame. *)
Lemma elem_of_merge_left {L R} (left_on : L → option K) (right_on : R → option K)
    (left : list L) (right : list R) (row : L * option R) :
  row ∈ merge_left left_on right_on left right → row.1 ∈ left.
Proof.
  unfold merge_left. rewrite list_elem_of_bind. intros (l & Hrow & Hl).
  destruct (filter _ right) as [|r rs].
  - by apply list_elem_of_singleton in Hrow as ->.
  - by apply list_elem_of_fmap in Hrow as (? & -> & _).
Qed.






(** The date dimension covers the date key of every fact row. *)
Lemma fact_date_keys_covered (src : Sources K cell) (t : Tables K cell) :
  transform src = Returns t →
  (∀ f, f ∈ t_fact_encounters t → fe_date_key f ∈ date_key <$> t_dim_date t)
  ∧ (∀ f, f ∈ t_fact_lab_tests t → fl_date_key f ∈ date_key <$> t_dim_date t)
  ∧ (∀ f, f ∈ t_fact_appointments t →
       fa_date_key f ∈ date_key <$> t_dim_date t).
Proof.
  intros (_ & Hdd & _ & Hfe & Hfl & Hfa)%transform_Returns.
  repeat split; intros f Hf;
    apply (elem_of_dim_date_keys _ _ _ _ _ Hdd).
  - eapply mapM_Returns_elem_of_r in Hf as (row & Hrow%elem_of_merge_left & Hg);
      [|exact Hfe].
    cbn in Hg. destruct (to_date_key _) as [k|] eqn:Hk; [|discriminate].
    injection Hg as <-. eexists. split; [|exact Hk]. rewrite !elem_of_app.
    left. by apply list_elem_of_fmap_2.
  - eapply mapM_Returns_elem_of_r in Hf as (row & Hrow%elem_of_merge_left & Hg);
      [|exact Hfl].
    cbn in Hg. destruct (to_date_key _) as [k|] eqn:Hk; [|discriminate].
    injection Hg as <-. eexists. split; [|exact Hk]. rewrite !elem_of_app.
    right. left. by apply list_elem_of_fmap_2.
  - eapply mapM_Returns_elem_of_r in Hf as (row & Hrow%elem_of_merge_left & Hg);
      [|exact Hfa].
    cbn in Hg. destruct (to_date_key _) as [k|] eqn:Hk; [|discriminate].
    injection Hg as <-. eexists. split; [|exact Hk]. rewrite !elem_of_app.
    right. right. by apply list_elem_of_fmap_2.
Qed.

(** When the sources hold dates without time of day, the timestamps of the
    dimension are calendar dates and no [date_key] is repeated. *)
Lemma dim_date_keys_NoDup_date_only df_ehr df_lims df_appointments dd :
  dim_date df_ehr df_lims df_appointments = Returns dd →
  Forall (λ d, valid_date d ∧ date_only d)
    ((ehr_encounter_date <$> df_ehr) ++ (lims_order_date <$> df_lims)
     ++ (apt_appointment_date <$> df_appointments)) →
  NoDup (date_key <$> dd).
Proof.
  intros Hdd Hdates. rewrite Forall_forall in Hdates.
  pose proof (NoDup_dim_date_dates _ _ _ _ Hdd) as Hnd.
  apply NoDup_fmap_1 in Hnd.
  apply NoDup_fmap_2_strong; [|done].
  intros r1 r2 Hr1 Hr2 Hkey.
  destruct (dim_date_rows _ _ _ _ _ Hdd Hr1) as [Hin1 Hrow1].
  destruct (dim_date_rows _ _ _ _ _ Hdd Hr2) as [Hin2 Hrow2].
  destruct (Hdates _ Hin1) as [(t1 & [= <-] & Hv1) Ho1].
  destruct (Hdates _ Hin2) as [(t2 & [= <-] & Hv2) Ho2].
  assert (Hsame : normalize (date r1) = normalize (date r2)).
  { apply to_date_key_same_date; [done..|].
    apply dim_date_row_Returns in Hrow1 as [_ ->].
    apply dim_date_row_Returns in Hrow2 as [_ ->]. by rewrite Hkey. }
  assert (Hdate : date r1 = date r2).
  { specialize (Ho1 _ eq_refl). specialize (Ho2 _ eq_refl).
    injection Hsame as Hy Hm Hd.
    destruct (date r1), (date r2); cbn in *; congruence. }
  rewrite Hdate in Hrow1. rewrite Hrow1 in Hrow2. by injection Hrow2.
Qed.
End RunFacts.

(** ** The load phase *)

Section LoadFacts.
Context {K cell : Type}.
Implicit Types (t : Tables K cell) (conn : gmap string (frame K cell)).

(** Dropping a table and creating it again replaces its contents, whatever
    the catalog held under that name. *)
Lemma create_after_drop (name : string) (df : frame K cell) conn :
  create_table_as name df (delete name conn) = Returns (<[name := df]> conn).
Proof.
  unfold create_table_as. rewrite lookup_delete_eq.
  by rewrite insert_delete_eq.
Qed.

(** Without the [DROP], creating a table that exists fails. *)
Lemma create_existing (name : string) (df old : frame K cell) conn :
  conn !! name = Some old →
  create_table_as name df conn = Raises CatalogException.
Proof. intros Hold. unfold create_table_as. by rewrite Hold. Qed.

(** The phase always completes, with the six tables written in turn. *)
Lemma load_Returns t conn :
  load t conn
  = Returns
      (<["fact_appointments" := AppointmentFrame (t_fact_appointments t)]>
       (<["fact_lab_tests" := LabTestFrame (t_fact_lab_tests t)]>
        (<["fact_encounters" := EncounterFrame (t_fact_encounters t)]>
         (<["dim_diagnosis" := DiagnosisFrame (t_dim_diagnosis t)]>
          (<["dim_date" := DateFrame (t_dim_date t)]>
           (<["dim_patient" := PatientFrame (t_dim_patient t)]> conn)))))).
Proof.
  unfold load, drop_table_if_exists. cbn.
  rewrite create_after_drop. cbn. rewrite create_after_drop. cbn.
  rewrite create_after_drop. cbn. rewrite create_after_drop. cbn.
  rewrite create_after_drop. cbn. by rewrite create_after_drop.
Qed.

(** After the phase a loaded name holds its in-memory table and any other
    name holds what it held before. *)
Lemma load_lookup t conn conn' (name : string) :
  load t conn = Returns conn' →
  conn' !! name = match in_memory t name with
                  | Some df => Some df
                  | None => conn !! name
                  end.
Proof.
  rewrite load_Returns. intros [= <-]. unfold in_memory.
  repeat (rewrite lookup_insert; case_decide; subst;
          [repeat (case_decide; try done)|]).
  repeat case_decide; congruence.
Qed.

Lemma in_memory_table_names t (name : string) :
  is_Some (in_memory t name) ↔ name ∈ table_names.
Proof.
  unfold in_memory, table_names. rewrite !elem_of_cons, elem_of_nil.
  repeat case_decide; subst; split;
    try (intros []; discriminate); try tauto; eauto.
Qed.

(** C9: from any prior state of the warehouse the load phase completes; a
    second load of the same in-memory tables leaves the warehouse exactly as
    the first left it; each of the six names then holds its in-memory table,
    whatever it held before (with the row count of that table), and the
    tables of other names are as before. *)
Theorem load_idempotent t conn :
  ∃ conn1,
    load t conn = Returns conn1
    ∧ load t conn1 = Returns conn1
    ∧ (∀ name df, in_memory t name = Some df →
         conn1 !! name = Some df
         ∧ row_count <$> conn1 !! name = Some (row_count df))
    ∧ (∀ name, in_memory t name = None → conn1 !! name = conn !! name).
Proof.
  destruct (load t conn) as [conn1|] eqn:Hload;
    [|by rewrite load_Returns in Hload].
  exists conn1. split; [done|].
  assert (Hlookup : ∀ name df, in_memory t name = Some df →
                               conn1 !! name = Some df).
  { intros name df Hdf. by rewrite (load_lookup _ _ _ name Hload), Hdf. }
  split; [|split].
  - destruct (load t conn1) as [conn2|] eqn:Hload2;
      [|by rewrite load_Returns in Hload2].
    f_equal. apply map_eq. intros name.
    rewrite (load_lookup _ _ _ name Hload2).
    destruct (in_memory t name) as [df|] eqn:Hdf; [|done].
    symmetry. by apply Hlookup.
  - intros name df Hdf. rewrite (Hlookup name df Hdf). done.
  - intros name Hnone. by rewrite (load_lookup _ _ _ name Hload), Hnone.
Qed.
End LoadFacts.

(** ** The pipeline on the sample data *)

Lemma sample_transform : transform sample_sources = Returns sample_tables.
Proof. vm_compute. reflexivity. Qed.

Lemma same_day_transform : transform same_day_sources = Returns same_day_tables.
Proof. vm_compute. reflexivity. Qed.

Lemma sample_nhs_numbers_unique :
  NoDup (pas_nhs_number <$> df_pas sample_sources).
Proof. apply (bool_decide_unpack _). vm_compute. exact I. Qed.

(** Five encounters in, five fact rows out, two of them without patient. *)
Example sample_fact_encounters :
  length (t_fact_encounters sample_tables) = 5%nat
  ∧ fe_patient_key <$> t_fact_encounters sample_tables
    = [Some 1; Some 2; None; Some 3; None].
Proof. vm_compute. auto. Qed.

(** A repeated [nhs_number] in the patient source repeats the events of
    that patient: the condition of C1 is needed. *)
Example duplicate_patient_fans_out :
  length <$> fact_encounters same_day_encounters
               (dim_patient [patient "PAS000001" 9434765919 "Ada" "Moore";
                             patient "PAS000009" 9434765919 "Ada" "Moore"])
  = Returns 3%nat.
Proof. vm_compute. reflexivity. Qed.

Lemma fact_tables_row_counts_witness :
  length (t_fact_encounters sample_tables) = length (df_ehr sample_sources)
  ∧ length (t_fact_lab_tests sample_tables) = length (df_lims sample_sources)
  ∧ length (t_fact_appointments sample_tables)
    = length (df_appointments sample_sources)
  ∧ (∀ (i : nat) e,
       df_ehr sample_sources !! i = Some e →
       ehr_nhs_number e ∉ pas_nhs_number <$> df_pas sample_sources →
       ∃ f, t_fact_encounters sample_tables !! i = Some f
            ∧ fe_encounter_id f = ehr_encounter_id e
            ∧ fe_nhs_number f = ehr_nhs_number e
            ∧ fe_patient_key f = None)
  ∧ (∀ (i : nat) e,
       df_lims sample_sources !! i = Some e →
       lims_nhs_number e ∉ pas_nhs_number <$> df_pas sample_sources →
       ∃ f, t_fact_lab_tests sample_tables !! i = Some f
            ∧ fl_test_id f = lims_test_id e
            ∧ fl_nhs_number f = lims_nhs_number e
            ∧ fl_patient_key f = None)
  ∧ (∀ (i : nat) e,
       df_appointments sample_sources !! i = Some e →
       apt_nhs_number e ∉ pas_nhs_number <$> df_pas sample_sources →
       ∃ f, t_fact_appointments sample_tables !! i = Some f
            ∧ fa_appointment_id f = apt_appointment_id e
            ∧ fa_nhs_number f = apt_nhs_number e
            ∧ fa_patient_key f = None).
Proof.
  apply (fact_tables_row_counts sample_sources sample_tables).
  - apply (bool_decide_unpack _). vm_compute. exact I.
  - vm_compute. reflexivity.
Defined.

Lemma dim_date_keys_exact_witness :
  20240302 ∈ date_key <$> t_dim_date sample_tables
  ↔ (∃ e, e ∈ df_ehr sample_sources
          ∧ to_date_key (ehr_encounter_date e) = Returns 20240302)
    ∨ (∃ l, l ∈ df_lims sample_sources
            ∧ to_date_key (lims_order_date l) = Returns 20240302)
    ∨ (∃ a, a ∈ df_appointments sample_sources
            ∧ to_date_key (apt_appointment_date a) = Returns 20240302).
Proof.
  apply (dim_date_keys_exact (df_ehr sample_sources) (df_lims sample_sources)
           (df_appointments sample_sources) (t_dim_date sample_tables)).
  vm_compute. reflexivity.
Defined.

(** C4: two encounters on 5 January 2024, at 09:30 and at 14:45, give the
    date dimension two rows for that one calendar date, both with
    [date_key] 20240105: the timestamps are deduplicated with their time of
    day, so the dimension neither has one row per calendar date nor keeps its
    [date_key] values apart. *)
Theorem dim_date_same_day_rows :
  ∃ r1 r2,
    dim_date same_day_encounters (@nil (LimsRow Z string))
      (@nil (AppointmentRow Z string)) = Returns [r1; r2]
    ∧ date r1 = at_time 2024 1 5 9 30 0
    ∧ date r2 = at_time 2024 1 5 14 45 0
    ∧ normalize (date r1) = normalize (date r2)
    ∧ date_key r1 = 20240105
    ∧ date_key r2 = 20240105
    ∧ ¬ NoDup (date_key <$> [r1; r2]).
Proof.
  eexists _, _. split; [vm_compute; reflexivity|].
  cbn. repeat split.
  intros Hnd. apply NoDup_cons in Hnd as [Hnot _]. apply Hnot.
  apply list_elem_of_here.
Qed.

(** C6: on these two encounters every row of [fact_encounters] carries the
    [date_key] 20240105, which is the key of two rows of the date dimension,
    not of exactly one. *)
Theorem fact_date_key_two_matches :
  transform same_day_sources = Returns same_day_tables
  ∧ length (t_fact_encounters same_day_tables) = 2%nat
  ∧ ∀ (i : nat) f,
      t_fact_encounters same_day_tables !! i = Some f →
      fe_date_key f = 20240105
      ∧ length (filter (λ r, date_key r = fe_date_key f)
                  (t_dim_date same_day_tables)) = 2%nat.
Proof.
  split; [vm_compute; reflexivity|]. split; [vm_compute; reflexivity|].
  intros [|[|i]] f; vm_compute; intros [= <-]; auto.
Qed.

(** ** The checksum: generator and validator *)

Lemma length_9_inv {A} (s : list A) :
  length s = 9%nat →
  ∃ c0 c1 c2 c3 c4 c5 c6 c7 c8, s = [c0; c1; c2; c3; c4; c5; c6; c7; c8].
Proof.
  intros Hlen.
  do 9 (destruct s as [|? s]; [discriminate Hlen|]).
  destruct s; [|discriminate Hlen].
  repeat eexists.
Qed.

(** A digit prints as its ASCII character. *)
Lemma decimal_repr_digit (d : Z) :
  0 ≤ d ≤ 9 → decimal_repr d = [Z.to_N (48 + d)].
Proof.
  intros Hd.
  assert (d = 0 ∨ d = 1 ∨ d = 2 ∨ d = 3 ∨ d = 4 ∨ d = 5 ∨ d = 6 ∨ d = 7
          ∨ d = 8 ∨ d = 9) as Hcases by lia.
  repeat (destruct Hcases as [->|Hcases]; [reflexivity|]). by subst.
Qed.

Lemma ascii_decimal_digit (d : Z) :
  0 ≤ d ≤ 9 → ascii_decimal (Z.to_N (48 + d)) = Some d.
Proof.
  intros Hd. unfold ascii_decimal.
  destruct (decide (48 ≤ Z.to_N (48 + d) ∧ Z.to_N (48 + d) ≤ 57)%N); [|lia].
  f_equal. lia.
Qed.

Lemma py_str_digit (py : Python) (d : Z) :
  prints_ten_digits py → 0 ≤ d ≤ 9 →
  py_str py (PyInt d) = Returns [Z.to_N (48 + d)].
Proof.
  intros Hlimit Hd. cbn.
  assert (Hlen : length (decimal_digits d) = 1%nat).
  { assert (d = 0 ∨ d = 1 ∨ d = 2 ∨ d = 3 ∨ d = 4 ∨ d = 5 ∨ d = 6 ∨ d = 7
            ∨ d = 8 ∨ d = 9) as Hcases by lia.
    repeat (destruct Hcases as [->|Hcases]; [reflexivity|]). by subst. }
  rewrite Hlen. destruct (decide _) as [[Hon Hlt]|_].
  - destruct Hlimit; lia.
  - by rewrite decimal_repr_digit.
Qed.

Section ChecksumFacts.
Variable py : Python.

Lemma digits_of_9_inv c0 c1 c2 c3 c4 c5 c6 c7 c8 ds :
  digits_of py [c0; c1; c2; c3; c4; c5; c6; c7; c8] = Some ds →
  ∃ d0 d1 d2 d3 d4 d5 d6 d7 d8,
    ds = [d0; d1; d2; d3; d4; d5; d6; d7; d8]
    ∧ unicode_decimal py c0 = Some d0 ∧ unicode_decimal py c1 = Some d1
    ∧ unicode_decimal py c2 = Some d2 ∧ unicode_decimal py c3 = Some d3
    ∧ unicode_decimal py c4 = Some d4 ∧ unicode_decimal py c5 = Some d5
    ∧ unicode_decimal py c6 = Some d6 ∧ unicode_decimal py c7 = Some d7
    ∧ unicode_decimal py c8 = Some d8.
Proof.
  unfold digits_of. intros Hd. apply mapM_Some in Hd.
  repeat match goal with
         | H : Forall2 _ (_ :: _) _ |- _ =>
             apply Forall2_cons_inv_l in H as (? & ? & ? & H & ->)
         end.
  apply Forall2_nil_inv_l in Hd as ->.
  repeat eexists; eassumption.
Qed.

(** The value the validator returns on ten digits. *)
Lemma validate_true_iff (s : pystr) (ds : list Z) :
  length s = 10%nat →
  digits_of py s = Some ds →
  validate_nhs_number py (PyStr s) = Returns true ↔ spec_valid ds.
Proof.
  intros Hlen Hd.
  destruct (length_10_inv s Hlen)
    as (c0 & c1 & c2 & c3 & c4 & c5 & c6 & c7 & c8 & c9 & ->).
  destruct (digits_of_10_inv py _ _ _ _ _ _ _ _ _ _ _ Hd)
    as (d0 & d1 & d2 & d3 & d4 & d5 & d6 & d7 & d8 & d9 & -> &
        H0 & H1 & H2 & H3 & H4 & H5 & H6 & H7 & H8 & H9).
  unfold spec_valid, spec_check.
  remember (spec_weighted_sum [d0; d1; d2; d3; d4; d5; d6; d7; d8; d9])
    as total eqn:Htotal.
  unfold validate_nhs_number. cbn. unfold py_int.
  rewrite H0; cbn. rewrite H1; cbn. rewrite H2; cbn. rewrite H3; cbn.
  rewrite H4; cbn. rewrite H5; cbn. rewrite H6; cbn. rewrite H7; cbn.
  rewrite H8, H9; cbn.
  match goal with
  | |- context [@inl Z bool (11 - ?t `mod` 11)] =>
      replace t with total
        by (subst total; unfold spec_weighted_sum; cbn; lia)
  end.
  clear Htotal.
  destruct (decide (10%nat ≠ 10%nat)) as [?|_]; [done|].
  destruct (decide (11 - total `mod` 11 = 11)) as [E11|N11]; cbn.
  - split.
    + intros [= Hb]. apply bool_decide_eq_true in Hb as ->. done.
    + intros [_ [= ->]]. by rewrite bool_decide_eq_true_2.
  - destruct (decide (11 - total `mod` 11 = 10)) as [E10|N10]; cbn.
    + split; [discriminate|]. intros [? _]. done.
    + split.
      * intros [= Hb]. apply bool_decide_eq_true in Hb as ->. done.
      * intros [_ [= ->]]. by rewrite bool_decide_eq_true_2.
Qed.

(** What the generator's function returns on nine digits. *)
Lemma calculate_digits (s : pystr) (ds : list Z) :
  prints_ten_digits py →
  length s = 9%nat →
  digits_of py s = Some ds →
  calculate_nhs_check_digit py s
  = Returns (if decide (spec_check ds = 10) then None
             else if decide (spec_check ds = 11) then Some (decimal_repr 0)
             else Some (decimal_repr (spec_check ds))).
Proof.
  intros Hlimit Hlen Hd.
  destruct (length_9_inv s Hlen)
    as (c0 & c1 & c2 & c3 & c4 & c5 & c6 & c7 & c8 & ->).
  destruct (digits_of_9_inv _ _ _ _ _ _ _ _ _ _ Hd)
    as (d0 & d1 & d2 & d3 & d4 & d5 & d6 & d7 & d8 & -> &
        H0 & H1 & H2 & H3 & H4 & H5 & H6 & H7 & H8).
  unfold spec_check.
  remember (spec_weighted_sum [d0; d1; d2; d3; d4; d5; d6; d7; d8])
    as total eqn:Htotal.
  unfold calculate_nhs_check_digit. cbn -[py_str]. unfold py_int.
  rewrite H0; cbn -[py_str]. rewrite H1; cbn -[py_str].
  rewrite H2; cbn -[py_str]. rewrite H3; cbn -[py_str].
  rewrite H4; cbn -[py_str]. rewrite H5; cbn -[py_str].
  rewrite H6; cbn -[py_str]. rewrite H7; cbn -[py_str].
  rewrite H8; cbn -[py_str].
  match goal with
  | |- context [@inl Z (option pystr) (11 - ?t `mod` 11)] =>
      replace t with total
        by (subst total; unfold spec_weighted_sum; cbn; lia)
  end.
  clear Htotal.
  pose proof (Z.mod_pos_bound total 11 ltac:(lia)) as Hmod.
  destruct (decide (11 - total `mod` 11 = 11)) as [E11|N11].
  - destruct (decide (11 - total `mod` 11 = 10)); [lia|].
    rewrite py_str_digit by (done || lia). cbn.
    by rewrite decimal_repr_digit by lia.
  - destruct (decide (11 - total `mod` 11 = 10)) as [E10|N10]; [done|].
    rewrite py_str_digit by (done || lia). cbn.
    by rewrite decimal_repr_digit by lia.
Qed.
End ChecksumFacts.

Section GeneratorFacts.
Variable py : Python.

(** The loop of both functions stops with [ValueError] at the first
    character [int] refuses. *)
Lemma weighted_loop_ValueError (s : pystr) (start count : nat) (total : Z) :
  (∃ i c, (start ≤ i < start + count)%nat ∧ s !! i = Some c
          ∧ unicode_decimal py c = None) →
  for_each (seq start count)
    (λ i total,
       c ← py_getitem s i;
       d ← py_int py c;
       Returns (total + d * (10 - Z.of_nat i))) total
  = Raises ValueError.
Proof.
  revert start total. induction count as [|count IH]; intros start total.
  - intros (i & c & Hi & _). lia.
  - intros (i & c & Hi & Hc & Hnone). cbn [seq for_each].
    assert (is_Some (s !! start)) as [c0 Hc0].
    { apply lookup_lt_is_Some. apply lookup_lt_Some in Hc. lia. }
    cbv beta.
    assert (Hg : py_getitem s start = Returns c0)
      by (unfold py_getitem; by rewrite Hc0).
    rewrite Hg. cbn [mbind outcome_bind].
    destruct (unicode_decimal py c0) as [d0|] eqn:Hd0.
    2: { unfold py_int. by rewrite Hd0. }
    assert (Hint : py_int py c0 = Returns d0)
      by (unfold py_int; by rewrite Hd0).
    rewrite Hint. cbn [mbind outcome_bind].
    apply IH. exists i, c. split; [|done].
    destruct (decide (i = start)) as [->|]; [congruence|lia].
Qed.

(** On digits only, the loop stops with [IndexError] where the string
    ends. *)
Lemma weighted_loop_IndexError (s : pystr) (start count : nat) (total : Z) :
  is_Some (digits_of py s) →
  (start ≤ length s < start + count)%nat →
  for_each (seq start count)
    (λ i total,
       c ← py_getitem s i;
       d ← py_int py c;
       Returns (total + d * (10 - Z.of_nat i))) total
  = Raises IndexError.
Proof.
  intros Hdigits. unfold digits_of in Hdigits.
  rewrite mapM_is_Some, Forall_forall in Hdigits.
  revert start total. induction count as [|count IH]; intros start total Hlen;
    [lia|].
  cbn [seq for_each]. cbv beta.
  destruct (s !! start) as [c|] eqn:Hc.
  - assert (Hg : py_getitem s start = Returns c)
      by (unfold py_getitem; by rewrite Hc).
    destruct (Hdigits c) as [d Hd]; [by eapply list_elem_of_lookup_2|].
    assert (Hint : py_int py c = Returns d)
      by (unfold py_int; cbn in Hd; by rewrite Hd).
    rewrite Hg. cbn [mbind outcome_bind]. rewrite Hint.
    cbn [mbind outcome_bind]. apply IH.
    apply lookup_lt_Some in Hc. lia.
  - assert (Hg : py_getitem s start = Raises IndexError)
      by (unfold py_getitem; by rewrite Hc).
    by rewrite Hg.
Qed.

(** The function returns only on nine digits. *)
Lemma calculate_Returns_digits (s : pystr) (r : option pystr) :
  length s = 9%nat →
  calculate_nhs_check_digit py s = Returns r →
  ∃ ds, digits_of py s = Some ds.
Proof.
  intros Hlen Hr.
  destruct (digits_of py s) as [ds|] eqn:Hds; [eauto|exfalso].
  unfold digits_of in Hds. apply mapM_None in Hds.
  apply Exists_exists in Hds as (c & Hc & Hnone).
  apply list_elem_of_lookup in Hc as [i Hi].
  unfold calculate_nhs_check_digit, range in Hr.
  rewrite weighted_loop_ValueError in Hr; [discriminate|].
  exists i, c. apply lookup_lt_Some in Hi as Hlt. repeat split; [lia..|done|done].
Qed.

Lemma digits_of_snoc (s : pystr) (ds : list Z) (c : N) (d : Z) :
  digits_of py s = Some ds → unicode_decimal py c = Some d →
  digits_of py (s ++ [c]) = Some (ds ++ [d]).
Proof.
  unfold digits_of. rewrite !mapM_Some. intros Hs Hc.
  apply Forall2_app; [done|]. by constructor.
Qed.

Lemma digits_of_snoc_inv (s : pystr) (c : N) (ds' : list Z) :
  digits_of py (s ++ [c]) = Some ds' →
  ∃ ds d, ds' = ds ++ [d] ∧ digits_of py s = Some ds
          ∧ unicode_decimal py c = Some d.
Proof.
  unfold digits_of. rewrite mapM_Some.
  intros (ds & k & Hs & Hc & ->)%Forall2_app_inv_l.
  apply Forall2_cons_inv_l in Hc as (d & k' & Hd & Hnil & ->).
  apply Forall2_nil_inv_l in Hnil as ->.
  exists ds, d. by rewrite mapM_Some.
Qed.

(** Validity of nine digits followed by a tenth. *)
Lemma spec_valid_snoc (ds : list Z) (d : Z) :
  length ds = 9%nat →
  spec_valid (ds ++ [d])
  ↔ spec_check ds ≠ 10
    ∧ d = (if decide (spec_check ds = 11) then 0 else spec_check ds).
Proof.
  intros Hlen.
  destruct (length_9_inv ds Hlen)
    as (d0 & d1 & d2 & d3 & d4 & d5 & d6 & d7 & d8 & ->).
  unfold spec_valid.
  change (spec_check ([d0; d1; d2; d3; d4; d5; d6; d7; d8] ++ [d]))
    with (spec_check [d0; d1; d2; d3; d4; d5; d6; d7; d8]).
  cbn [app lookup list_lookup].
  destruct (decide (spec_check _ = 11)) as [E|N]; split.
  - intros [_ [= ->]]. split; [lia|done].
  - intros [_ ->]. done.
  - intros [? [= ->]]. done.
  - intros [? ->]. done.
Qed.

Lemma spec_check_range (ds : list Z) : 1 ≤ spec_check ds ≤ 11.
Proof.
  unfold spec_check.
  pose proof (Z.mod_pos_bound (spec_weighted_sum ds) 11 ltac:(lia)). lia.
Qed.

(** The number made of nine digits and their check digit is valid. *)
Lemma calculate_then_validate (s c : pystr) :
  ascii_digits_known py → prints_ten_digits py →
  length s = 9%nat →
  calculate_nhs_check_digit py s = Returns (Some c) →
  length (s ++ c) = 10%nat
  ∧ validate_nhs_number py (PyStr (s ++ c)) = Returns true.
Proof.
  intros Hascii Hlimit Hlen Hc.
  destruct (calculate_Returns_digits s _ Hlen Hc) as [ds Hds].
  rewrite (calculate_digits py s ds Hlimit Hlen Hds) in Hc.
  pose proof (spec_check_range ds) as Hrange.
  assert (Hdslen : length ds = 9%nat).
  { unfold digits_of in Hds. apply mapM_Some in Hds.
    apply Forall2_length in Hds. congruence. }
  set (d := if decide (spec_check ds = 11) then 0 else spec_check ds).
  assert (Hd : 0 ≤ d ≤ 9 ∧ spec_check ds ≠ 10 ∧ c = [Z.to_N (48 + d)]).
  { subst d. destruct (decide (spec_check ds = 10)); [discriminate|].
    destruct (decide (spec_check ds = 11)); injection Hc as <-;
      (split; [lia|]); (split; [done|]); apply decimal_repr_digit; lia. }
  destruct Hd as (Hd & Hne & ->).
  split; [rewrite length_app; cbn; lia|].
  apply (validate_true_iff py _ (ds ++ [d])).
  - rewrite length_app. cbn. lia.
  - apply digits_of_snoc; [done|]. apply Hascii, ascii_decimal_digit, Hd.
  - apply spec_valid_snoc; done.
Qed.
End GeneratorFacts.

Section ChecksumTheorems.
Variable py : Python.

(** X1: nine digits followed by the check digit the generator's function
    computes for them form a number the validator accepts; the check digit
    is one character. *)
Theorem check_digit_round_trip (s c : pystr) :
  ascii_digits_known py → prints_ten_digits py →
  length s = 9%nat →
  calculate_nhs_check_digit py s = Returns (Some c) →
  length c = 1%nat
  ∧ validate_nhs_number py (PyStr (s ++ c)) = Returns true.
Proof.
  intros Hascii Hlimit Hlen Hc.
  destruct (calculate_then_validate py s c Hascii Hlimit Hlen Hc) as [Hl Hv].
  split; [|done]. rewrite length_app in Hl. lia.
Qed.

(** X2: when the generator's function returns [None] for nine digits (a
    check of 10), no tenth character makes the validator accept them. *)
Theorem no_check_digit_no_valid_number (s : pystr) (c : N) :
  prints_ten_digits py →
  length s = 9%nat →
  calculate_nhs_check_digit py s = Returns None →
  validate_nhs_number py (PyStr (s ++ [c])) = Returns false.
Proof.
  intros Hlimit Hlen Hnone.
  destruct (calculate_Returns_digits py s _ Hlen Hnone) as [ds Hds].
  rewrite (calculate_digits py s ds Hlimit Hlen Hds) in Hnone.
  assert (Hcheck : spec_check ds = 10).
  { destruct (decide (spec_check ds = 10)); [done|].
    destruct (decide (spec_check ds = 11)); discriminate. }
  destruct (validate_returns py (PyStr (s ++ [c]))) as [[|] Hb]; [exfalso|done].
  pose proof (validate_true_inv py _ Hb) as (Hlen10 & ds' & Hds').
  apply (validate_true_iff py _ ds' Hlen10 Hds') in Hb.
  apply digits_of_snoc_inv in Hds' as (ds0 & d & -> & Hds0 & Hd).
  rewrite Hds in Hds0. injection Hds0 as <-.
  apply spec_valid_snoc in Hb as [Hne _]; [done|].
  unfold digits_of in Hds. apply mapM_Some, Forall2_length in Hds. congruence.
Qed.

(** X3: a valid ten-character number ends with the check digit the
    generator's function computes for its first nine characters, so nine
    digits have at most one valid completion. *)
Theorem valid_number_ends_with_check_digit (s : pystr) (c : N) :
  prints_ten_digits py →
  length s = 9%nat →
  validate_nhs_number py (PyStr (s ++ [c])) = Returns true →
  ∃ d, unicode_decimal py c = Some d
       ∧ 0 ≤ d ≤ 9
       ∧ calculate_nhs_check_digit py s = Returns (Some (decimal_repr d)).
Proof.
  intros Hlimit Hlen Hb.
  pose proof (validate_true_inv py _ Hb) as (Hlen10 & ds' & Hds').
  apply (validate_true_iff py _ ds' Hlen10 Hds') in Hb.
  apply digits_of_snoc_inv in Hds' as (ds & d & -> & Hds & Hd).
  assert (Hdslen : length ds = 9%nat).
  { unfold digits_of in Hds. apply mapM_Some, Forall2_length in Hds.
    congruence. }
  apply spec_valid_snoc in Hb as [Hne ->]; [|done].
  pose proof (spec_check_range ds) as Hrange.
  eexists. split; [exact Hd|].
  rewrite (calculate_digits py s ds Hlimit Hlen Hds).
  destruct (decide (spec_check ds = 10)); [done|].
  destruct (decide (spec_check ds = 11)); (split; [lia|done]).
Qed.

(** X5: the generator's function has no [try]: on fewer than nine
    characters, all digits, [first_nine[i]] raises [IndexError], and a
    character among the first nine that is not a digit raises
    [ValueError]. *)
Theorem calculate_check_digit_raises (s : pystr) :
  (is_Some (digits_of py s) → (length s < 9)%nat →
   calculate_nhs_check_digit py s = Raises IndexError)
  ∧ ((∃ i c, (i < 9)%nat ∧ s !! i = Some c ∧ unicode_decimal py c = None) →
     calculate_nhs_check_digit py s = Raises ValueError).
Proof.
  split.
  - intros Hdigits Hlen. unfold calculate_nhs_check_digit, range.
    rewrite weighted_loop_IndexError; [done..|lia].
  - intros (i & c & Hi & Hc & Hnone). unfold calculate_nhs_check_digit, range.
    rewrite weighted_loop_ValueError; [done|].
    exists i, c. repeat split; [lia|lia|done|done].
Qed.
End ChecksumTheorems.

Lemma ascii_python_digits_known : ascii_digits_known ascii_python.
Proof. intros c d Hc. exact Hc. Qed.

Lemma cpython_digits_known : ascii_digits_known cpython.
Proof. intros c d Hc. exact Hc. Qed.

Lemma cpython_prints_ten_digits : prints_ten_digits cpython.
Proof. right. cbn. lia. Qed.

Lemma check_digit_round_trip_witness :
  length (codepoints "9") = 1%nat
  ∧ validate_nhs_number cpython
      (PyStr (codepoints "943476591" ++ codepoints "9")) = Returns true.
Proof.
  apply (check_digit_round_trip cpython (codepoints "943476591")
           (codepoints "9")).
  - exact cpython_digits_known.
  - exact cpython_prints_ten_digits.
  - reflexivity.
  - vm_compute. reflexivity.
Defined.

Lemma no_check_digit_no_valid_number_witness :
  validate_nhs_number cpython (PyStr (codepoints "000000006" ++ [55%N]))
  = Returns false.
Proof.
  apply (no_check_digit_no_valid_number cpython (codepoints "000000006") 55%N).
  - exact cpython_prints_ten_digits.
  - reflexivity.
  - vm_compute. reflexivity.
Defined.

Lemma valid_number_ends_with_check_digit_witness :
  ∃ d, unicode_decimal cpython 57%N = Some d
       ∧ 0 ≤ d ≤ 9
       ∧ calculate_nhs_check_digit cpython (codepoints "943476591")
         = Returns (Some (decimal_repr d)).
Proof.
  apply (valid_number_ends_with_check_digit cpython (codepoints "943476591")
           57%N).
  - exact cpython_prints_ten_digits.
  - reflexivity.
  - vm_compute. reflexivity.
Defined.

Section DetectionFacts.
Variable py : Python.

(** The validator's rule as a congruence, for a tenth digit below 10. *)
Lemma spec_valid_congruence (ds : list Z) (d9 : Z) :
  length ds = 10%nat → ds !! 9%nat = Some d9 → 0 ≤ d9 ≤ 9 →
  spec_valid ds ↔ full_weighted_sum ds `mod` 11 = 0.
Proof.
  intros Hlen H9 Hrange.
  destruct (length_10_inv ds Hlen)
    as (d0 & d1 & d2 & d3 & d4 & d5 & d6 & d7 & d8 & d9' & ->).
  injection H9 as ->.
  assert (Hfull : full_weighted_sum [d0; d1; d2; d3; d4; d5; d6; d7; d8; d9]
                  = spec_weighted_sum [d0; d1; d2; d3; d4; d5; d6; d7; d8; d9]
                    + d9)
    by (unfold full_weighted_sum, spec_weighted_sum; cbn; lia).
  rewrite Hfull. unfold spec_valid, spec_check.
  cbn [lookup list_lookup].
  generalize (spec_weighted_sum [d0; d1; d2; d3; d4; d5; d6; d7; d8; d9]).
  clear - Hrange. intros total.
  pose proof (Z.mod_pos_bound total 11 ltac:(lia)).
  destruct (decide (11 - total `mod` 11 = 11)) as [E|N]; split.
  - intros [_ [= ->]]. rewrite Z.add_0_r. lia.
  - intros Hm. split; [lia|]. f_equal.
    rewrite Z.add_mod in Hm by lia.
    replace (total `mod` 11) with 0 in Hm by lia.
    rewrite Z.add_0_l, Z.mod_mod, Z.mod_small in Hm by lia. done.
  - intros [Hne [= ->]]. rewrite Z.add_mod by lia.
    rewrite (Z.mod_small (11 - _)) by lia.
    replace (total `mod` 11 + (11 - total `mod` 11)) with 11 by lia. done.
  - intros Hm. rewrite Z.add_mod in Hm by lia.
    rewrite (Z.mod_small d9) in Hm by lia.
    assert (Hsum : total `mod` 11 + d9 = 11).
    { assert (0 ≤ total `mod` 11 + d9 < 22) by lia.
      destruct (decide (total `mod` 11 + d9 < 11)).
      - rewrite Z.mod_small in Hm by lia. lia.
      - replace (total `mod` 11 + d9) with (total `mod` 11 + d9 - 11 + 1 * 11)
          in Hm by lia.
        rewrite Z.mod_add, Z.mod_small in Hm by lia. lia. }
    split; [lia|]. f_equal. lia.
Qed.

Lemma digits_in_range (s : pystr) (ds : list Z) :
  decimal_range py → digits_of py s = Some ds → Forall (λ d, 0 ≤ d ≤ 9) ds.
Proof.
  intros Hrange Hds. unfold digits_of in Hds. apply mapM_Some in Hds.
  induction Hds as [|c d s ds Hc _ IH]; constructor; [|done].
  by apply (Hrange c).
Qed.

Lemma digits_of_insert (s : pystr) (ds : list Z) (i : nat) (c : N) (d : Z) :
  digits_of py s = Some ds → unicode_decimal py c = Some d →
  digits_of py (<[i := c]> s) = Some (<[i := d]> ds).
Proof.
  unfold digits_of. rewrite !mapM_Some. intros Hs Hc.
  by apply Forall2_insert.
Qed.

Lemma digits_of_lookup (s : pystr) (ds : list Z) (i : nat) (c : N) :
  digits_of py s = Some ds → s !! i = Some c →
  ∃ d, ds !! i = Some d ∧ unicode_decimal py c = Some d.
Proof.
  unfold digits_of. rewrite mapM_Some. intros Hs Hc.
  by eapply Forall2_lookup_l in Hs.
Qed.

(** A string with a character that is not a digit is refused. *)
Lemma validate_non_digit (s : pystr) (c : N) :
  c ∈ s → unicode_decimal py c = None →
  validate_nhs_number py (PyStr s) = Returns false.
Proof.
  intros Hc Hnone.
  destruct (validate_returns py (PyStr s)) as [[|] Hb]; [exfalso|done].
  apply validate_true_inv in Hb as (_ & ds & Hds).
  apply list_elem_of_lookup in Hc as [i Hi].
  destruct (digits_of_lookup _ _ _ _ Hds Hi) as (d & _ & Hd). congruence.
Qed.

(** Changing one digit changes the weighted sum by a multiple of the
    weight, which 11 does not divide. *)
Lemma single_change_detected (ds : list Z) (i : nat) (d d' : Z) :
  length ds = 10%nat → Forall (λ d, 0 ≤ d ≤ 9) ds → 0 ≤ d' ≤ 9 →
  ds !! i = Some d → d' ≠ d →
  full_weighted_sum ds `mod` 11 = 0 →
  full_weighted_sum (<[i := d']> ds) `mod` 11 ≠ 0.
Proof.
  intros Hlen Hrange Hd' Hi Hne.
  destruct (length_10_inv ds Hlen)
    as (d0 & d1 & d2 & d3 & d4 & d5 & d6 & d7 & d8 & d9 & ->).
  repeat match goal with
         | H : Forall _ (_ :: _) |- _ => apply Forall_cons in H as [? H]
         end.
  do 10 (destruct i as [|i];
         [injection Hi as ->; unfold full_weighted_sum; cbn;
          intros Hs1 Hs2; apply Z.mod_divide in Hs1, Hs2; [|lia..];
          destruct Hs1 as [k1 Hs1], Hs2 as [k2 Hs2]; lia|]).
  discriminate.
Qed.

(** Exchanging two different digits changes the weighted sum by the
    product of their difference and the difference of their weights. *)
Lemma transposition_detected (ds : list Z) (i j : nat) (di dj : Z) :
  length ds = 10%nat → Forall (λ d, 0 ≤ d ≤ 9) ds →
  ds !! i = Some di → ds !! j = Some dj → di ≠ dj →
  full_weighted_sum ds `mod` 11 = 0 →
  full_weighted_sum (<[i := dj]> (<[j := di]> ds)) `mod` 11 ≠ 0.
Proof.
  intros Hlen Hrange Hi Hj Hne.
  destruct (length_10_inv ds Hlen)
    as (d0 & d1 & d2 & d3 & d4 & d5 & d6 & d7 & d8 & d9 & ->).
  repeat match goal with
         | H : Forall _ (_ :: _) |- _ => apply Forall_cons in H as [? H]
         end.
  do 10 (destruct i as [|i];
         [injection Hi as ->;
          do 10 (destruct j as [|j];
                 [injection Hj as ->; unfold full_weighted_sum; cbn;
                  intros Hs1 Hs2; apply Z.mod_divide in Hs1, Hs2;
                  [|lia..];
                  destruct Hs1 as [k1 Hs1], Hs2 as [k2 Hs2]; lia|]);
          discriminate|]).
  discriminate.
Qed.
End DetectionFacts.

Section DetectionTheorems.
Variable py : Python.

(** X6: on ten digits the validator accepts exactly the numbers whose
    weighted sum over all ten digits, weights 10 down to 1, is a multiple of
    11. *)
Theorem validate_congruence (s : pystr) (ds : list Z) :
  decimal_range py →
  length s = 10%nat →
  digits_of py s = Some ds →
  validate_nhs_number py (PyStr s) = Returns true
  ↔ full_weighted_sum ds `mod` 11 = 0.
Proof.
  intros Hrange Hlen Hds.
  rewrite (validate_true_iff py s ds Hlen Hds).
  assert (Hdslen : length ds = 10%nat).
  { unfold digits_of in Hds. apply mapM_Some, Forall2_length in Hds.
    congruence. }
  destruct (lookup_lt_is_Some_2 ds 9) as [d9 H9]; [lia|].
  apply (spec_valid_congruence ds d9); [done..|].
  pose proof (digits_in_range py s ds Hrange Hds) as Hall.
  rewrite Forall_forall in Hall. apply Hall.
  by eapply list_elem_of_lookup_2.
Qed.

(** X7: a valid number in which one character is replaced by a character of
    another digit value, or by one that is no digit, is refused: the check
    detects every single-digit error. *)
Theorem single_digit_error_detected (s : pystr) (i : nat) (c c' : N) :
  decimal_range py →
  validate_nhs_number py (PyStr s) = Returns true →
  s !! i = Some c →
  unicode_decimal py c' ≠ unicode_decimal py c →
  validate_nhs_number py (PyStr (<[i := c']> s)) = Returns false.
Proof.
  intros Hrange Hvalid Hi Hne.
  pose proof (validate_true_inv py s Hvalid) as (Hlen & ds & Hds).
  destruct (digits_of_lookup py _ _ _ _ Hds Hi) as (d & Hdi & Hd).
  destruct (unicode_decimal py c') as [d'|] eqn:Hd'.
  - destruct (validate_returns py (PyStr (<[i := c']> s))) as [[|] Hb];
      [exfalso|done].
    pose proof (digits_of_insert py s ds i c' d' Hds Hd') as Hds'.
    assert (Hdslen : length ds = 10%nat).
    { unfold digits_of in Hds. apply mapM_Some, Forall2_length in Hds.
      congruence. }
    pose proof (digits_in_range py s ds Hrange Hds) as Hall.
    apply (validate_true_iff py s ds Hlen Hds) in Hvalid.
    assert (Hlen' : length (<[i := c']> s) = 10%nat)
      by exact (eq_trans (length_insert s i c') Hlen).
    apply (validate_true_iff py _ _ Hlen' Hds') in Hb.
    destruct (lookup_lt_is_Some_2 ds 9) as [d9 H9]; [lia|].
    apply (spec_valid_congruence ds d9) in Hvalid; [|done..|].
    2: { rewrite Forall_forall in Hall. apply Hall.
         by eapply list_elem_of_lookup_2. }
    destruct (lookup_lt_is_Some_2 (<[i := d']> ds) 9) as [d9' H9'];
      [rewrite length_insert; lia|].
    apply (spec_valid_congruence _ d9') in Hb;
      [|by rewrite length_insert|done|].
    2: { pose proof (digits_in_range py _ _ Hrange Hds') as Hall'.
         rewrite Forall_forall in Hall'. apply Hall'.
         by eapply list_elem_of_lookup_2. }
    revert Hb. apply (single_change_detected ds i d d'); try done.
    + by apply (Hrange c').
    + congruence.
  - apply (validate_non_digit py _ c'); [|done].
    apply list_elem_of_lookup. exists i.
    apply list_lookup_insert_eq. by eapply lookup_lt_Some.
Qed.

(** X8: a valid number in which two characters of different digit values
    are exchanged is refused: the check detects every transposition. *)
Theorem transposition_error_detected (s : pystr) (i j : nat) (ci cj : N) :
  decimal_range py →
  validate_nhs_number py (PyStr s) = Returns true →
  s !! i = Some ci → s !! j = Some cj →
  unicode_decimal py ci ≠ unicode_decimal py cj →
  validate_nhs_number py (PyStr (<[i := cj]> (<[j := ci]> s))) = Returns false.
Proof.
  intros Hrange Hvalid Hi Hj Hne.
  pose proof (validate_true_inv py s Hvalid) as (Hlen & ds & Hds).
  destruct (digits_of_lookup py _ _ _ _ Hds Hi) as (di & Hdi & Hci).
  destruct (digits_of_lookup py _ _ _ _ Hds Hj) as (dj & Hdj & Hcj).
  destruct (validate_returns py (PyStr (<[i := cj]> (<[j := ci]> s))))
    as [[|] Hb]; [exfalso|done].
  pose proof (digits_of_insert py _ _ i cj dj
                (digits_of_insert py s ds j ci di Hds Hci) Hcj) as Hds'.
  assert (Hdslen : length ds = 10%nat).
  { unfold digits_of in Hds. apply mapM_Some, Forall2_length in Hds.
    congruence. }
  pose proof (digits_in_range py s ds Hrange Hds) as Hall.
  apply (validate_true_iff py s ds Hlen Hds) in Hvalid.
  assert (Hlen' : length (<[i := cj]> (<[j := ci]> s)) = 10%nat)
    by exact (eq_trans (length_insert _ i cj)
                (eq_trans (length_insert s j ci) Hlen)).
  apply (validate_true_iff py _ _ Hlen' Hds') in Hb.
  destruct (lookup_lt_is_Some_2 ds 9) as [d9 H9]; [lia|].
  apply (spec_valid_congruence ds d9) in Hvalid; [|done..|].
  2: { rewrite Forall_forall in Hall. apply Hall.
       by eapply list_elem_of_lookup_2. }
  destruct (lookup_lt_is_Some_2 (<[i := dj]> (<[j := di]> ds)) 9)
    as [d9' H9']; [rewrite !length_insert; lia|].
  apply (spec_valid_congruence _ d9') in Hb;
    [|by rewrite !length_insert|done|].
  2: { pose proof (digits_in_range py _ _ Hrange Hds') as Hall'.
       rewrite Forall_forall in Hall'. apply Hall'.
       by eapply list_elem_of_lookup_2. }
  revert Hb. apply (transposition_detected ds i j di dj); try done.
  congruence.
Qed.

(** One turn of the generator's loop on nine drawn digits. *)
Lemma drawn_digits (draws : list Z) :
  ascii_digits_known py → prints_ten_digits py → nine_draws draws →
  ∃ digits,
    mapM (λ d, py_str py (PyInt d)) draws = Returns digits
    ∧ length (concat digits) = 9%nat
    ∧ digits_of py (concat digits) = Some draws.
Proof.
  intros Hascii Hlimit [Hlen Hall].
  exists ((λ d, [Z.to_N (48 + d)]) <$> draws). split; [|split].
  - apply mapM_Returns. apply Forall2_fmap_r, Forall_Forall2_diag.
    eapply Forall_impl; [exact Hall|]. intros d Hd. by apply py_str_digit.
  - rewrite <-Hlen. clear. induction draws; cbn; [done|]. by f_equal.
  - unfold digits_of. apply mapM_Some. clear Hlen.
    induction Hall as [|d draws Hd _ IH]; cbn; [constructor|].
    constructor; [|done]. apply Hascii, ascii_decimal_digit, Hd.
Qed.

(** X4: fed with draws from 0 to 9, nine per turn, the generator raises
    nothing; whatever it returns is a ten-character number the validator
    accepts; and it is still looping after the given turns only if every one
    of them drew nine digits whose check is 10. *)
Theorem generate_nhs_number_valid (rounds : list (list Z)) :
  ascii_digits_known py → prints_ten_digits py →
  Forall nine_draws rounds →
  (∃ r, generate_nhs_number py rounds = Returns r)
  ∧ (∀ s, generate_nhs_number py rounds = Returns (Some s) →
       length s = 10%nat
       ∧ validate_nhs_number py (PyStr s) = Returns true)
  ∧ (generate_nhs_number py rounds = Returns None →
     Forall (λ draws, spec_check draws = 10) rounds).
Proof.
  intros Hascii Hlimit Hrounds.
  induction Hrounds as [|draws rounds Hdraws _ IH].
  - cbn. split; [eauto|]. split; [discriminate|constructor].
  - destruct IH as (IHr & IHv & IHn).
    destruct (drawn_digits draws Hascii Hlimit Hdraws)
      as (digits & Hdigits & Hlen & Hds).
    cbn [generate_nhs_number]. unfold pystr in *. rewrite Hdigits.
    cbn [mbind outcome_bind].
    pose proof (calculate_digits py _ _ Hlimit Hlen Hds) as Hcalc.
    destruct (decide (spec_check draws = 10)) as [E10|N10].
    + rewrite Hcalc. cbn [mbind outcome_bind].
      split; [done|]. split; [done|]. intros Hn. constructor; auto.
    + assert (∃ c, calculate_nhs_check_digit py (concat digits)
                   = Returns (Some c)) as [c Hc].
      { rewrite Hcalc. destruct (decide (spec_check draws = 11)); eauto. }
      rewrite Hc. cbn [mbind outcome_bind].
      split; [eauto|]. split; [|discriminate].
      intros s [= <-]. by apply calculate_then_validate.
Qed.
End DetectionTheorems.

Lemma cpython_decimal_range : decimal_range cpython.
Proof.
  intros c d. cbn. unfold ascii_decimal.
  destruct (decide _) as [[??]|]; [|discriminate]. intros [= <-]. lia.
Qed.

Lemma validate_congruence_witness :
  validate_nhs_number cpython (PyStr (codepoints "9434765919")) = Returns true
  ↔ full_weighted_sum [9; 4; 3; 4; 7; 6; 5; 9; 1; 9] `mod` 11 = 0.
Proof.
  apply (validate_congruence cpython (codepoints "9434765919")
           [9; 4; 3; 4; 7; 6; 5; 9; 1; 9]).
  - exact cpython_decimal_range.
  - reflexivity.
  - reflexivity.
Defined.

Lemma single_digit_error_detected_witness :
  validate_nhs_number cpython (PyStr (<[3%nat := 53%N]> (codepoints "9434765919")))
  = Returns false.
Proof.
  apply (single_digit_error_detected cpython (codepoints "9434765919") 3
           52%N 53%N).
  - exact cpython_decimal_range.
  - vm_compute. reflexivity.
  - reflexivity.
  - vm_compute. discriminate.
Defined.

Lemma transposition_error_detected_witness :
  validate_nhs_number cpython
    (PyStr (<[0%nat := 52%N]> (<[1%nat := 57%N]> (codepoints "9434765919"))))
  = Returns false.
Proof.
  apply (transposition_error_detected cpython (codepoints "9434765919") 0 1
           57%N 52%N).
  - exact cpython_decimal_range.
  - vm_compute. reflexivity.
  - reflexivity.
  - reflexivity.
  - vm_compute. discriminate.
Defined.

Lemma nine_draws_example : nine_draws [9; 4; 3; 4; 7; 6; 5; 9; 1].
Proof. split; [reflexivity|]. repeat constructor; lia. Qed.

Lemma nine_draws_check_10 : nine_draws [0; 0; 0; 0; 0; 0; 0; 0; 6].
Proof. split; [reflexivity|]. repeat constructor; lia. Qed.

Lemma generate_nhs_number_valid_witness :
  (∃ r, generate_nhs_number cpython
          [[0; 0; 0; 0; 0; 0; 0; 0; 6]; [9; 4; 3; 4; 7; 6; 5; 9; 1]]
        = Returns r)
  ∧ (∀ s, generate_nhs_number cpython
            [[0; 0; 0; 0; 0; 0; 0; 0; 6]; [9; 4; 3; 4; 7; 6; 5; 9; 1]]
          = Returns (Some s) →
       length s = 10%nat
       ∧ validate_nhs_number cpython (PyStr s) = Returns true)
  ∧ (generate_nhs_number cpython
       [[0; 0; 0; 0; 0; 0; 0; 0; 6]; [9; 4; 3; 4; 7; 6; 5; 9; 1]]
     = Returns None →
     Forall (λ draws, spec_check draws = 10)
       [[0; 0; 0; 0; 0; 0; 0; 0; 6]; [9; 4; 3; 4; 7; 6; 5; 9; 1]]).
Proof.
  apply (generate_nhs_number_valid cpython
           [[0; 0; 0; 0; 0; 0; 0; 0; 6]; [9; 4; 3; 4; 7; 6; 5; 9; 1]]).
  - exact cpython_digits_known.
  - exact cpython_prints_ten_digits.
  - repeat constructor; lia.
Defined.

Example generate_nhs_number_second_turn :
  generate_nhs_number cpython
    [[0; 0; 0; 0; 0; 0; 0; 0; 6]; [9; 4; 3; 4; 7; 6; 5; 9; 1]]
  = Returns (Some (codepoints "9434765919")).
Proof. vm_compute. reflexivity. Qed.

(** ** Chronological order *)

Lemma ts_le_iff (a b : Timestamp) :
  ts_le a b
  ↔ ts_year a < ts_year b
    ∨ (ts_year a = ts_year b
       ∧ (ts_month a < ts_month b
          ∨ (ts_month a = ts_month b
             ∧ (ts_day a < ts_day b
                ∨ (ts_day a = ts_day b ∧ ts_time a ≤ ts_time b))))).
Proof.
  unfold ts_le, ts_compare.
  destruct (Z.compare_spec (ts_year a) (ts_year b));
    destruct (Z.compare_spec (ts_month a) (ts_month b));
    destruct (Z.compare_spec (ts_day a) (ts_day b));
    destruct (Z.compare_spec (ts_time a) (ts_time b));
    split; intros; try lia; try done.
Qed.

#[global] Instance ts_le_total : Total ts_le.
Proof. intros a b. rewrite !ts_le_iff. lia. Qed.

#[global] Instance ts_le_trans : Transitive ts_le.
Proof. intros a b c. rewrite !ts_le_iff. lia. Qed.

Lemma ts_le_antisym (a b : Timestamp) : ts_le a b → ts_le b a → a = b.
Proof.
  rewrite !ts_le_iff. intros Hab Hba.
  destruct a, b; cbn in *. f_equal; lia.
Qed.

#[global] Instance date_order_total :
  Total (λ a b : DimDate, ts_le (date a) (date b)).
Proof. intros a b. apply ts_le_total. Qed.

#[global] Instance date_order_trans :
  Transitive (λ a b : DimDate, ts_le (date a) (date b)).
Proof. intros a b c. apply ts_le_trans. Qed.

Lemma sort_values_date_sorted (rows : list DimDate) :
  StronglySorted (λ a b, ts_le (date a) (date b)) (sort_values_date rows).
Proof. apply StronglySorted_merge_sort; apply _. Qed.

(** Later valid timestamps have larger or equal date keys. *)
Lemma to_date_key_mono (t1 t2 : Timestamp) (k1 k2 : Z) :
  valid_timestamp t1 → valid_timestamp t2 → ts_le t1 t2 →
  to_date_key (Some t1) = Returns k1 → to_date_key (Some t2) = Returns k2 →
  k1 ≤ k2.
Proof.
  intros H1 H2 Hle. rewrite !to_date_key_valid by done.
  intros [= <-] [= <-]. apply ts_le_iff in Hle.
  destruct H1 as (? & ? & ? & _), H2 as (? & ? & ? & _). lia.
Qed.

(** ** More on the date dimension *)

Section DateOrderFacts.
Context {K cell : Type}.
Implicit Types (df_ehr : list (EhrRow K cell)) (df_lims : list (LimsRow K cell))
  (df_appointments : list (AppointmentRow K cell)).

(** A row of the dimension is determined by its timestamp. *)
Lemma dim_date_row_inj (d : option Timestamp) (r1 r2 : DimDate) :
  dim_date_row d = Returns r1 → dim_date_row d = Returns r2 → r1 = r2.
Proof. congruence. Qed.

(** X9: the rows of the date dimension are in ascending chronological
    order, each timestamp before the next; when the sources hold valid
    timestamps the [date_key] column never decreases. *)
Theorem dim_date_sorted df_ehr df_lims df_appointments (dd : list DimDate) :
  dim_date df_ehr df_lims df_appointments = Returns dd →
  StronglySorted (λ a b, ts_le (date a) (date b) ∧ date a ≠ date b) dd
  ∧ (Forall valid_date
       ((ehr_encounter_date <$> df_ehr) ++ (lims_order_date <$> df_lims)
        ++ (apt_appointment_date <$> df_appointments)) →
     StronglySorted Z.le (date_key <$> dd)).
Proof.
  intros Hdd.
  assert (Hsorted : StronglySorted (λ a b, ts_le (date a) (date b)) dd).
  { unfold dim_date in Hdd.
    destruct (mapM _ _) as [rows|]; cbn in Hdd; [|discriminate].
    injection Hdd as <-. apply sort_values_date_sorted. }
  pose proof (NoDup_dim_date_dates _ _ _ _ Hdd) as Hnd.
  split.
  - clear Hdd. induction Hsorted as [|r dd Hsorted IH Hall]; [constructor|].
    rewrite fmap_cons in Hnd. apply NoDup_cons in Hnd as [Hr Hnd].
    constructor; [by apply IH|].
    rewrite Forall_forall in Hall |- *. intros r' Hr'. split; [by apply Hall|].
    intros Heq. apply Hr. rewrite Heq. by apply list_elem_of_fmap_2.
  - intros Hvalid. rewrite Forall_forall in Hvalid.
    assert (Hrows : ∀ r, r ∈ dd →
              valid_timestamp (date r)
              ∧ to_date_key (Some (date r)) = Returns (date_key r)).
    { intros r Hr. destruct (dim_date_rows _ _ _ _ _ Hdd Hr) as [Hin Hrow].
      destruct (Hvalid _ Hin) as (t & [= <-] & Ht). split; [done|].
      by apply dim_date_row_Returns in Hrow as [_ ?]. }
    clear Hdd Hnd Hvalid.
    induction Hsorted as [|r dd Hsorted IH Hall]; [constructor|].
    rewrite fmap_cons. constructor.
    + apply IH. intros r' Hr'. apply Hrows. by right.
    + rewrite Forall_forall in Hall. rewrite Forall_fmap, Forall_forall.
      intros r' Hr'. cbn.
      destruct (Hrows r) as [Hv Hk]; [by left|].
      destruct (Hrows r') as [Hv' Hk']; [by right|].
      eapply to_date_key_mono; [exact Hv|exact Hv'|by apply Hall|done..].
Qed.

(** X10: the date dimension does not depend on the order of the rows in the
    three sources. *)
Theorem dim_date_order_independent df_ehr df_lims df_appointments
    df_ehr' df_lims' df_appointments' (dd : list DimDate) :
  df_ehr ≡ₚ df_ehr' → df_lims ≡ₚ df_lims' →
  df_appointments ≡ₚ df_appointments' →
  dim_date df_ehr df_lims df_appointments = Returns dd →
  dim_date df_ehr' df_lims' df_appointments' = Returns dd.
Proof.
  intros He Hl Ha Hdd.
  set (dates := (ehr_encounter_date <$> df_ehr) ++ (lims_order_date <$> df_lims)
                ++ (apt_appointment_date <$> df_appointments)).
  set (dates' := (ehr_encounter_date <$> df_ehr')
                 ++ (lims_order_date <$> df_lims')
                 ++ (apt_appointment_date <$> df_appointments')).
  assert (Hperm : dates ≡ₚ dates') by (subst dates dates'; by rewrite He, Hl, Ha).
  unfold dim_date in Hdd |- *. fold dates in Hdd. fold dates'.
  destruct (mapM dim_date_row (unique dates)) as [rows|] eqn:Hrows;
    cbn in Hdd; [|discriminate].
  injection Hdd as <-.
  destruct (proj2 (mapM_returns_iff dim_date_row (unique dates')))
    as [rows' Hrows'].
  { apply Forall_forall. intros d Hd.
    rewrite elem_of_unique, <-Hperm, <-elem_of_unique in Hd.
    eapply mapM_Returns_elem_of_l in Hd as (r & _ & Hr); [|exact Hrows]. eauto. }
  rewrite Hrows'. cbn. f_equal.
  assert (Hdates : ∀ rs ds, mapM dim_date_row ds = Returns rs →
            ∀ r, r ∈ rs ↔ Some (date r) ∈ ds
                          ∧ dim_date_row (Some (date r)) = Returns r).
  { intros rs ds Hrs r. split.
    - intros Hr. eapply mapM_Returns_elem_of_r in Hr as (d & Hd & Hrow); [|done].
      pose proof (dim_date_row_Returns _ _ Hrow) as [-> _]. done.
    - intros [Hd Hrow].
      eapply mapM_Returns_elem_of_l in Hd as (r' & Hr' & Hrow'); [|done].
      by rewrite (dim_date_row_inj _ _ _ Hrow Hrow'). }
  assert (Hnd : ∀ rs ds, mapM dim_date_row ds = Returns rs → NoDup ds →
                         NoDup rs).
  { intros rs ds Hrs Hds. apply (NoDup_fmap_1 (Some ∘ date)).
    by rewrite (mapM_dim_date_row_dates _ _ Hrs). }
  symmetry. apply StronglySorted_unique_strong
    with (R := λ a b : DimDate, ts_le (date a) (date b)).
  - intros r1 r2 Hr1 Hr2 H12 H21.
    pose proof (ts_le_antisym _ _ H12 H21) as Heq.
    unfold sort_values_date in Hr1, Hr2.
    rewrite merge_sort_Permutation in Hr1, Hr2.
    apply (Hdates _ _ Hrows) in Hr1 as [_ Hrow1].
    apply (Hdates _ _ Hrows') in Hr2 as [_ Hrow2].
    rewrite Heq in Hrow1. by apply (dim_date_row_inj _ _ _ Hrow1 Hrow2).
  - apply sort_values_date_sorted.
  - apply sort_values_date_sorted.
  - unfold sort_values_date. rewrite !merge_sort_Permutation.
    apply NoDup_Permutation.
    + apply (Hnd _ _ Hrows), NoDup_unique.
    + apply (Hnd _ _ Hrows'), NoDup_unique.
    + intros r. rewrite (Hdates _ _ Hrows r), (Hdates _ _ Hrows' r).
      by rewrite !elem_of_unique, Hperm.
Qed.

(** X11: the date dimension has exactly one row for each distinct timestamp
    of the three sources, time of day included, and the calendar columns of
    a row are those of its timestamp. *)
Theorem dim_date_one_row_per_timestamp df_ehr df_lims df_appointments dd :
  dim_date df_ehr df_lims df_appointments = Returns dd →
  NoDup (date <$> dd)
  ∧ (∀ t, t ∈ date <$> dd
          ↔ Some t ∈ (ehr_encounter_date <$> df_ehr)
                     ++ (lims_order_date <$> df_lims)
                     ++ (apt_appointment_date <$> df_appointments))
  ∧ (∀ r, r ∈ dd →
       year r = ts_year (date r) ∧ month r = ts_month (date r)
       ∧ day r = ts_day (date r)
       ∧ quarter_of_year r = (ts_month (date r) - 1) `div` 3 + 1
       ∧ 0 ≤ day_of_week r ≤ 6).
Proof.
  intros Hdd. split; [by eapply NoDup_dim_date_dates|]. split.
  - intros t. split.
    + intros (r & -> & Hr)%list_elem_of_fmap.
      by destruct (dim_date_rows _ _ _ _ _ Hdd Hr).
    + intros Ht. apply dim_date_Returns in Hdd as (rows & Hrows & Hperm).
      rewrite Hperm. rewrite <-elem_of_unique in Ht.
      eapply mapM_Returns_elem_of_l in Ht as (r & Hr & Hrow); [|done].
      apply dim_date_row_Returns in Hrow as [[= ->] _].
      by apply list_elem_of_fmap_2.
  - intros r Hr. destruct (dim_date_rows _ _ _ _ _ Hdd Hr) as [_ Hrow].
    unfold dim_date_row in Hrow.
    destruct (to_date_key _) as [k|]; cbn in Hrow; [|discriminate].
    injection Hrow as Hrow.
    pose proof (f_equal year Hrow) as Hy.
    pose proof (f_equal month Hrow) as Hm.
    pose proof (f_equal day Hrow) as Hd.
    pose proof (f_equal quarter_of_year Hrow) as Hq.
    pose proof (f_equal day_of_week Hrow) as Hw.
    cbn in Hy, Hm, Hd, Hq, Hw.
    rewrite <-Hy, <-Hm, <-Hd, <-Hq, <-Hw.
    repeat split; try done; unfold dayofweek;
      pose proof (Z.mod_pos_bound
        (days_from_civil (ts_year (date r)) (ts_month (date r))
           (ts_day (date r)) + 3) 7 ltac:(lia)); lia.
Qed.
End DateOrderFacts.

Lemma sample_dim_date :
  dim_date (df_ehr sample_sources) (df_lims sample_sources)
    (df_appointments sample_sources) = Returns (t_dim_date sample_tables).
Proof. vm_compute. reflexivity. Qed.

Lemma dim_date_sorted_witness :
  StronglySorted (λ a b, ts_le (date a) (date b) ∧ date a ≠ date b)
    (t_dim_date sample_tables)
  ∧ (Forall valid_date
       ((ehr_encounter_date <$> df_ehr sample_sources)
        ++ (lims_order_date <$> df_lims sample_sources)
        ++ (apt_appointment_date <$> df_appointments sample_sources)) →
     StronglySorted Z.le (date_key <$> t_dim_date sample_tables)).
Proof.
  apply (dim_date_sorted (df_ehr sample_sources) (df_lims sample_sources)
           (df_appointments sample_sources)).
  exact sample_dim_date.
Defined.

Lemma dim_date_order_independent_witness :
  dim_date (reverse (df_ehr sample_sources)) (df_lims sample_sources)
    (df_appointments sample_sources) = Returns (t_dim_date sample_tables).
Proof.
  apply (dim_date_order_independent (df_ehr sample_sources)
           (df_lims sample_sources) (df_appointments sample_sources)).
  - symmetry. apply reverse_Permutation.
  - reflexivity.
  - reflexivity.
  - exact sample_dim_date.
Defined.

Lemma dim_date_one_row_per_timestamp_witness :
  NoDup (date <$> t_dim_date sample_tables)
  ∧ (∀ t, t ∈ date <$> t_dim_date sample_tables
          ↔ Some t ∈ (ehr_encounter_date <$> df_ehr sample_sources)
                     ++ (lims_order_date <$> df_lims sample_sources)
                     ++ (apt_appointment_date
                           <$> df_appointments sample_sources))
  ∧ (∀ r, r ∈ t_dim_date sample_tables →
       year r = ts_year (date r) ∧ month r = ts_month (date r)
       ∧ day r = ts_day (date r)
       ∧ quarter_of_year r = (ts_month (date r) - 1) `div` 3 + 1
       ∧ 0 ≤ day_of_week r ≤ 6).
Proof.
  apply (dim_date_one_row_per_timestamp (df_ehr sample_sources)
           (df_lims sample_sources) (df_appointments sample_sources)).
  exact sample_dim_date.
Defined.

(** ** More on the date key *)

(** X12: the date key of a valid timestamp is the integer YYYYMMDD: it has
    eight digits and the year, the month and the day can be read back from
    it. *)
Theorem date_key_is_YYYYMMDD (t : Timestamp) :
  valid_timestamp t →
  ∃ k, to_date_key (Some t) = Returns k
       ∧ k = ts_year t * 10000 + ts_month t * 100 + ts_day t
       ∧ 10000101 ≤ k ≤ 99991231
       ∧ k `div` 10000 = ts_year t
       ∧ (k `div` 100) `mod` 100 = ts_month t
       ∧ k `mod` 100 = ts_day t.
Proof.
  intros Hvalid. pose proof Hvalid as ([? ?] & [? ?] & [? ?] & _).
  eexists. split; [by apply to_date_key_valid|]. split; [done|].
  split; [lia|].
  repeat split.
  - symmetry. apply Z.div_unique with (r := ts_month t * 100 + ts_day t); lia.
  - replace ((ts_year t * 10000 + ts_month t * 100 + ts_day t) `div` 100)
      with (ts_year t * 100 + ts_month t)
      by (apply Z.div_unique with (r := ts_day t); lia).
    symmetry. apply Z.mod_unique with (q := ts_year t); lia.
  - symmetry.
    apply Z.mod_unique with (q := ts_year t * 100 + ts_month t); lia.
Qed.

(** X13: two valid timestamps have the same date key exactly when they fall
    on the same calendar date; the time of day plays no part. *)
Theorem date_key_same_calendar_date (t1 t2 : Timestamp) :
  valid_timestamp t1 → valid_timestamp t2 →
  to_date_key (Some t1) = to_date_key (Some t2) ↔ normalize t1 = normalize t2.
Proof.
  intros H1 H2. split; [by apply to_date_key_same_date|].
  intros Hn. rewrite <-(to_date_key_normalize t1), <-(to_date_key_normalize t2).
  by rewrite Hn.
Qed.

Lemma at_time_valid_example : valid_timestamp (at_time 2024 1 5 9 30 0).
Proof. vm_compute. repeat split; discriminate. Qed.

Lemma at_time_valid_example_2 : valid_timestamp (at_time 2024 1 5 14 45 0).
Proof. vm_compute. repeat split; discriminate. Qed.

Lemma date_key_is_YYYYMMDD_witness :
  ∃ k, to_date_key (Some (at_time 2024 1 5 9 30 0)) = Returns k
       ∧ k = ts_year (at_time 2024 1 5 9 30 0) * 10000
             + ts_month (at_time 2024 1 5 9 30 0) * 100
             + ts_day (at_time 2024 1 5 9 30 0)
       ∧ 10000101 ≤ k ≤ 99991231
       ∧ k `div` 10000 = ts_year (at_time 2024 1 5 9 30 0)
       ∧ (k `div` 100) `mod` 100 = ts_month (at_time 2024 1 5 9 30 0)
       ∧ k `mod` 100 = ts_day (at_time 2024 1 5 9 30 0).
Proof.
  apply (date_key_is_YYYYMMDD (at_time 2024 1 5 9 30 0)).
  exact at_time_valid_example.
Defined.

Lemma date_key_same_calendar_date_witness :
  to_date_key (Some (at_time 2024 1 5 9 30 0))
  = to_date_key (Some (at_time 2024 1 5 14 45 0))
  ↔ normalize (at_time 2024 1 5 9 30 0) = normalize (at_time 2024 1 5 14 45 0).
Proof.
  apply (date_key_same_calendar_date (at_time 2024 1 5 9 30 0)
           (at_time 2024 1 5 14 45 0)).
  - exact at_time_valid_example.
  - exact at_time_valid_example_2.
Defined.

(** ** More on the fact tables *)

Section MergeMoreFacts.
Context `{EqDecision K} {L R : Type}.
Context (left_on : L → option K) (right_on : R → option K).

(** What a row of the merge is made of. *)
Lemma elem_of_merge_left_inv (left : list L) (right : list R)
    (l : L) (r : option R) :
  (l, r) ∈ merge_left left_on right_on left right ↔
  l ∈ left
  ∧ match r with
    | Some r => r ∈ right ∧ right_on r = left_on l
    | None => left_on l ∉ right_on <$> right
    end.
Proof.
  unfold merge_left. rewrite list_elem_of_bind. split.
  - intros (l' & Hrow & Hl').
    destruct (filter (λ r, right_on r = left_on l') right) as [|r0 rs] eqn:Hf.
    + apply list_elem_of_singleton in Hrow as [= -> ->]. split; [done|].
      intros (r & Hk & Hr)%list_elem_of_fmap.
      apply (filter_nil_not_elem_of _ _ r Hf); done.
    + apply list_elem_of_fmap in Hrow as (r' & [= -> ->] & Hr').
      split; [done|]. rewrite <-Hf in Hr'.
      apply list_elem_of_filter in Hr' as [? ?]. done.
  - intros [Hl Hr]. exists l. split; [|done].
    destruct r as [r|].
    + destruct Hr as [Hr Hk].
      assert (Hin : r ∈ filter (λ r, right_on r = left_on l) right)
        by (by apply list_elem_of_filter).
      destruct (filter _ right) as [|r0 rs]; [by apply elem_of_nil in Hin|].
      by apply (list_elem_of_fmap_2 (λ r, (l, Some r))).
    + rewrite filter_no_match by done. by apply list_elem_of_singleton.
Qed.

(** Every left row is in the merge. *)
Lemma elem_of_merge_left_l (left : list L) (right : list R) (l : L) :
  l ∈ left → ∃ r, (l, r) ∈ merge_left left_on right_on left right.
Proof.
  intros Hl.
  destruct (filter (λ r, right_on r = left_on l) right) as [|r rs] eqn:Hf.
  - exists None. apply elem_of_merge_left_inv. split; [done|].
    intros (r & Hk & Hr)%list_elem_of_fmap.
    apply (filter_nil_not_elem_of _ _ r Hf); done.
  - exists (Some r). apply elem_of_merge_left_inv. split; [done|].
    assert (Hin : r ∈ filter (λ r, right_on r = left_on l) right)
      by (rewrite Hf; left).
    by apply list_elem_of_filter in Hin as [? ?].
Qed.

(** With a key column free of duplicates, the row of a key is the match. *)
Lemma head_filter_unique_key (right : list R) (j : nat) (r : R) :
  NoDup (right_on <$> right) → right !! j = Some r →
  head (filter (λ r', right_on r' = right_on r) right) = Some r.
Proof.
  intros Hnd Hj.
  pose proof (filter_unique_key right_on right (right_on r) Hnd) as Hlen.
  assert (Hin : r ∈ filter (λ r', right_on r' = right_on r) right).
  { apply list_elem_of_filter. split; [done|]. by eapply list_elem_of_lookup_2. }
  destruct (filter _ right) as [|r0 [|r1 rs]]; cbn in *.
  - by apply elem_of_nil in Hin.
  - by apply list_elem_of_singleton in Hin as ->.
  - lia.
Qed.
End MergeMoreFacts.

Section FactMoreFacts.
Context {K cell : Type} `{!EqDecision K, !EqDecision cell}.
Implicit Types (dp : list (DimPatient K cell)).

Lemma patient_keys_resolve dp (nhs : option K) (r : option (option K * Z)) :
  match r with
  | Some r => r ∈ patient_keys dp ∧ r.1 = nhs
  | None => nhs ∉ fst <$> patient_keys dp
  end →
  resolves dp nhs (snd <$> r).
Proof.
  unfold resolves, patient_keys. destruct r as [[nhs' k]|]; cbn.
  - intros [(p & [= -> ->] & Hp)%list_elem_of_fmap <-]. eauto.
  - by rewrite <-list_fmap_compose.
Qed.

(** The rows of [fact_encounters], without assumption on the patients. *)
Lemma fact_encounters_elements (df_ehr : list (EhrRow K cell)) dp fact :
  fact_encounters df_ehr dp = Returns fact →
  (length df_ehr ≤ length fact)%nat
  ∧ (∀ e, e ∈ df_ehr → ∃ f, f ∈ fact ∧ copies_encounter f e)
  ∧ (∀ f, f ∈ fact →
       (∃ e, e ∈ df_ehr ∧ copies_encounter f e)
       ∧ resolves dp (fe_nhs_number f) (fe_patient_key f)).
Proof.
  intros Hfact. unfold fact_encounters in Hfact. split; [|split].
  - rewrite (mapM_Returns_length _ _ _ Hfact). apply merge_left_length_ge.
  - intros e He.
    destruct (elem_of_merge_left_l ehr_nhs_number fst df_ehr (patient_keys dp)
                e He) as [r Hr].
    eapply mapM_Returns_elem_of_l in Hr as (f & Hf & Hg); [|exact Hfact].
    exists f. split; [done|]. cbn in Hg.
    destruct (to_date_key (ehr_encounter_date e)) as [k|] eqn:Hk;
      [|discriminate].
    injection Hg as <-. by repeat split.
  - intros f Hf.
    eapply mapM_Returns_elem_of_r in Hf as (row & Hrow & Hg); [|exact Hfact].
    destruct row as [e r].
    apply elem_of_merge_left_inv in Hrow as [He Hr]. cbn in Hg.
    destruct (to_date_key (ehr_encounter_date e)) as [k|] eqn:Hk;
      [|discriminate].
    injection Hg as <-. split.
    + exists e. split; [done|]. by repeat split.
    + cbn. by apply patient_keys_resolve.
Qed.

Lemma fact_lab_tests_elements (df_lims : list (LimsRow K cell)) dp fact :
  fact_lab_tests df_lims dp = Returns fact →
  (length df_lims ≤ length fact)%nat
  ∧ (∀ e, e ∈ df_lims → ∃ f, f ∈ fact ∧ copies_lab_test f e)
  ∧ (∀ f, f ∈ fact →
       (∃ e, e ∈ df_lims ∧ copies_lab_test f e)
       ∧ resolves dp (fl_nhs_number f) (fl_patient_key f)).
Proof.
  intros Hfact. unfold fact_lab_tests in Hfact. split; [|split].
  - rewrite (mapM_Returns_length _ _ _ Hfact). apply merge_left_length_ge.
  - intros e He.
    destruct (elem_of_merge_left_l lims_nhs_number fst df_lims (patient_keys dp)
                e He) as [r Hr].
    eapply mapM_Returns_elem_of_l in Hr as (f & Hf & Hg); [|exact Hfact].
    exists f. split; [done|]. cbn in Hg.
    destruct (to_date_key (lims_order_date e)) as [k|] eqn:Hk; [|discriminate].
    injection Hg as <-. by repeat split.
  - intros f Hf.
    eapply mapM_Returns_elem_of_r in Hf as (row & Hrow & Hg); [|exact Hfact].
    destruct row as [e r].
    apply elem_of_merge_left_inv in Hrow as [He Hr]. cbn in Hg.
    destruct (to_date_key (lims_order_date e)) as [k|] eqn:Hk; [|discriminate].
    injection Hg as <-. split.
    + exists e. split; [done|]. by repeat split.
    + cbn. by apply patient_keys_resolve.
Qed.

Lemma fact_appointments_elements
    (df_appointments : list (AppointmentRow K cell)) dp fact :
  fact_appointments df_appointments dp = Returns fact →
  (length df_appointments ≤ length fact)%nat
  ∧ (∀ e, e ∈ df_appointments → ∃ f, f ∈ fact ∧ copies_appointment f e)
  ∧ (∀ f, f ∈ fact →
       (∃ e, e ∈ df_appointments ∧ copies_appointment f e)
       ∧ resolves dp (fa_nhs_number f) (fa_patient_key f)).
Proof.
  intros Hfact. unfold fact_appointments in Hfact. split; [|split].
  - rewrite (mapM_Returns_length _ _ _ Hfact). apply merge_left_length_ge.
  - intros e He.
    destruct (elem_of_merge_left_l apt_nhs_number fst df_appointments
                (patient_keys dp) e He) as [r Hr].
    eapply mapM_Returns_elem_of_l in Hr as (f & Hf & Hg); [|exact Hfact].
    exists f. split; [done|]. cbn in Hg.
    destruct (to_date_key (apt_appointment_date e)) as [k|] eqn:Hk;
      [|discriminate].
    injection Hg as <-. by repeat split.
  - intros f Hf.
    eapply mapM_Returns_elem_of_r in Hf as (row & Hrow & Hg); [|exact Hfact].
    destruct row as [e r].
    apply elem_of_merge_left_inv in Hrow as [He Hr]. cbn in Hg.
    destruct (to_date_key (apt_appointment_date e)) as [k|] eqn:Hk;
      [|discriminate].
    injection Hg as <-. split.
    + exists e. split; [done|]. by repeat split.
    + cbn. by apply patient_keys_resolve.
Qed.

(** X14: whether or not [nhs_number] repeats in the patient source, no
    event is lost and none is invented: each fact table has at least as many
    rows as its source, every event has a fact row with its columns and date
    key, and every fact row copies an event. *)
Theorem fact_tables_keep_every_event (src : Sources K cell)
    (t : Tables K cell) :
  transform src = Returns t →
  ((length (df_ehr src) ≤ length (t_fact_encounters t))%nat
   ∧ (∀ e, e ∈ df_ehr src →
        ∃ f, f ∈ t_fact_encounters t ∧ copies_encounter f e)
   ∧ (∀ f, f ∈ t_fact_encounters t →
        ∃ e, e ∈ df_ehr src ∧ copies_encounter f e))
  ∧ ((length (df_lims src) ≤ length (t_fact_lab_tests t))%nat
     ∧ (∀ e, e ∈ df_lims src →
          ∃ f, f ∈ t_fact_lab_tests t ∧ copies_lab_test f e)
     ∧ (∀ f, f ∈ t_fact_lab_tests t →
          ∃ e, e ∈ df_lims src ∧ copies_lab_test f e))
  ∧ ((length (df_appointments src) ≤ length (t_fact_appointments t))%nat
     ∧ (∀ e, e ∈ df_appointments src →
          ∃ f, f ∈ t_fact_appointments t ∧ copies_appointment f e)
     ∧ (∀ f, f ∈ t_fact_appointments t →
          ∃ e, e ∈ df_appointments src ∧ copies_appointment f e)).
Proof.
  intros (_ & _ & _ & Hfe & Hfl & Hfa)%transform_Returns.
  apply fact_encounters_elements in Hfe as (? & ? & Hfe).
  apply fact_lab_tests_elements in Hfl as (? & ? & Hfl).
  apply fact_appointments_elements in Hfa as (? & ? & Hfa).
  repeat split; try done.
  - intros f Hf. by destruct (Hfe f Hf).
  - intros f Hf. by destruct (Hfl f Hf).
  - intros f Hf. by destruct (Hfa f Hf).
Qed.

(** X15: every [patient_key] of a fact table resolves in the patient
    dimension: a key that is not null is the key of a patient row with the
    [nhs_number] of the fact row, and a null key means that no patient row
    has that [nhs_number]. *)
Theorem fact_patient_keys_resolve (src : Sources K cell) (t : Tables K cell) :
  transform src = Returns t →
  (∀ f, f ∈ t_fact_encounters t →
     resolves (t_dim_patient t) (fe_nhs_number f) (fe_patient_key f))
  ∧ (∀ f, f ∈ t_fact_lab_tests t →
       resolves (t_dim_patient t) (fl_nhs_number f) (fl_patient_key f))
  ∧ (∀ f, f ∈ t_fact_appointments t →
       resolves (t_dim_patient t) (fa_nhs_number f) (fa_patient_key f)).
Proof.
  intros (-> & _ & _ & Hfe & Hfl & Hfa)%transform_Returns.
  apply fact_encounters_elements in Hfe as (_ & _ & Hfe).
  apply fact_lab_tests_elements in Hfl as (_ & _ & Hfl).
  apply fact_appointments_elements in Hfa as (_ & _ & Hfa).
  repeat split; intros f Hf.
  - by destruct (Hfe f Hf).
  - by destruct (Hfl f Hf).
  - by destruct (Hfa f Hf).
Qed.

Lemma patient_keys_lookup (df_pas : list (PasRow K cell)) (j : nat) p :
  df_pas !! j = Some p →
  patient_keys (dim_patient df_pas) !! j
  = Some (pas_nhs_number p, Z.of_nat j + 1).
Proof.
  intros Hj. unfold patient_keys.
  rewrite list_lookup_fmap, dim_patient_lookup, Hj. cbn. do 2 f_equal. lia.
Qed.

(** X16: when no [nhs_number] occurs twice in the patient source, row [i]
    of a fact table carries the surrogate key of the patient with the
    [nhs_number] of event [i]: [j + 1] for the patient in source row [j]. *)
Theorem matched_event_gets_patient_key (src : Sources K cell)
    (t : Tables K cell) (j : nat) (p : PasRow K cell) :
  NoDup (pas_nhs_number <$> df_pas src) →
  transform src = Returns t →
  df_pas src !! j = Some p →
  (∀ (i : nat) e, df_ehr src !! i = Some e →
     ehr_nhs_number e = pas_nhs_number p →
     ∃ f, t_fact_encounters t !! i = Some f
          ∧ fe_patient_key f = Some (Z.of_nat j + 1))
  ∧ (∀ (i : nat) e, df_lims src !! i = Some e →
       lims_nhs_number e = pas_nhs_number p →
       ∃ f, t_fact_lab_tests t !! i = Some f
            ∧ fl_patient_key f = Some (Z.of_nat j + 1))
  ∧ (∀ (i : nat) e, df_appointments src !! i = Some e →
       apt_nhs_number e = pas_nhs_number p →
       ∃ f, t_fact_appointments t !! i = Some f
            ∧ fa_patient_key f = Some (Z.of_nat j + 1)).
Proof.
  intros Hnd (_ & _ & _ & Hfe & Hfl & Hfa)%transform_Returns Hj.
  pose proof (NoDup_patient_keys _ Hnd) as Hkeys.
  pose proof (patient_keys_lookup _ _ _ Hj) as Hrow.
  pose proof (head_filter_unique_key fst _ _ _ Hkeys Hrow) as Hhead.
  cbn in Hhead.
  unfold fact_encounters in Hfe. unfold fact_lab_tests in Hfl.
  unfold fact_appointments in Hfa.
  apply mapM_merge_left in Hfe as [_ Hfe]; [|done].
  apply mapM_merge_left in Hfl as [_ Hfl]; [|done].
  apply mapM_merge_left in Hfa as [_ Hfa]; [|done].
  repeat split; intros i e Hi Hnhs.
  - destruct (Hfe i e Hi) as (f & Hf & Hg). exists f. split; [done|].
    cbn in Hg. rewrite Hnhs, Hhead in Hg.
    destruct (to_date_key _); [|discriminate]. by injection Hg as <-.
  - destruct (Hfl i e Hi) as (f & Hf & Hg). exists f. split; [done|].
    cbn in Hg. rewrite Hnhs, Hhead in Hg.
    destruct (to_date_key _); [|discriminate]. by injection Hg as <-.
  - destruct (Hfa i e Hi) as (f & Hf & Hg). exists f. split; [done|].
    cbn in Hg. rewrite Hnhs, Hhead in Hg.
    destruct (to_date_key _); [|discriminate]. by injection Hg as <-.
Qed.
End FactMoreFacts.

Lemma fact_tables_keep_every_event_witness :
  ((length (df_ehr sample_sources) ≤ length (t_fact_encounters sample_tables))%nat
   ∧ (∀ e, e ∈ df_ehr sample_sources →
        ∃ f, f ∈ t_fact_encounters sample_tables ∧ copies_encounter f e)
   ∧ (∀ f, f ∈ t_fact_encounters sample_tables →
        ∃ e, e ∈ df_ehr sample_sources ∧ copies_encounter f e))
  ∧ ((length (df_lims sample_sources)
      ≤ length (t_fact_lab_tests sample_tables))%nat
     ∧ (∀ e, e ∈ df_lims sample_sources →
          ∃ f, f ∈ t_fact_lab_tests sample_tables ∧ copies_lab_test f e)
     ∧ (∀ f, f ∈ t_fact_lab_tests sample_tables →
          ∃ e, e ∈ df_lims sample_sources ∧ copies_lab_test f e))
  ∧ ((length (df_appointments sample_sources)
      ≤ length (t_fact_appointments sample_tables))%nat
     ∧ (∀ e, e ∈ df_appointments sample_sources →
          ∃ f, f ∈ t_fact_appointments sample_tables ∧ copies_appointment f e)
     ∧ (∀ f, f ∈ t_fact_appointments sample_tables →
          ∃ e, e ∈ df_appointments sample_sources ∧ copies_appointment f e)).
Proof.
  apply (fact_tables_keep_every_event sample_sources sample_tables).
  exact sample_transform.
Defined.

Lemma fact_patient_keys_resolve_witness :
  (∀ f, f ∈ t_fact_encounters sample_tables →
     resolves (t_dim_patient sample_tables) (fe_nhs_number f)
       (fe_patient_key f))
  ∧ (∀ f, f ∈ t_fact_lab_tests sample_tables →
       resolves (t_dim_patient sample_tables) (fl_nhs_number f)
         (fl_patient_key f))
  ∧ (∀ f, f ∈ t_fact_appointments sample_tables →
       resolves (t_dim_patient sample_tables) (fa_nhs_number f)
         (fa_patient_key f)).
Proof.
  apply (fact_patient_keys_resolve sample_sources sample_tables).
  exact sample_transform.
Defined.

Lemma matched_event_gets_patient_key_witness :
  (∀ (i : nat) e, df_ehr sample_sources !! i = Some e →
     ehr_nhs_number e
     = pas_nhs_number (patient "PAS000003" 9000000009 "Cy" "Okoro") →
     ∃ f, t_fact_encounters sample_tables !! i = Some f
          ∧ fe_patient_key f = Some (Z.of_nat 2 + 1))
  ∧ (∀ (i : nat) e, df_lims sample_sources !! i = Some e →
       lims_nhs_number e
       = pas_nhs_number (patient "PAS000003" 9000000009 "Cy" "Okoro") →
       ∃ f, t_fact_lab_tests sample_tables !! i = Some f
            ∧ fl_patient_key f = Some (Z.of_nat 2 + 1))
  ∧ (∀ (i : nat) e, df_appointments sample_sources !! i = Some e →
       apt_nhs_number e
       = pas_nhs_number (patient "PAS000003" 9000000009 "Cy" "Okoro") →
       ∃ f, t_fact_appointments sample_tables !! i = Some f
            ∧ fa_patient_key f = Some (Z.of_nat 2 + 1)).
Proof.
  apply (matched_event_gets_patient_key sample_sources sample_tables 2
           (patient "PAS000003" 9000000009 "Cy" "Okoro")).
  - exact sample_nhs_numbers_unique.
  - exact sample_transform.
  - reflexivity.
Defined.

(** ** More on the diagnosis dimension *)

Section UniqueMoreFacts.
Context `{EqDecision A}.
Implicit Types l : list A.

Lemma filter_all (P : A → Prop) `{!∀ x, Decision (P x)} l :
  (∀ x, x ∈ l → P x) → filter P l = l.
Proof.
  induction l as [|x l IH]; intros Hall; [done|].
  rewrite filter_cons_True by (apply Hall; left).
  f_equal. apply IH. intros y Hy. apply Hall. by right.
Qed.

(** Values appended to a column come after the values already there, and
    only the new ones are added. *)
Lemma unique_app l1 l2 :
  unique (l1 ++ l2) = unique l1 ++ filter (λ x, x ∉ l1) (unique l2).
Proof.
  induction l1 as [|x l1 IH]; cbn [app unique].
  - rewrite filter_all; [done|]. intros y _. apply not_elem_of_nil.
  - rewrite IH, filter_app, list_filter_filter. cbn. do 2 f_equal.
    apply list_filter_iff. intros y. rewrite not_elem_of_cons. tauto.
Qed.

Lemma length_unique_le l : (length (unique l) ≤ length l)%nat.
Proof.
  induction l as [|x l IH]; cbn; [done|].
  pose proof (length_filter (λ y, y ≠ x) (unique l)). lia.
Qed.
End UniqueMoreFacts.

Section DiagnosisMoreFacts.
Context {K cell : Type} `{!EqDecision cell}.
Implicit Types df_ehr : list (EhrRow K cell).

Lemma length_diagnosis_data df_ehr :
  (length (diagnosis_data df_ehr) ≤ ehr_with_diagnosis df_ehr)%nat.
Proof.
  unfold diagnosis_data, ehr_with_diagnosis.
  induction df_ehr as [|e df_ehr IH]; [done|].
  rewrite bind_cons, length_app, filter_cons.
  destruct (ehr_primary_diagnosis e); cbn; case_decide; cbn in *;
    try done; lia.
Qed.

(** X20: every encounter whose primary diagnosis is a dictionary finds its
    (code, description) pair in exactly one row of the diagnosis dimension,
    and the dimension has no more rows than there are encounters with a
    diagnosis (the figure the validate phase reports). *)
Theorem dim_diagnosis_complete df_ehr :
  (∀ e code descr,
     e ∈ df_ehr → ehr_primary_diagnosis e = DiagnosisDict code descr →
     ∃ r, r ∈ dim_diagnosis df_ehr
          ∧ icd10_code r = code ∧ description r = descr
          ∧ ∀ r', r' ∈ dim_diagnosis df_ehr →
                  icd10_code r' = code → description r' = descr → r' = r)
  ∧ (length (dim_diagnosis df_ehr) ≤ ehr_with_diagnosis df_ehr
     ≤ length df_ehr)%nat.
Proof.
  split.
  - intros e code descr He Hd.
    assert (Hin : (code, descr) ∈ unique (diagnosis_data df_ehr)).
    { apply elem_of_unique, elem_of_diagnosis_data. eauto. }
    rewrite <-dim_diagnosis_pairs in Hin.
    apply list_elem_of_fmap in Hin as (r & [= -> ->] & Hr).
    exists r. repeat split; [done|]. intros r' Hr' Hc Hdesc.
    pose proof (NoDup_unique (diagnosis_data df_ehr)) as Hnd.
    rewrite <-dim_diagnosis_pairs in Hnd.
    apply list_elem_of_lookup in Hr as [i Hi], Hr' as [i' Hi'].
    assert (i' = i) as ->.
    { eapply (NoDup_lookup _ _ _ _ Hnd); rewrite list_lookup_fmap.
      - by rewrite Hi'.
      - rewrite Hi. cbn. by rewrite Hc, Hdesc. }
    congruence.
  - split.
    + rewrite length_dim_diagnosis.
      pose proof (length_unique_le (diagnosis_data df_ehr)).
      pose proof (length_diagnosis_data df_ehr). lia.
    + unfold ehr_with_diagnosis. apply length_filter.
Qed.

(** X21: encounters appended to the source leave the rows and keys the
    diagnosis dimension already had as they are; only pairs not seen before
    add rows, after the existing ones. *)
Theorem dim_diagnosis_append_stable df_ehr (more : list (EhrRow K cell)) :
  (∀ (i : nat) r, dim_diagnosis df_ehr !! i = Some r →
     dim_diagnosis (df_ehr ++ more) !! i = Some r)
  ∧ length (dim_diagnosis (df_ehr ++ more))
    = (length (dim_diagnosis df_ehr)
       + length (filter (λ d, d ∉ diagnosis_data df_ehr)
                   (unique (diagnosis_data more))))%nat.
Proof.
  split.
  - intros i r. rewrite !dim_diagnosis_lookup, diagnosis_data_app, unique_app.
    destruct (unique (diagnosis_data df_ehr) !! i) as [d|] eqn:Hi;
      [|discriminate].
    by rewrite (lookup_app_l_Some _ _ _ _ Hi).
  - rewrite !length_dim_diagnosis, diagnosis_data_app, unique_app, length_app.
    done.
Qed.
End DiagnosisMoreFacts.

(** ** Runs of the transform phase *)

(** A key that occurs in a duplicate-free key column selects one row. *)
Lemma filter_key_one {A B} `{EqDecision B} (g : A → B) (l : list A) (k : B) :
  NoDup (g <$> l) → k ∈ g <$> l →
  length (filter (λ x, g x = k) l) = 1%nat.
Proof.
  induction l as [|x l IH]; [intros _ Hk; by apply elem_of_nil in Hk|].
  rewrite fmap_cons. intros [Hx Hnd]%NoDup_cons Hk.
  destruct (decide (g x = k)) as [Heq|Hne].
  - rewrite filter_cons_True by done. subst k. cbn. f_equal.
    apply length_zero_iff_nil. destruct (filter _ l) as [|y ys] eqn:Hf; [done|].
    exfalso. apply Hx.
    assert (Hy : y ∈ filter (λ x0, g x0 = g x) l) by (rewrite Hf; left).
    apply list_elem_of_filter in Hy as [<- Hy]. by apply list_elem_of_fmap_2.
  - rewrite filter_cons_False by done. apply IH; [done|].
    apply elem_of_cons in Hk as [?|?]; [congruence|done].
Qed.

Section RunTheorems.
Context {K cell : Type} `{!EqDecision K, !EqDecision cell}.



(** The dimension has a row for each source timestamp. *)
Lemma dim_date_row_of_source (src : Sources K cell) dd (t : Timestamp) :
  dim_date (df_ehr src) (df_lims src) (df_appointments src) = Returns dd →
  Some t ∈ event_dates src →
  ∃ r, r ∈ dd ∧ date r = t ∧ to_date_key (Some t) = Returns (date_key r).
Proof.
  intros (rows & Hrows & Hperm)%dim_date_Returns Ht.
  unfold event_dates in Ht. rewrite <-elem_of_unique in Ht.
  eapply mapM_Returns_elem_of_l in Ht as (r & Hr & Hrow); [|done].
  apply dim_date_row_Returns in Hrow as [[= ->] Hk].
  exists r. by rewrite Hperm.
Qed.

Lemma to_date_key_Returns_Some (d : option Timestamp) (k : Z) :
  to_date_key d = Returns k → ∃ t, d = Some t.
Proof. destruct d; [eauto|discriminate]. Qed.

(** X18: for every row of the three fact tables the date dimension has a
    row with the timestamp of that fact row and with its date key: no fact
    row is left without date row. *)
Theorem fact_dates_in_dimension (src : Sources K cell) (t : Tables K cell) :
  transform src = Returns t →
  (∀ f, f ∈ t_fact_encounters t →
     ∃ r, r ∈ t_dim_date t ∧ Some (date r) = fe_encounter_date f
          ∧ date_key r = fe_date_key f)
  ∧ (∀ f, f ∈ t_fact_lab_tests t →
       ∃ r, r ∈ t_dim_date t ∧ Some (date r) = fl_order_date f
            ∧ date_key r = fl_date_key f)
  ∧ (∀ f, f ∈ t_fact_appointments t →
       ∃ r, r ∈ t_dim_date t ∧ Some (date r) = fa_appointment_date f
            ∧ date_key r = fa_date_key f).
Proof.
  intros Ht. pose proof (transform_Returns _ _ Ht)
    as (_ & Hdd & _ & Hfe & Hfl & Hfa).
  apply (fact_encounters_elements (K:=K)) in Hfe as (_ & _ & Hfe).
  apply (fact_lab_tests_elements (K:=K)) in Hfl as (_ & _ & Hfl).
  apply (fact_appointments_elements (K:=K)) in Hfa as (_ & _ & Hfa).
  repeat split; intros f Hf.
  - destruct (Hfe f Hf) as [(e & He & Hc) _].
    destruct Hc as (_ & _ & Hdate & _ & _ & Hk).
    destruct (to_date_key_Returns_Some _ _ Hk) as [ts Hts].
    destruct (dim_date_row_of_source src _ ts Hdd) as (r & Hr & Hrd & Hrk).
    { unfold event_dates. rewrite !elem_of_app. left. rewrite <-Hts.
      by apply list_elem_of_fmap_2. }
    exists r. rewrite Hdate, Hts, Hrd. repeat split; [done|].
    rewrite Hts in Hk. congruence.
  - destruct (Hfl f Hf) as [(e & He & Hc) _].
    destruct Hc as (_ & _ & _ & _ & Hdate & _ & _ & Hk).
    destruct (to_date_key_Returns_Some _ _ Hk) as [ts Hts].
    destruct (dim_date_row_of_source src _ ts Hdd) as (r & Hr & Hrd & Hrk).
    { unfold event_dates. rewrite !elem_of_app. right. left. rewrite <-Hts.
      by apply list_elem_of_fmap_2. }
    exists r. rewrite Hdate, Hts, Hrd. repeat split; [done|].
    rewrite Hts in Hk. congruence.
  - destruct (Hfa f Hf) as [(e & He & Hc) _].
    destruct Hc as (_ & _ & Hdate & _ & _ & _ & Hk).
    destruct (to_date_key_Returns_Some _ _ Hk) as [ts Hts].
    destruct (dim_date_row_of_source src _ ts Hdd) as (r & Hr & Hrd & Hrk).
    { unfold event_dates. rewrite !elem_of_app. right. right. rewrite <-Hts.
      by apply list_elem_of_fmap_2. }
    exists r. rewrite Hdate, Hts, Hrd. repeat split; [done|].
    rewrite Hts in Hk. congruence.
Qed.

(** X19: when the sources hold valid dates without time of day, no
    [date_key] occurs twice in the date dimension and the date key of every
    fact row is the key of exactly one row of the dimension. *)
Theorem date_only_sources_unique_match (src : Sources K cell)
    (t : Tables K cell) :
  Forall (λ d, valid_date d ∧ date_only d) (event_dates src) →
  transform src = Returns t →
  NoDup (date_key <$> t_dim_date t)
  ∧ (∀ f, f ∈ t_fact_encounters t →
       length (filter (λ r, date_key r = fe_date_key f) (t_dim_date t)) = 1%nat)
  ∧ (∀ f, f ∈ t_fact_lab_tests t →
       length (filter (λ r, date_key r = fl_date_key f) (t_dim_date t)) = 1%nat)
  ∧ (∀ f, f ∈ t_fact_appointments t →
       length (filter (λ r, date_key r = fa_date_key f) (t_dim_date t))
       = 1%nat).
Proof.
  intros Hdates Ht.
  pose proof (fact_date_keys_covered src t Ht) as (Hce & Hcl & Hca).
  pose proof (transform_Returns _ _ Ht) as (_ & Hdd & _).
  pose proof (dim_date_keys_NoDup_date_only _ _ _ _ Hdd Hdates) as Hnd.
  split; [done|].
  repeat split; intros f Hf; apply filter_key_one; auto.
Qed.
End RunTheorems.



(** A source with one undated encounter stops the phase. *)
Example undated_sources_abort :
  transform undated_sources = Raises ValueError.
Proof. vm_compute. reflexivity. Qed.

Lemma fact_dates_in_dimension_witness :
  (∀ f, f ∈ t_fact_encounters sample_tables →
     ∃ r, r ∈ t_dim_date sample_tables ∧ Some (date r) = fe_encounter_date f
          ∧ date_key r = fe_date_key f)
  ∧ (∀ f, f ∈ t_fact_lab_tests sample_tables →
       ∃ r, r ∈ t_dim_date sample_tables ∧ Some (date r) = fl_order_date f
            ∧ date_key r = fl_date_key f)
  ∧ (∀ f, f ∈ t_fact_appointments sample_tables →
       ∃ r, r ∈ t_dim_date sample_tables
            ∧ Some (date r) = fa_appointment_date f
            ∧ date_key r = fa_date_key f).
Proof.
  apply (fact_dates_in_dimension sample_sources sample_tables).
  exact sample_transform.
Defined.

Lemma date_only_dates :
  Forall (λ d, valid_date d ∧ date_only d) (event_dates date_only_sources).
Proof.
  unfold event_dates. cbn.
  repeat (constructor;
          [split;
           [eexists; split; [reflexivity|];
            vm_compute; repeat split; discriminate
           |intros t [= <-]; reflexivity]|]).
  constructor.
Qed.

Lemma date_only_transform :
  transform date_only_sources = Returns date_only_tables.
Proof. vm_compute. reflexivity. Qed.

Lemma date_only_sources_unique_match_witness :
  NoDup (date_key <$> t_dim_date date_only_tables)
  ∧ (∀ f, f ∈ t_fact_encounters date_only_tables →
       length (filter (λ r, date_key r = fe_date_key f)
                 (t_dim_date date_only_tables)) = 1%nat)
  ∧ (∀ f, f ∈ t_fact_lab_tests date_only_tables →
       length (filter (λ r, date_key r = fl_date_key f)
                 (t_dim_date date_only_tables)) = 1%nat)
  ∧ (∀ f, f ∈ t_fact_appointments date_only_tables →
       length (filter (λ r, date_key r = fa_date_key f)
                 (t_dim_date date_only_tables)) = 1%nat).
Proof.
  apply (date_only_sources_unique_match date_only_sources date_only_tables).
  - exact date_only_dates.
  - exact date_only_transform.
Defined.

(** ** More on the load phase *)

Section LoadMoreFacts.
Context {K cell : Type}.
Implicit Types (t : Tables K cell) (conn : gmap string (frame K cell)).

Lemma in_memory_same_names t1 t2 (name : string) :
  in_memory t1 name = None ↔ in_memory t2 name = None.
Proof.
  rewrite !eq_None_not_Some, !in_memory_table_names. done.
Qed.

(** X22: a load replaces whatever an earlier load wrote: loading tables
    after other tables were loaded gives the warehouse that loading them
    directly gives. *)
Theorem load_last_write_wins t1 t2 conn :
  ∃ conn1, load t1 conn = Returns conn1 ∧ load t2 conn1 = load t2 conn.
Proof.
  destruct (load t1 conn) as [conn1|] eqn:H1;
    [|by rewrite load_Returns in H1].
  exists conn1. split; [done|].
  destruct (load t2 conn1) as [conn2|] eqn:H2;
    [|by rewrite load_Returns in H2].
  destruct (load t2 conn) as [conn2'|] eqn:H2';
    [|by rewrite load_Returns in H2'].
  f_equal. apply map_eq. intros name.
  rewrite (load_lookup _ _ _ name H2), (load_lookup _ _ _ name H2').
  destruct (in_memory t2 name) as [df|] eqn:Hdf; [done|].
  rewrite (load_lookup _ _ _ name H1).
  apply (in_memory_same_names t1 t2) in Hdf. by rewrite Hdf.
Qed.

(** X23: after the load phase the catalog lists the six tables besides the
    tables it had under other names, and counting the rows of each of the
    six gives the length of the in-memory table, whatever the warehouse held
    before. *)
Theorem load_then_verify t conn :
  ∃ conn1,
    load t conn = Returns conn1
    ∧ show_tables conn1 = show_tables conn ∪ list_to_set table_names
    ∧ count_star conn1 "dim_patient" = Returns (length (t_dim_patient t))
    ∧ count_star conn1 "dim_date" = Returns (length (t_dim_date t))
    ∧ count_star conn1 "dim_diagnosis" = Returns (length (t_dim_diagnosis t))
    ∧ count_star conn1 "fact_encounters"
      = Returns (length (t_fact_encounters t))
    ∧ count_star conn1 "fact_lab_tests" = Returns (length (t_fact_lab_tests t))
    ∧ count_star conn1 "fact_appointments"
      = Returns (length (t_fact_appointments t)).
Proof.
  destruct (load t conn) as [conn1|] eqn:Hload;
    [|by rewrite load_Returns in Hload].
  exists conn1. split; [done|]. split.
  - unfold show_tables. apply set_eq. intros name.
    rewrite elem_of_union, !elem_of_dom, elem_of_list_to_set.
    rewrite (load_lookup _ _ _ name Hload), <-(in_memory_table_names t).
    destruct (in_memory t name); split; eauto. intros [?|[? ?]]; done.
  - unfold count_star.
    rewrite !(load_lookup _ _ _ _ Hload). cbn. done.
Qed.
End LoadMoreFacts.

(** Without the [DROP], a second load would stop at the first table. *)
Example create_without_drop :
  create_table_as "dim_patient" (PatientFrame (t_dim_patient sample_tables))
    (<["dim_patient" := PatientFrame []]> ∅)
  = Raises CatalogException.
Proof. unfold create_table_as. by rewrite lookup_insert_eq. Qed.

(** ** The digits of an integer *)

Lemma length_codepoints (s : string) : length (codepoints s) = String.length s.
Proof.
  unfold codepoints. rewrite length_map.
  induction s as [|a s IH]; cbn; [done|]. by rewrite IH.
Qed.

Lemma length_string_of_uint (u : Decimal.uint) :
  String.length (NilEmpty.string_of_uint u) = nb_digits u.
Proof. induction u; cbn; by rewrite ?IHu. Qed.

Lemma length_decimal_digits (n : Z) :
  length (decimal_digits n) = nb_digits (N.to_uint (Z.abs_N n)).
Proof.
  unfold decimal_digits. rewrite length_codepoints.
  destruct (N.to_uint (Z.abs_N n)) eqn:Hu; cbn;
    try (by rewrite length_string_of_uint).
  destruct (Z.abs_N n); cbn in Hu; [discriminate|].
  by apply DecimalPos.Unsigned.to_uint_nonnil in Hu.
Qed.

(** The digits read after an accumulator. *)
Lemma of_uint_acc_bounds (l : Decimal.uint) (acc : positive) :
  Z.pos acc * 10 ^ Z.of_nat (nb_digits l) ≤ Z.pos (Pos.of_uint_acc l acc)
  < (Z.pos acc + 1) * 10 ^ Z.of_nat (nb_digits l).
Proof.
  revert acc. induction l as [|l IH|l IH|l IH|l IH|l IH|l IH|l IH|l IH|l IH|l IH];
    intros acc; cbn [Pos.of_uint_acc nb_digits];
    [cbn; lia|..];
    rewrite Nat2Z.inj_succ, Z.pow_succ_r by lia;
    match goal with
    | |- context [Pos.of_uint_acc l ?a] => specialize (IH a)
    end;
    assert (0 < 10 ^ Z.of_nat (nb_digits l)) by (apply Z.pow_pos_nonneg; lia);
    nia.
Qed.

(** An integer with [k] digits lies between [10^(k-1)] and [10^k]. *)
Lemma nb_digits_bounds (n : N) :
  let k := nb_digits (N.to_uint n) in
  (1 ≤ k)%nat
  ∧ Z.of_N n < 10 ^ Z.of_nat k
  ∧ (n ≠ 0%N → 10 ^ (Z.of_nat k - 1) ≤ Z.of_N n).
Proof.
  cbv zeta.
  pose proof (DecimalN.Unsigned.of_to n) as Hval.
  assert (Hnorm : unorm (N.to_uint n) = N.to_uint n).
  { rewrite <-(DecimalN.Unsigned.to_of (N.to_uint n)). by rewrite Hval. }
  destruct (N.to_uint n) as [|l|l|l|l|l|l|l|l|l|l] eqn:Hu.
  - by apply DecimalFacts.unorm_nonnil in Hnorm.
  - assert (l = Nil) as ->.
    { rewrite DecimalFacts.unorm_D0 in Hnorm. unfold unorm in Hnorm.
      destruct (nzhead l) eqn:Hl; try (by apply DecimalFacts.nzhead_nonzero in Hl);
        try discriminate.
      - by injection Hnorm. }
    cbn in *. subst n. cbn. split; [lia|]. split; [lia|done].
  - pose proof (of_uint_acc_bounds l 1). cbn in Hval |- *. subst n.
    rewrite Nat2Z.inj_succ, Z.pow_succ_r by lia.
    replace (Z.succ (Z.of_nat (nb_digits l)) - 1) with (Z.of_nat (nb_digits l))
      by lia.
    cbn. split; [lia|]. split; [lia|]. intros _. lia.
  - pose proof (of_uint_acc_bounds l 2). cbn in Hval |- *. subst n.
    rewrite Nat2Z.inj_succ, Z.pow_succ_r by lia.
    replace (Z.succ (Z.of_nat (nb_digits l)) - 1) with (Z.of_nat (nb_digits l))
      by lia.
    cbn. split; [lia|]. split; [lia|]. intros _. lia.
  - pose proof (of_uint_acc_bounds l 3). cbn in Hval |- *. subst n.
    rewrite Nat2Z.inj_succ, Z.pow_succ_r by lia.
    replace (Z.succ (Z.of_nat (nb_digits l)) - 1) with (Z.of_nat (nb_digits l))
      by lia.
    cbn. split; [lia|]. split; [lia|]. intros _. lia.
  - pose proof (of_uint_acc_bounds l 4). cbn in Hval |- *. subst n.
    rewrite Nat2Z.inj_succ, Z.pow_succ_r by lia.
    replace (Z.succ (Z.of_nat (nb_digits l)) - 1) with (Z.of_nat (nb_digits l))
      by lia.
    cbn. split; [lia|]. split; [lia|]. intros _. lia.
  - pose proof (of_uint_acc_bounds l 5). cbn in Hval |- *. subst n.
    rewrite Nat2Z.inj_succ, Z.pow_succ_r by lia.
    replace (Z.succ (Z.of_nat (nb_digits l)) - 1) with (Z.of_nat (nb_digits l))
      by lia.
    cbn. split; [lia|]. split; [lia|]. intros _. lia.
  - pose proof (of_uint_acc_bounds l 6). cbn in Hval |- *. subst n.
    rewrite Nat2Z.inj_succ, Z.pow_succ_r by lia.
    replace (Z.succ (Z.of_nat (nb_digits l)) - 1) with (Z.of_nat (nb_digits l))
      by lia.
    cbn. split; [lia|]. split; [lia|]. intros _. lia.
  - pose proof (of_uint_acc_bounds l 7). cbn in Hval |- *. subst n.
    rewrite Nat2Z.inj_succ, Z.pow_succ_r by lia.
    replace (Z.succ (Z.of_nat (nb_digits l)) - 1) with (Z.of_nat (nb_digits l))
      by lia.
    cbn. split; [lia|]. split; [lia|]. intros _. lia.
  - pose proof (of_uint_acc_bounds l 8). cbn in Hval |- *. subst n.
    rewrite Nat2Z.inj_succ, Z.pow_succ_r by lia.
    replace (Z.succ (Z.of_nat (nb_digits l)) - 1) with (Z.of_nat (nb_digits l))
      by lia.
    cbn. split; [lia|]. split; [lia|]. intros _. lia.
  - pose proof (of_uint_acc_bounds l 9). cbn in Hval |- *. subst n.
    rewrite Nat2Z.inj_succ, Z.pow_succ_r by lia.
    replace (Z.succ (Z.of_nat (nb_digits l)) - 1) with (Z.of_nat (nb_digits l))
      by lia.
    cbn. split; [lia|]. split; [lia|]. intros _. lia.
Qed.

(** A non-negative integer prints with ten characters exactly when it lies
    between [10^9] and [10^10]. *)
Lemma length_decimal_repr_ten (n : Z) :
  0 ≤ n → length (decimal_repr n) = 10%nat ↔ 10 ^ 9 ≤ n < 10 ^ 10.
Proof.
  intros Hn. unfold decimal_repr.
  destruct (decide (n < 0)); [lia|]. cbn [app].
  rewrite length_decimal_digits.
  pose proof (nb_digits_bounds (Z.abs_N n)) as (Hk & Hup & Hlow).
  rewrite N2Z.inj_abs_N, Z.abs_eq in Hup, Hlow by lia.
  set (k := nb_digits (N.to_uint (Z.abs_N n))) in *.
  split.
  - intros Hk10. rewrite Hk10 in Hup, Hlow. split; [|done].
    apply Hlow. intros Hzero.
    assert (n = 0) as -> by lia. subst k. cbn in Hk10. discriminate.
  - intros [Hlo Hhi].
    destruct (decide (k ≤ 9)%nat) as [Hsmall|Hbig].
    + assert (10 ^ Z.of_nat k ≤ 10 ^ 9) by (apply Z.pow_le_mono_r; lia). lia.
    + destruct (decide (11 ≤ k)%nat) as [Hlarge|]; [|lia].
      assert (10 ^ 10 ≤ 10 ^ (Z.of_nat k - 1))
        by (apply Z.pow_le_mono_r; lia).
      assert (n ≠ 0) by lia.
      assert (10 ^ (Z.of_nat k - 1) ≤ n) by (apply Hlow; lia). lia.
Qed.

Lemma digits_value_bounds (s : pystr) :
  forallb is_digit s = true → 0 ≤ digits_value s < 10 ^ Z.of_nat (length s).
Proof.
  induction s as [|c s IH]; intros Hs; [cbn; lia|].
  cbn in Hs. apply andb_prop in Hs as [Hc Hs]. specialize (IH Hs).
  unfold digits_value. cbn [foldl length]. rewrite foldl_digits_shift.
  rewrite Nat2Z.inj_succ, Z.pow_succ_r by lia.
  unfold is_digit in Hc. apply andb_prop in Hc as [Hlo Hhi].
  apply N.leb_le in Hlo, Hhi.
  assert (0 < 10 ^ Z.of_nat (length s)) by (apply Z.pow_pos_nonneg; lia).
  nia.
Qed.

Section IntegerFacts.
Variable py : Python.

(** On an integer the validator runs on the text [str] gives for it. *)
Lemma validate_int_str (n : Z) (s : pystr) :
  py_str py (PyInt n) = Returns s →
  validate_nhs_number py (PyInt n) = validate_nhs_number py (PyStr s).
Proof. intros Hs. unfold validate_nhs_number. by rewrite Hs. Qed.

Lemma validate_int_true (n : Z) :
  validate_nhs_number py (PyInt n) = Returns true →
  length (decimal_repr n) = 10%nat.
Proof.
  intros Hv.
  destruct (py_str py (PyInt n)) as [s|e] eqn:Hs.
  - rewrite (validate_int_str n s Hs) in Hv.
    apply validate_true_inv in Hv as [Hlen _].
    cbn in Hs. destruct (decide _); [discriminate|]. by injection Hs as <-.
  - unfold validate_nhs_number in Hv. rewrite Hs in Hv. discriminate.
Qed.

(** X24: the validator accepts a non-negative integer only if it has
    exactly ten digits: every integer from 0 below 1 000 000 000 and every
    integer from 10 000 000 000 on is refused. *)
Theorem validate_int_ten_digits (n : Z) :
  0 ≤ n →
  validate_nhs_number py (PyInt n) = Returns true →
  10 ^ 9 ≤ n < 10 ^ 10.
Proof.
  intros Hn Hv. apply length_decimal_repr_ten; [done|].
  by apply validate_int_true.
Qed.

(** X25: an identifier of ten ASCII digits that starts with 0, once read as
    an integer (as [read_csv] does with a column of digits), is refused,
    whether or not its ten-character text is valid. *)
Theorem leading_zero_identifier_refused (s : pystr) :
  length s = 10%nat → forallb is_digit s = true → s !! 0%nat = Some 48%N →
  validate_nhs_number py (PyInt (digits_value s)) = Returns false.
Proof.
  intros Hlen Hdigits H0.
  destruct (validate_returns py (PyInt (digits_value s))) as [[|] Hb];
    [exfalso|done].
  apply validate_int_true, length_decimal_repr_ten in Hb.
  - destruct s as [|c s]; [discriminate|]. injection H0 as ->.
    cbn in Hdigits, Hlen.
    pose proof (digits_value_bounds s Hdigits) as Hbound.
    replace (length s) with 9%nat in Hbound by lia.
    unfold digits_value in Hb. cbn [foldl] in Hb.
    change (10 * 0 + (Z.of_N 48 - 48)) with 0 in Hb.
    fold (digits_value s) in Hb. lia.
  - by apply digits_value_bounds.
Qed.
End IntegerFacts.

Lemma validate_int_ten_digits_witness : 10 ^ 9 ≤ 9434765919 < 10 ^ 10.
Proof.
  apply (validate_int_ten_digits cpython 9434765919).
  - lia.
  - vm_compute. reflexivity.
Defined.

Lemma leading_zero_identifier_refused_witness :
  validate_nhs_number cpython (PyInt (digits_value (codepoints "0123456789")))
  = Returns false.
Proof.
  apply (leading_zero_identifier_refused cpython (codepoints "0123456789"));
    reflexivity.
Defined.

(** ** The attendance figures *)

Section AttendanceFacts.
Context {K : Type}.
Implicit Types df : list (AppointmentRow K text_cell).

Lemma attended_is_past (c : text_cell) :
  cell_eq c "Attended" = true → cell_ne c "Scheduled" = true.
Proof.
  unfold cell_ne, cell_eq. destruct c as [s|]; [|done].
  intros Hs%bool_decide_eq_true. subst s. vm_compute. reflexivity.
Qed.

(** X26: the appointments counted as attended are among those counted as
    past, so the attendance rate printed is at most one; an appointment
    whose status is missing counts as past and not as attended, and one that
    is scheduled counts as neither. *)
Theorem attendance_counts df :
  (apt_attended df ≤ apt_past df ≤ length df)%nat
  ∧ (∀ a, apt_attendance_status a = None →
       apt_attended (a :: df) = apt_attended df
       ∧ apt_past (a :: df) = S (apt_past df))
  ∧ (∀ a, apt_attendance_status a = Some (codepoints "Scheduled") →
       apt_attended (a :: df) = apt_attended df
       ∧ apt_past (a :: df) = apt_past df)
  ∧ (∀ a, apt_attendance_status a = Some (codepoints "Attended") →
       apt_attended (a :: df) = S (apt_attended df)
       ∧ apt_past (a :: df) = S (apt_past df)).
Proof.
  split; [split|].
  - unfold apt_attended, apt_past. induction df as [|a df IH]; [done|].
    rewrite !filter_cons.
    destruct (decide (cell_eq (apt_attendance_status a) "Attended" = true))
      as [Hatt|Hno].
    + rewrite decide_True by (by apply attended_is_past). cbn. lia.
    + case_decide; cbn; lia.
  - unfold apt_past. apply length_filter.
  - unfold apt_attended, apt_past.
    split; [|split]; intros a Ha; rewrite !filter_cons; cbv beta;
      unfold text_cell in *; rewrite Ha; done.
Qed.
End AttendanceFacts.
